(** * Smart-Terraform-Tool: the LLM invocation layer

    A shallow embedding of [app/llm_enhancement]: the shared base class
    [LLMComponentBase] ([base.py]), the process-wide configuration
    ([config.py]) and the four domain components built on the base class
    ([parsers/parser.py], [generators/generator.py],
    [validators/validator.py], [optimizers/optimizer.py]), followed by the
    properties of the invocation contract.

    Python objects are explicit state: a method is a function in a small
    state-and-exception monad over the component object and the log.  What
    lies outside the repository (the OpenAI client, [json.loads],
    [float.__repr__]) is a record of functions, [Env], that every
    definition takes as a parameter. *)

From Stdlib Require Import ZArith String Ascii Floats DecimalString.
From stdpp Require Import base option list gmap.

Local Open Scope Z_scope.

(** ** Python values *)

Module Py.

(** A Python [str] is a sequence of Unicode code points. *)
Definition pystr : Type := list N.

(** Source literals are ASCII; [py] reads one as a [str]. *)
Definition py (s : string) : pystr :=
  map (fun a : ascii => N_of_ascii a) (list_ascii_of_string s).

Definition dq : string := String "034"%char EmptyString.

(** [pyq [s0; s1; ...]] is the literal [s0"s1"...]: the pieces of a source
    literal between its double-quote characters. *)
Definition pyq (pieces : list string) : pystr := py (String.concat dq pieces).

(** The values that travel through the component: what [json.loads] can
    return and what the recorded responses are made of.  A [dict] keeps its
    insertion order, which [json.dumps] follows. *)
#[warnings="-register-all"]
Inductive value : Type :=
| VNone
| VBool (b : bool)
| VInt (n : Z)
| VFloat (f : float)
| VStr (s : pystr)
| VList (l : list value)
| VDict (d : list (pystr * value)).

(** [len(s)] and [s[:n]] *)
Definition len {A} (s : list A) : Z := Z.of_nat (length s).
Definition slice_to {A} (n : nat) (s : list A) : list A := take n s.

(** Truth value testing, per type. *)
Definition str_truthy (s : pystr) : bool :=
  match s with [] => false | _ => true end.
Definition float_truthy (f : float) : bool := negb (PrimFloat.eqb f 0%float).
Definition int_truthy (n : Z) : bool := negb (n =? 0).
Definition dict_truthy (d : list (pystr * value)) : bool :=
  match d with [] => false | _ => true end.

(** Truthiness of an [Optional[T]]: [None] is false. *)
Definition opt_truthy {A} (t : A -> bool) (o : option A) : bool :=
  match o with Some a => t a | None => false end.

(** An [Optional[T]] argument as a value: [None] or the [T]. *)
Definition of_optional {A} (inj : A -> value) (o : option A) : value :=
  match o with Some a => inj a | None => VNone end.

(** [k in d] and [d[k]] on a dict. *)
Fixpoint dict_get (k : pystr) (d : list (pystr * value)) : option value :=
  match d with
  | [] => None
  | (k', v) :: d' => if decide (k = k') then Some v else dict_get k d'
  end.
Definition dict_keys (d : list (pystr * value)) : list pystr := map fst d.
Definition dict_contains (k : pystr) (d : list (pystr * value)) : bool :=
  bool_decide (k ∈ dict_keys d).

(** *** [json.dumps] with its default arguments

    [ensure_ascii=True], separators [", "] and [": "], [allow_nan=True]. *)

Definition hex_digit (n : N) : N :=
  (if n <? 10 then 48 + n else 87 + n)%N.

(** ['{0:04x}'.format(n)] for [n < 0x10000] *)
Definition hex4 (n : N) : pystr :=
  [hex_digit (N.land (N.shiftr n 12) 15); hex_digit (N.land (N.shiftr n 8) 15);
   hex_digit (N.land (N.shiftr n 4) 15); hex_digit (N.land n 15)].

(** One character of [py_encode_basestring_ascii]: the short escapes of
    [ESCAPE_DCT], printable ASCII unchanged, everything else as [\uXXXX]
    (a surrogate pair above the basic plane). *)
Definition escape_char (c : N) : pystr :=
  (if c =? 92 then py "\\"
   else if c =? 34 then [92; 34]
   else if c =? 8 then py "\b"
   else if c =? 12 then py "\f"
   else if c =? 10 then py "\n"
   else if c =? 13 then py "\r"
   else if c =? 9 then py "\t"
   else if (32 <=? c) && (c <=? 126) then [c]
   else if c <? 65536 then py "\u" ++ hex4 c
   else
     let n := c - 65536 in
     let s1 := N.lor 55296 (N.land (N.shiftr n 10) 1023) in
     let s2 := N.lor 56320 (N.land n 1023) in
     py "\u" ++ hex4 s1 ++ py "\u" ++ hex4 s2)%N.

Definition encode_basestring_ascii (s : pystr) : pystr :=
  [34%N] ++ concat (map escape_char s) ++ [34%N].

(** [int.__repr__] *)
Definition int_repr (n : Z) : pystr := py (NilZero.string_of_int (Z.to_int n)).

(** [", ".join(parts)] *)
Fixpoint join (sep : pystr) (parts : list pystr) : pystr :=
  match parts with
  | [] => []
  | [p] => p
  | p :: ps => p ++ sep ++ join sep ps
  end.

Section Dumps.
(** [float.__repr__] on finite floats is the interpreter's. *)
Variable float_repr : float -> pystr.

(** [json.encoder.floatstr] *)
Definition floatstr (f : float) : pystr :=
  if PrimFloat.is_nan f then py "NaN"
  else if PrimFloat.is_infinity f then
    (if PrimFloat.ltb f 0%float then py "-Infinity" else py "Infinity")
  else float_repr f.

Fixpoint json_dumps (v : value) : pystr :=
  match v with
  | VNone => py "null"
  | VBool true => py "true"
  | VBool false => py "false"
  | VInt n => int_repr n
  | VFloat f => floatstr f
  | VStr s => encode_basestring_ascii s
  | VList l => py "[" ++ join (py ", ") (map json_dumps l) ++ py "]"
  | VDict d =>
      py "{" ++
      join (py ", ")
        (map (fun kv : pystr * value =>
                match kv with
                | (k, x) => encode_basestring_ascii k ++ py ": " ++ json_dumps x
                end) d)
      ++ py "}"
  end.
End Dumps.

End Py.
Export Py.

(** ** Exceptions, the log, and what lies outside the repository *)

Inductive ExcClass : Type :=
| AttributeError
| TypeError
| IndexError
| JSONDecodeError
| Exception_
| ExternalError (name : pystr).   (* raised by the OpenAI client library *)

(** An exception object: its class and [str(e)]. *)
Record exn : Type := mk_exn { exn_class : ExcClass; exn_str : pystr }.

Inductive result (A : Type) : Type :=
| Ok (a : A)
| Raise (e : exn).
Arguments Ok {A} a.
Arguments Raise {A} e.

Inductive LogLevel : Type := DEBUG | INFO | WARNING | ERROR.
Record LogRecord : Type := mk_log { levelname : LogLevel; message : pystr }.

(** [openai.AzureOpenAI(azure_endpoint=, api_key=, api_version=)] *)
Record AzureOpenAI : Type := mk_client {
  azure_endpoint : pystr;
  api_key : pystr;
  api_version : pystr }.

(** The keyword arguments of [client.chat.completions.create]. *)
Record ChatRequest : Type := mk_request {
  model : pystr;
  messages : list (list (pystr * value));
  response_format : value;
  temperature : float;
  max_tokens : Z }.

(** The part of a completion that the code reads:
    [response.choices[i].message.content], a [str] or [None]. *)
Record ChatCompletion : Type := mk_completion {
  choices : list (option pystr) }.

Record Env : Type := mk_env {
  (** [float.__repr__] on a finite float *)
  float_repr : float -> pystr;
  (** [json.loads] on a [str]: the decoded value, or [JSONDecodeError] *)
  json_loads : pystr -> result value;
  (** whether constructing the client raises *)
  azure_openai_init : AzureOpenAI -> option exn;
  (** the backend call *)
  chat_completions_create : AzureOpenAI -> ChatRequest -> result ChatCompletion }.

(** ** [config.py] *)

Module Config.

(** The fields of [LLMEnhancementConfig] read from the process environment
    when the singleton [llm_config] is created. *)
Record LLMEnhancementConfig : Type := mk_config {
  azure_openai_endpoint : pystr;
  azure_openai_key : pystr;
  azure_openai_version : pystr;
  parser_deployment_id : pystr;
  generator_deployment_id : pystr;
  validator_deployment_id : pystr;
  optimizer_deployment_id : pystr;
  use_azure_openai : bool }.

(** Default model parameters: class-level constants. *)
Definition default_temperature : float := (0x1.999999999999ap-4)%float. (* 0.1 *)
Definition max_tokens : Z := 4000.
Definition timeout : Z := 60.

(** [getattr(llm_config, name)] for the names [call sites] build:
    [f"{component_name.lower()}_deployment_id"]. *)
Definition getattr (llm_config : LLMEnhancementConfig) (name : pystr) : result pystr :=
  if decide (name = py "parser_deployment_id") then Ok (parser_deployment_id llm_config)
  else if decide (name = py "generator_deployment_id") then Ok (generator_deployment_id llm_config)
  else if decide (name = py "validator_deployment_id") then Ok (validator_deployment_id llm_config)
  else if decide (name = py "optimizer_deployment_id") then Ok (optimizer_deployment_id llm_config)
  else Raise (mk_exn AttributeError
                (py "'LLMEnhancementConfig' object has no attribute '" ++ name ++ py "'")).

End Config.

(** ** [base.py] *)

Module Base.
Import Config.

(** An instance of [LLMComponentBase] (or of a subclass, [py_class]).
    [client] is the one attribute [__init__] does not assign on every
    path: [None] here is "attribute not set", [Some None] is the Python
    [None], [Some (Some c)] a constructed client. *)
Record LLMComponentBase : Type := mk_self {
  py_class : pystr;
  component_name : pystr;
  deployment_id : pystr;
  mock_responses : gmap pystr value;
  client : option (option AzureOpenAI) }.

(** What a method can read and change: the object and the log. *)
Record State : Type := mk_state {
  self : LLMComponentBase;
  log : list LogRecord }.

(** A method body: runs on a state, returns or raises, leaves a state. *)
Definition M (A : Type) : Type := State -> result A * State.

Definition ret {A} (a : A) : M A := fun st => (Ok a, st).
Definition raise {A} (e : exn) : M A := fun st => (Raise e, st).
Definition bind {A B} (m : M A) (k : A -> M B) : M B :=
  fun st =>
    match m st with
    | (Ok a, st') => k a st'
    | (Raise e, st') => (Raise e, st')
    end.

(** [try: body except Exception as e: handler e] *)
Definition try_except {A} (body : M A) (handler : exn -> M A) : M A :=
  fun st =>
    match body st with
    | (Ok a, st') => (Ok a, st')
    | (Raise e, st') => handler e st'
    end.

Definition lift {A} (r : result A) : M A := fun st => (r, st).

Declare Scope py_scope.
Delimit Scope py_scope with py.
Notation "'let*' x := m 'in' k" := (bind m (fun x => k))
  (at level 10, x name, m at level 100, k at level 200) : py_scope.
Notation "m ;; k" := (bind m (fun _ => k))
  (at level 100, k at level 200, right associativity) : py_scope.
Local Open Scope py_scope.

Definition get_self : M LLMComponentBase := fun st => (Ok (self st), st).
Definition set_self (s : LLMComponentBase) : M unit :=
  fun st => (Ok tt, mk_state s (log st)).

(** [logger.<level>(message)] *)
Definition logger (lvl : LogLevel) (msg : pystr) : M unit :=
  fun st => (Ok tt, mk_state (self st) (log st ++ [mk_log lvl msg])).

(** [str.lower()] on the ASCII letters. *)
Definition lower (s : pystr) : pystr :=
  map (fun c : N => if (65 <=? c)%N && (c <=? 90)%N then (c + 32)%N else c) s.

Definition run {A} (m : M A) (st : State) : result A := fst (m st).
Definition exec {A} (m : M A) (st : State) : State := snd (m st).

Section WithConfig.
Variable llm_config : LLMEnhancementConfig.
Variable env : Env.

(** [LLMComponentBase.__init__], called on a fresh object of class
    [cls]; [log0] is the log so far. *)
Definition __init__ (cls : pystr) (component_name : pystr)
    (deployment_id : option pystr) (log0 : list LogRecord) : result State :=
  match (match deployment_id with
         | Some d => if str_truthy d then Ok d
                     else getattr llm_config (lower component_name ++ py "_deployment_id")
         | None => getattr llm_config (lower component_name ++ py "_deployment_id")
         end) with
  | Raise e => Raise e
  | Ok deployment_id =>
      let self0 := mk_self cls component_name deployment_id ∅ None in
      (* Initialize Azure OpenAI client if configured *)
      if use_azure_openai llm_config then
        if negb (str_truthy (azure_openai_endpoint llm_config))
           || negb (str_truthy (azure_openai_key llm_config)) then
          Ok (mk_state self0
                (log0 ++ [mk_log WARNING
                   (py "Azure OpenAI credentials not provided. " ++ component_name
                    ++ py " will use mock responses.")]))
        else
          let c := mk_client (azure_openai_endpoint llm_config)
                     (azure_openai_key llm_config) (azure_openai_version llm_config) in
          match azure_openai_init env c with
          | None =>
              Ok (mk_state
                    (mk_self cls component_name deployment_id ∅ (Some (Some c)))
                    (log0 ++ [mk_log INFO
                       (py "Initialized " ++ component_name
                        ++ py " with Azure OpenAI deployment " ++ deployment_id)]))
          | Some e =>
              Ok (mk_state
                    (mk_self cls component_name deployment_id ∅ (Some None))
                    (log0 ++ [mk_log ERROR
                       (py "Failed to initialize Azure OpenAI client: " ++ exn_str e)]))
          end
      else
        Ok (mk_state
              (mk_self cls component_name deployment_id ∅ (Some None))
              (log0 ++ [mk_log INFO
                 (component_name ++ py " configured to use mock responses")]))
  end.

(** Reading [self.client]: an [AttributeError] when never assigned. *)
Definition self_client : M (option AzureOpenAI) :=
  let* s := get_self in
  match client s with
  | Some c => ret c
  | None =>
      raise (mk_exn AttributeError
               (py "'" ++ py_class s ++ py "' object has no attribute 'client'"))
  end.

(** Get a mock response for testing purposes *)
Definition _get_mock_response (key : option pystr) (system_prompt : pystr)
    (user_content : pystr) (json_response : bool) : M value :=
  let* s := get_self in
  match (match key with
         | Some k => if str_truthy k then
                       match mock_responses s !! k with
                       | Some mock_data => Some (k, mock_data)
                       | None => None
                       end
                     else None
         | None => None
         end) with
  | Some (k, mock_data) =>
      logger INFO (py "Using mock response for key: " ++ k) ;;
      ret mock_data
  | None =>
      (* Generic mock response *)
      let mock := VDict [
        (py "message", VStr (py "This is a mock response from " ++ component_name s));
        (py "system_prompt_length", VInt (len system_prompt));
        (py "user_content_preview",
           VStr (if 50 <? len user_content
                 then slice_to 50 user_content ++ py "..."
                 else user_content))] in
      if json_response then ret mock
      else ret (VStr (json_dumps (float_repr env) mock))
  end.

(** What [call_llm] accepts as [user_content]: a [str] or a [dict]. *)
Inductive UserContent : Type :=
| UStr (s : pystr)
| UDict (d : list (pystr * value)).

(** Make a call to the LLM with appropriate error handling. *)
Definition call_llm (system_prompt : pystr) (user_content : UserContent)
    (temperature : option float) (json_response : bool)
    (max_tokens : option Z) (mock_response_key : option pystr) : M value :=
  (* Format user content if it's a dictionary *)
  let user_content : pystr :=
    match user_content with
    | UDict d => json_dumps (float_repr env) (VDict d)
    | UStr s => s
    end in
  (* Use mock response if client not available or mock explicitly configured *)
  let* c := self_client in
  match c, use_azure_openai llm_config with
  | Some the_client, true =>
      try_except
        ((* Configure response format if JSON is expected *)
         let response_format :=
           if json_response then VDict [(py "type", VStr (py "json_object"))]
           else VNone in
         (* Call Azure OpenAI *)
         let* s := get_self in
         let* response :=
           lift (chat_completions_create env the_client
             (mk_request (deployment_id s)
                [[(py "role", VStr (py "system")); (py "content", VStr system_prompt)];
                 [(py "role", VStr (py "user")); (py "content", VStr user_content)]]
                response_format
                (match temperature with
                 | Some t => if float_truthy t then t else default_temperature
                 | None => default_temperature
                 end)
                (match max_tokens with
                 | Some n => if int_truthy n then n else Config.max_tokens
                 | None => Config.max_tokens
                 end))) in
         (* Extract content *)
         let* content :=
           match choices response with
           | c0 :: _ => ret c0
           | [] => raise (mk_exn IndexError (py "list index out of range"))
           end in
         (* Parse as JSON if requested *)
         if json_response then
           match content with
           | None =>
               raise (mk_exn TypeError
                 (py "the JSON object must be str, bytes or bytearray, not NoneType"))
           | Some text =>
               match json_loads env text with
               | Ok v => ret v
               | Raise e =>
                   match exn_class e with
                   | JSONDecodeError =>
                       logger ERROR (py "Failed to parse JSON response: " ++ exn_str e) ;;
                       logger DEBUG (py "Raw response: " ++ text) ;;
                       raise (mk_exn Exception_
                                (py "Invalid JSON response from LLM: " ++ exn_str e))
                   | _ => raise e
                   end
               end
           end
         else
           ret (match content with Some text => VStr text | None => VNone end))
        (fun e =>
           logger ERROR (py "Error calling Azure OpenAI: " ++ exn_str e) ;;
           (* Fallback to mock response in case of error *)
           _get_mock_response mock_response_key system_prompt user_content json_response)
  | _, _ =>
      (* self.client is None or not llm_config.use_azure_openai *)
      _get_mock_response mock_response_key system_prompt user_content json_response
  end.

(** Register a mock response for testing *)
Definition register_mock_response (key : pystr) (response : value) : M unit :=
  let* s := get_self in
  set_self (mk_self (py_class s) (component_name s) (deployment_id s)
              (<[key := response]> (mock_responses s)) (client s)) ;;
  logger INFO (py "Registered mock response for key: " ++ key).

End WithConfig.

End Base.

(** ** [parsers/parser.py] *)

Module Parser.
Import Config Base.
Local Open Scope py_scope.

Definition parse_infrastructure_requirements_system_prompt : pystr :=
  py "
        You are an expert infrastructure architect that specializes in extracting clear, structured 
        infrastructure requirements from natural language descriptions. Your task is to:
        
        1. Identify the cloud provider(s) mentioned or implied
        2. Extract infrastructure resources needed (VMs, networks, storage, etc.)
        3. Identify relationships between resources
        4. Extract configuration parameters mentioned
        5. Identify security and compliance requirements
        6. Note any performance or cost constraints
        
        Format your response as a structured JSON object with the following keys:
        - provider: The cloud provider (aws, azure, gcp, etc.)
        - resources: Array of resources with their types and configurations
        - relationships: How resources connect or depend on each other
        - security: Security requirements and considerations
        - constraints: Any performance or cost constraints
        - metadata: Any additional information or context
        ".

Definition extract_context_system_prompt : pystr :=
  py "
        As an infrastructure context specialist, analyze the user's request and extract contextual information.
        Consider any implicit or explicit references to:
        
        1. Development environment (dev, test, prod)
        2. Regional preferences or requirements
        3. Team or project context
        4. Time-based requirements (temporary vs permanent)
        5. Integration with existing systems
        6. Business objectives driving the request
        
        Format your response as a structured JSON object with the following keys:
        - environment: The target environment (dev, test, prod, etc.)
        - region: Geographical region or regions
        - project: Project or team context
        - timeline: Temporary or permanent, and any timing requirements
        - integration: Systems to integrate with
        - objectives: Business goals driving the request
        - implicit_needs: Requirements that weren't explicitly stated but are implied
        ".

Definition mock_parse_requirements : value :=
  VDict [
    (py "provider", VStr (py "aws"));
    (py "resources", VList [
      VDict [
        (py "type", VStr (py "vpc"));
        (py "name", VStr (py "main-vpc"));
        (py "cidr", VStr (py "10.0.0.0/16"));
        (py "subnets", VList [
          VDict [
            (py "name", VStr (py "public-1"));
            (py "cidr", VStr (py "10.0.1.0/24"));
            (py "az", VStr (py "us-west-2a"))];
          VDict [
            (py "name", VStr (py "private-1"));
            (py "cidr", VStr (py "10.0.2.0/24"));
            (py "az", VStr (py "us-west-2a"))]])];
      VDict [
        (py "type", VStr (py "ec2"));
        (py "name", VStr (py "web-server"));
        (py "instance_type", VStr (py "t3.medium"));
        (py "count", VInt 2)]]);
    (py "relationships", VList [
      VDict [
        (py "source", VStr (py "web-server"));
        (py "target", VStr (py "public-1"));
        (py "type", VStr (py "deployed_in"))]]);
    (py "security", VDict [
      (py "encryption", VStr (py "required"));
      (py "access_controls", VList [
        VStr (py "restrict_ssh_access");
        VStr (py "use_security_groups")])]);
    (py "constraints", VDict [
      (py "budget", VStr (py "low_cost"));
      (py "performance", VStr (py "moderate"))]);
    (py "metadata", VDict [
      (py "purpose", VStr (py "Web application hosting"));
      (py "requestor", VStr (py "Development team"))])].

Definition mock_extract_context : value :=
  VDict [
    (py "environment", VStr (py "dev"));
    (py "region", VStr (py "us-west-2"));
    (py "project", VStr (py "web-app-modernization"));
    (py "timeline", VStr (py "permanent"));
    (py "integration", VList [
      VStr (py "existing_database");
      VStr (py "authentication_service")]);
    (py "objectives", VList [
      VStr (py "improve_scalability");
      VStr (py "reduce_operational_cost")]);
    (py "implicit_needs", VList [
      VStr (py "high_availability");
      VStr (py "auto_scaling")])].

Section WithConfig.
Variable llm_config : LLMEnhancementConfig.
Variable env : Env.

(** Parse infrastructure requirements from natural language text. *)
Definition parse_infrastructure_requirements (text : pystr) : M value :=
  call_llm llm_config env
    parse_infrastructure_requirements_system_prompt
    (UStr text)
    None
    true
    None
    (Some (py "parse_requirements")).

(** Extract context from user's request and existing resources. *)
Definition extract_context (text : pystr)
    (existing_resources : option (list (pystr * value))) : M value :=
  let user_content := text in
  let user_content :=
    match existing_resources with
    | Some r =>
        if dict_truthy r then
          user_content ++ [10%N; 10%N] ++ py "Existing resources: "
            ++ json_dumps (float_repr env) (VDict r)
        else user_content
    | None => user_content
    end in
  call_llm llm_config env
    extract_context_system_prompt
    (UStr user_content)
    None
    true
    None
    (Some (py "extract_context")).

(** Register default mock responses for testing *)
Definition _register_default_mocks : M unit :=
  register_mock_response (py "parse_requirements") mock_parse_requirements ;;
  register_mock_response (py "extract_context") mock_extract_context.

(** [NaturalLanguageParser(deployment_id)] *)
Definition __init__ (deployment_id : option pystr) (log0 : list LogRecord)
    : result State :=
  match Base.__init__ llm_config env (py "NaturalLanguageParser") (py "parser")
          deployment_id log0 with
  | Raise e => Raise e
  | Ok st => Ok (exec _register_default_mocks st)
  end.

End WithConfig.

End Parser.

(** ** [generators/generator.py] *)

Module Generator.
Import Config Base.
Local Open Scope py_scope.

Definition generate_terraform_template_system_prompt : pystr :=
  py "
        You are an expert Terraform developer. Generate high-quality, production-ready Terraform code 
        based on the provided requirements. Follow these guidelines:
        
        1. Use modular structure with best practices
        2. Include appropriate variables and outputs
        3. Follow security best practices
        4. Add clear comments explaining purpose of resources
        5. Ensure resource naming follows conventions
        6. Include appropriate provider configuration
        
        Return a JSON object with filenames as keys and file content as values.
        Include at minimum: main.tf, variables.tf, outputs.tf
        ".

Definition analyze_template_system_prompt : pystr :=
  py "
        As a Terraform code analyst, review the provided template files and provide a comprehensive 
        analysis including:
        
        1. List of resources being created
        2. Required variables and their purpose
        3. Outputs provided by the template
        4. Estimated deployment complexity
        5. Potential cost considerations
        6. Security considerations and recommendations
        
        Format your response as a structured JSON object with the following keys:
        - resources: Array of resources with types and configurations
        - variables: Array of variables with types, defaults, and descriptions
        - outputs: Array of outputs with descriptions
        - complexity: Assessment of deployment complexity
        - cost: Cost considerations
        - security: Security considerations and recommendations
        ".

Definition generate_documentation_system_prompt : pystr :=
  py "
        You are a technical documentation specialist. Create comprehensive Markdown documentation 
        for the Terraform template. Include:
        
        1. Overview of architecture
        2. Prerequisites
        3. Usage instructions
        4. Variable descriptions with examples
        5. Output descriptions
        6. Deployment instructions
        7. Management and maintenance guidance
        
        Format your response as Markdown text.
        ".

Definition customize_template_system_prompt : pystr :=
  py "
        As a Terraform customization expert, modify the provided template files according to the
        customization requirements. Ensure that:
        
        1. All requested changes are implemented
        2. The modified code maintains best practices
        3. Code remains readable and well-documented
        4. Changes are highlighted in comments
        
        Return a JSON object with filenames as keys and the updated file content as values.
        Include all original files even if they weren't modified.
        ".

Definition mock_generate_template : value :=
  VDict [
    (py "main.tf", VStr (pyq ["
provider "; "aws"; " {
  region = var.region
}

resource "; "aws_vpc"; " "; "main"; " {
  cidr_block = var.vpc_cidr
  
  tags = {
    Name = var.vpc_name
  }
}

resource "; "aws_subnet"; " "; "public"; " {
  vpc_id     = aws_vpc.main.id
  cidr_block = var.public_subnet_cidr
  availability_zone = "; "${var.region}a"; "
  
  tags = {
    Name = "; "${var.vpc_name}-public"; "
  }
}

resource "; "aws_subnet"; " "; "private"; " {
  vpc_id     = aws_vpc.main.id
  cidr_block = var.private_subnet_cidr
  availability_zone = "; "${var.region}a"; "
  
  tags = {
    Name = "; "${var.vpc_name}-private"; "
  }
}

resource "; "aws_instance"; " "; "web"; " {
  count         = var.instance_count
  ami           = var.ami_id
  instance_type = var.instance_type
  subnet_id     = aws_subnet.public.id
  
  tags = {
    Name = "; "web-${count.index + 1}"; "
  }
}
"]%string));
    (py "variables.tf", VStr (pyq ["
variable "; "region"; " {
  description = "; "AWS region to deploy resources"; "
  type        = string
  default     = "; "us-west-2"; "
}

variable "; "vpc_cidr"; " {
  description = "; "CIDR block for the VPC"; "
  type        = string
  default     = "; "10.0.0.0/16"; "
}

variable "; "vpc_name"; " {
  description = "; "Name of the VPC"; "
  type        = string
  default     = "; "main-vpc"; "
}

variable "; "public_subnet_cidr"; " {
  description = "; "CIDR block for the public subnet"; "
  type        = string
  default     = "; "10.0.1.0/24"; "
}

variable "; "private_subnet_cidr"; " {
  description = "; "CIDR block for the private subnet"; "
  type        = string
  default     = "; "10.0.2.0/24"; "
}

variable "; "instance_type"; " {
  description = "; "EC2 instance type"; "
  type        = string
  default     = "; "t3.medium"; "
}

variable "; "instance_count"; " {
  description = "; "Number of EC2 instances to deploy"; "
  type        = number
  default     = 2
}

variable "; "ami_id"; " {
  description = "; "AMI ID for EC2 instances"; "
  type        = string
  default     = "; "ami-0c55b159cbfafe1f0"; "
}
"]%string));
    (py "outputs.tf", VStr (pyq ["
output "; "vpc_id"; " {
  description = "; "ID of the created VPC"; "
  value       = aws_vpc.main.id
}

output "; "public_subnet_id"; " {
  description = "; "ID of the public subnet"; "
  value       = aws_subnet.public.id
}

output "; "private_subnet_id"; " {
  description = "; "ID of the private subnet"; "
  value       = aws_subnet.private.id
}

output "; "instance_ids"; " {
  description = "; "IDs of the created EC2 instances"; "
  value       = aws_instance.web[*].id
}
"]%string))].

Definition mock_analyze_template : value :=
  VDict [
    (py "resources", VList [
      VDict [
        (py "type", VStr (py "aws_vpc"));
        (py "name", VStr (py "main"));
        (py "count", VInt 1)];
      VDict [
        (py "type", VStr (py "aws_subnet"));
        (py "name", VStr (py "public"));
        (py "count", VInt 1)];
      VDict [
        (py "type", VStr (py "aws_subnet"));
        (py "name", VStr (py "private"));
        (py "count", VInt 1)];
      VDict [
        (py "type", VStr (py "aws_instance"));
        (py "name", VStr (py "web"));
        (py "count", VStr (py "variable"))]]);
    (py "variables", VList [
      VDict [
        (py "name", VStr (py "region"));
        (py "type", VStr (py "string"));
        (py "default", VStr (py "us-west-2"));
        (py "description", VStr (py "AWS region to deploy resources"))];
      VDict [
        (py "name", VStr (py "vpc_cidr"));
        (py "type", VStr (py "string"));
        (py "default", VStr (py "10.0.0.0/16"));
        (py "description", VStr (py "CIDR block for the VPC"))]]);
    (py "outputs", VList [
      VDict [
        (py "name", VStr (py "vpc_id"));
        (py "description", VStr (py "ID of the created VPC"))];
      VDict [
        (py "name", VStr (py "public_subnet_id"));
        (py "description", VStr (py "ID of the public subnet"))]]);
    (py "complexity", VDict [
      (py "level", VStr (py "medium"));
      (py "explanation", VStr (py "Basic infrastructure with multiple related resources"))]);
    (py "cost", VDict [
      (py "estimated_monthly", VStr (py "$50-100"));
      (py "main_cost_factors", VList [
        VStr (py "EC2 instances");
        VStr (py "data transfer")])]);
    (py "security", VDict [
      (py "concerns", VList [
        VStr (py "Public subnet accessibility");
        VStr (py "No security groups defined")]);
      (py "recommendations", VList [
        VStr (py "Add security groups");
        VStr (py "Implement network ACLs")])])].

Definition mock_generate_documentation : value :=
  VStr (py "
# AWS VPC with EC2 Instances

## Overview

This Terraform template deploys a basic AWS VPC architecture with public and private subnets, along with EC2 instances for a web application.

## Prerequisites

- AWS account
- Terraform v1.0+
- AWS CLI configured

## Usage

```bash
terraform init
terraform plan -out=tfplan
terraform apply tfplan
```

## Variables

| Name | Description | Type | Default |
|------|-------------|------|---------|
| region | AWS region to deploy resources | string | us-west-2 |
| vpc_cidr | CIDR block for the VPC | string | 10.0.0.0/16 |
| vpc_name | Name of the VPC | string | main-vpc |
| ... | ... | ... | ... |

## Architecture

The architecture consists of:
- A VPC with CIDR 10.0.0.0/16
- Public subnet in the first availability zone
- Private subnet in the first availability zone
- EC2 instances in the public subnet

## Maintenance

Remember to destroy resources when no longer needed:

```bash
terraform destroy
```
").

Definition mock_customize_template : value :=
  VDict [
    (py "main.tf", VStr (pyq ["
provider "; "aws"; " {
  region = var.region
}

# Modified VPC with DNS support as requested
resource "; "aws_vpc"; " "; "main"; " {
  cidr_block           = var.vpc_cidr
  enable_dns_support   = true
  enable_dns_hostnames = true
  
  tags = {
    Name        = var.vpc_name
    Environment = var.environment
  }
}

# Added Internet Gateway as requested
resource "; "aws_internet_gateway"; " "; "igw"; " {
  vpc_id = aws_vpc.main.id
  
  tags = {
    Name = "; "${var.vpc_name}-igw"; "
  }
}

resource "; "aws_subnet"; " "; "public"; " {
  vpc_id                  = aws_vpc.main.id
  cidr_block              = var.public_subnet_cidr
  availability_zone       = "; "${var.region}a"; "
  map_public_ip_on_launch = true
  
  tags = {
    Name = "; "${var.vpc_name}-public"; "
  }
}

resource "; "aws_subnet"; " "; "private"; " {
  vpc_id     = aws_vpc.main.id
  cidr_block = var.private_subnet_cidr
  availability_zone = "; "${var.region}a"; "
  
  tags = {
    Name = "; "${var.vpc_name}-private"; "
  }
}

# Added security group as requested
resource "; "aws_security_group"; " "; "web_sg"; " {
  name        = "; "${var.vpc_name}-web-sg"; "
  description = "; "Security group for web servers"; "
  vpc_id      = aws_vpc.main.id
  
  ingress {
    from_port   = 80
    to_port     = 80
    protocol    = "; "tcp"; "
    cidr_blocks = ["; "0.0.0.0/0"; "]
    description = "; "Allow HTTP"; "
  }
  
  ingress {
    from_port   = 443
    to_port     = 443
    protocol    = "; "tcp"; "
    cidr_blocks = ["; "0.0.0.0/0"; "]
    description = "; "Allow HTTPS"; "
  }
  
  egress {
    from_port   = 0
    to_port     = 0
    protocol    = "; "-1"; "
    cidr_blocks = ["; "0.0.0.0/0"; "]
  }
}

resource "; "aws_instance"; " "; "web"; " {
  count         = var.instance_count
  ami           = var.ami_id
  instance_type = var.instance_type
  subnet_id     = aws_subnet.public.id
  security_groups = [aws_security_group.web_sg.id]
  
  tags = {
    Name = "; "web-${count.index + 1}"; "
    Environment = var.environment
  }
}
"]%string));
    (py "variables.tf", VStr (pyq ["
variable "; "region"; " {
  description = "; "AWS region to deploy resources"; "
  type        = string
  default     = "; "us-west-2"; "
}

variable "; "vpc_cidr"; " {
  description = "; "CIDR block for the VPC"; "
  type        = string
  default     = "; "10.0.0.0/16"; "
}

variable "; "vpc_name"; " {
  description = "; "Name of the VPC"; "
  type        = string
  default     = "; "main-vpc"; "
}

variable "; "public_subnet_cidr"; " {
  description = "; "CIDR block for the public subnet"; "
  type        = string
  default     = "; "10.0.1.0/24"; "
}

variable "; "private_subnet_cidr"; " {
  description = "; "CIDR block for the private subnet"; "
  type        = string
  default     = "; "10.0.2.0/24"; "
}

variable "; "instance_type"; " {
  description = "; "EC2 instance type"; "
  type        = string
  default     = "; "t3.medium"; "
}

variable "; "instance_count"; " {
  description = "; "Number of EC2 instances to deploy"; "
  type        = number
  default     = 2
}

variable "; "ami_id"; " {
  description = "; "AMI ID for EC2 instances"; "
  type        = string
  default     = "; "ami-0c55b159cbfafe1f0"; "
}

# Added new variable as requested
variable "; "environment"; " {
  description = "; "Deployment environment"; "
  type        = string
  default     = "; "dev"; "
}
"]%string));
    (py "outputs.tf", VStr (pyq ["
output "; "vpc_id"; " {
  description = "; "ID of the created VPC"; "
  value       = aws_vpc.main.id
}

output "; "public_subnet_id"; " {
  description = "; "ID of the public subnet"; "
  value       = aws_subnet.public.id
}

output "; "private_subnet_id"; " {
  description = "; "ID of the private subnet"; "
  value       = aws_subnet.private.id
}

output "; "instance_ids"; " {
  description = "; "IDs of the created EC2 instances"; "
  value       = aws_instance.web[*].id
}

# Added new output as requested
output "; "security_group_id"; " {
  description = "; "ID of the web security group"; "
  value       = aws_security_group.web_sg.id
}
"]%string))].

Section WithConfig.
Variable llm_config : LLMEnhancementConfig.
Variable env : Env.

(** Generate Terraform template code based on requirements. *)
Definition generate_terraform_template (requirements : list (pystr * value))
    : M value :=
  call_llm llm_config env
    generate_terraform_template_system_prompt
    (UDict requirements)
    (Some (0x1.999999999999ap-3)%float) (* 0.2 *)
    true
    (Some 4000)
    (Some (py "generate_template")).

(** Analyze a Terraform template to extract key information. *)
Definition analyze_template (template_files : list (pystr * value)) : M value :=
  call_llm llm_config env
    analyze_template_system_prompt
    (UDict template_files)
    None
    true
    None
    (Some (py "analyze_template")).

(** Generate comprehensive documentation for a Terraform template. *)
Definition generate_documentation (template_files : list (pystr * value))
    (analysis : list (pystr * value)) : M value :=
  let input_content := [
    (py "template_files", VDict template_files);
    (py "analysis", VDict analysis)] in
  call_llm llm_config env
    generate_documentation_system_prompt
    (UDict input_content)
    (Some (0x1.999999999999ap-3)%float) (* 0.2 *)
    false
    None
    (Some (py "generate_documentation")).

(** Customize an existing Terraform template based on specific requirements. *)
Definition customize_template (template_files : list (pystr * value))
    (customizations : list (pystr * value)) : M value :=
  let input_content := [
    (py "template_files", VDict template_files);
    (py "customizations", VDict customizations)] in
  call_llm llm_config env
    customize_template_system_prompt
    (UDict input_content)
    (Some (0x1.999999999999ap-3)%float) (* 0.2 *)
    true
    (Some 4000)
    (Some (py "customize_template")).

(** Register default mock responses for testing *)
Definition _register_default_mocks : M unit :=
  register_mock_response (py "generate_template") mock_generate_template ;;
  register_mock_response (py "analyze_template") mock_analyze_template ;;
  register_mock_response (py "generate_documentation") mock_generate_documentation ;;
  register_mock_response (py "customize_template") mock_customize_template.

(** [TemplateGenerator(deployment_id)] *)
Definition __init__ (deployment_id : option pystr) (log0 : list LogRecord)
    : result State :=
  match Base.__init__ llm_config env (py "TemplateGenerator") (py "generator")
          deployment_id log0 with
  | Raise e => Raise e
  | Ok st => Ok (exec _register_default_mocks st)
  end.

End WithConfig.

End Generator.

(** ** [validators/validator.py] *)

Module Validator.
Import Config Base.
Local Open Scope py_scope.

Definition validate_terraform_system_prompt : pystr :=
  pyq ["
        As a Terraform validator, analyze the provided template files for errors, issues, and
        best practice violations. Check for:
        
        1. Syntax errors
        2. Semantic errors (resource dependencies, etc.)
        3. Security issues (overly permissive policies, etc.)
        4. Best practice violations
        5. Potential bugs or edge cases
        
        Format your response as a structured JSON object with these sections:
        - errors: Array of critical issues that must be fixed
        - warnings: Array of issues that should be addressed but aren't critical
        - suggestions: Array of suggestions for improvement
        
        Each issue should include:
        - file: The filename
        - location: Line number or resource identifier
        - severity: One of "; "critical"; ", "; "high"; ", "; "medium"; ", "; "low"; "
        - message: Description of the issue
        - recommendation: How to fix the issue
        "]%string.

Definition suggest_fixes_system_prompt : pystr :=
  py "
        As a Terraform expert, fix the issues identified in the validation results. 
        Modify the provided template files to:
        
        1. Fix all errors
        2. Address security concerns
        3. Implement best practices
        4. Improve code quality
        
        Return a JSON object with filenames as keys and the updated file content as values.
        Include all original files even if they weren't modified.
        Add comments before each fix explaining what was changed and why.
        ".

Definition check_best_practices_system_prompt : pystr :=
  py "
        As a Terraform best practices expert, analyze the provided template files and provide:
        
        1. Overall best practice score (0-100)
        2. Analysis of code structure and organization
        3. Analysis of resource naming conventions
        4. Analysis of variable use and defaults
        5. Security posture assessment
        6. Specific recommendations for improvement
        
        Format your response as a structured JSON object with the following sections:
        - score: Overall score (0-100)
        - structure: Assessment of code structure
        - naming: Assessment of naming conventions
        - variables: Assessment of variable usage
        - security: Assessment of security practices
        - recommendations: Specific improvement recommendations
        ".

Definition check_security_system_prompt : pystr :=
  py "
        As a cloud security expert, analyze the provided Terraform files for security issues.
        Focus on:
        
        1. Insecure configurations (open security groups, public access, etc.)
        2. Missing encryption settings
        3. Over-permissive IAM policies
        4. Logging and monitoring gaps
        5. Compliance issues (HIPAA, PCI, etc.)
        
        Format your response as a structured JSON object with the following sections:
        - findings: Array of security findings
        - compliance: Compliance assessment
        - risk_score: Overall risk score (high, medium, low)
        - recommendations: Security recommendations
        ".

Definition mock_validate_terraform : value :=
  VDict [
    (py "errors", VList [
      VDict [
        (py "file", VStr (py "main.tf"));
        (py "location", VStr (py "aws_instance.web"));
        (py "severity", VStr (py "critical"));
        (py "message", VStr (py "Security group not specified for EC2 instance"));
        (py "recommendation", VStr (py "Add security_groups attribute to aws_instance.web resource"))]]);
    (py "warnings", VList [
      VDict [
        (py "file", VStr (py "main.tf"));
        (py "location", VStr (py "aws_vpc.main"));
        (py "severity", VStr (py "medium"));
        (py "message", VStr (py "Missing DNS support configuration"));
        (py "recommendation", VStr (py "Add enable_dns_support and enable_dns_hostnames attributes"))];
      VDict [
        (py "file", VStr (py "variables.tf"));
        (py "location", VStr (py "variable.ami_id"));
        (py "severity", VStr (py "medium"));
        (py "message", VStr (py "AMI ID hardcoded as default"));
        (py "recommendation", VStr (py "Remove default value and require explicit ami_id input"))]]);
    (py "suggestions", VList [
      VDict [
        (py "file", VStr (py "main.tf"));
        (py "location", VStr (py "general"));
        (py "severity", VStr (py "low"));
        (py "message", VStr (py "Missing resource tagging strategy"));
        (py "recommendation", VStr (py "Add consistent tags to all resources including environment and owner"))];
      VDict [
        (py "file", VStr (py "outputs.tf"));
        (py "location", VStr (py "general"));
        (py "severity", VStr (py "low"));
        (py "message", VStr (py "Missing descriptions for outputs"));
        (py "recommendation", VStr (py "Add descriptive descriptions to all outputs"))]])].

Definition mock_suggest_fixes : value :=
  VDict [
    (py "main.tf", VStr (pyq ["
provider "; "aws"; " {
  region = var.region
}

# Added DNS support as recommended
resource "; "aws_vpc"; " "; "main"; " {
  cidr_block           = var.vpc_cidr
  enable_dns_support   = true
  enable_dns_hostnames = true
  
  # Added consistent tagging as suggested
  tags = {
    Name        = var.vpc_name
    Environment = var.environment
    Owner       = "; "terraform"; "
  }
}

resource "; "aws_subnet"; " "; "public"; " {
  vpc_id     = aws_vpc.main.id
  cidr_block = var.public_subnet_cidr
  availability_zone = "; "${var.region}a"; "
  
  # Added consistent tagging as suggested
  tags = {
    Name        = "; "${var.vpc_name}-public"; "
    Environment = var.environment
    Owner       = "; "terraform"; "
  }
}

resource "; "aws_subnet"; " "; "private"; " {
  vpc_id     = aws_vpc.main.id
  cidr_block = var.private_subnet_cidr
  availability_zone = "; "${var.region}a"; "
  
  # Added consistent tagging as suggested
  tags = {
    Name        = "; "${var.vpc_name}-private"; "
    Environment = var.environment
    Owner       = "; "terraform"; "
  }
}

# Added security group for EC2 instances
resource "; "aws_security_group"; " "; "web_sg"; " {
  name        = "; "${var.vpc_name}-web-sg"; "
  description = "; "Security group for web servers"; "
  vpc_id      = aws_vpc.main.id
  
  ingress {
    from_port   = 80
    to_port     = 80
    protocol    = "; "tcp"; "
    cidr_blocks = ["; "0.0.0.0/0"; "]
    description = "; "Allow HTTP"; "
  }
  
  ingress {
    from_port   = 443
    to_port     = 443
    protocol    = "; "tcp"; "
    cidr_blocks = ["; "0.0.0.0/0"; "]
    description = "; "Allow HTTPS"; "
  }
  
  egress {
    from_port   = 0
    to_port     = 0
    protocol    = "; "-1"; "
    cidr_blocks = ["; "0.0.0.0/0"; "]
  }
  
  # Added consistent tagging as suggested
  tags = {
    Name        = "; "${var.vpc_name}-web-sg"; "
    Environment = var.environment
    Owner       = "; "terraform"; "
  }
}

# Fixed critical issue - added security group to instances
resource "; "aws_instance"; " "; "web"; " {
  count         = var.instance_count
  ami           = var.ami_id
  instance_type = var.instance_type
  subnet_id     = aws_subnet.public.id
  security_groups = [aws_security_group.web_sg.id]
  
  # Added consistent tagging as suggested
  tags = {
    Name        = "; "web-${count.index + 1}"; "
    Environment = var.environment
    Owner       = "; "terraform"; "
  }
}
"]%string));
    (py "variables.tf", VStr (pyq ["
variable "; "region"; " {
  description = "; "AWS region to deploy resources"; "
  type        = string
  default     = "; "us-west-2"; "
}

variable "; "vpc_cidr"; " {
  description = "; "CIDR block for the VPC"; "
  type        = string
  default     = "; "10.0.0.0/16"; "
}

variable "; "vpc_name"; " {
  description = "; "Name of the VPC"; "
  type        = string
  default     = "; "main-vpc"; "
}

variable "; "public_subnet_cidr"; " {
  description = "; "CIDR block for the public subnet"; "
  type        = string
  default     = "; "10.0.1.0/24"; "
}

variable "; "private_subnet_cidr"; " {
  description = "; "CIDR block for the private subnet"; "
  type        = string
  default     = "; "10.0.2.0/24"; "
}

variable "; "instance_type"; " {
  description = "; "EC2 instance type"; "
  type        = string
  default     = "; "t3.medium"; "
}

variable "; "instance_count"; " {
  description = "; "Number of EC2 instances to deploy"; "
  type        = number
  default     = 2
}

# Fixed issue - removed hardcoded AMI ID
variable "; "ami_id"; " {
  description = "; "AMI ID for EC2 instances"; "
  type        = string
  # No default - require explicit input
}

variable "; "environment"; " {
  description = "; "Deployment environment (dev, test, prod)"; "
  type        = string
  default     = "; "dev"; "
}
"]%string));
    (py "outputs.tf", VStr (pyq ["
# Added improved descriptions as suggested
output "; "vpc_id"; " {
  description = "; "ID of the created VPC, use for reference in other resources"; "
  value       = aws_vpc.main.id
}

output "; "public_subnet_id"; " {
  description = "; "ID of the public subnet, use for internet-facing resources"; "
  value       = aws_subnet.public.id
}

output "; "private_subnet_id"; " {
  description = "; "ID of the private subnet, use for internal resources"; "
  value       = aws_subnet.private.id
}

output "; "instance_ids"; " {
  description = "; "IDs of the created EC2 instances, use for management and monitoring"; "
  value       = aws_instance.web[*].id
}

output "; "security_group_id"; " {
  description = "; "ID of the web security group, use for additional security rules"; "
  value       = aws_security_group.web_sg.id
}
"]%string))].

Definition mock_check_best_practices : value :=
  VDict [
    (py "score", VInt 68);
    (py "structure", VDict [
      (py "assessment", VStr (py "Moderate"));
      (py "strengths", VList [
        VStr (py "Clear resource organization");
        VStr (py "Logical file separation")]);
      (py "weaknesses", VList [
        VStr (py "Limited use of modules");
        VStr (py "No locals for repeated values")])]);
    (py "naming", VDict [
      (py "assessment", VStr (py "Good"));
      (py "strengths", VList [
        VStr (py "Consistent resource naming");
        VStr (py "Descriptive variable names")]);
      (py "weaknesses", VList [
        VStr (py "No naming convention for tags")])]);
    (py "variables", VDict [
      (py "assessment", VStr (py "Fair"));
      (py "strengths", VList [
        VStr (py "Good use of variable typing");
        VStr (py "Appropriate defaults")]);
      (py "weaknesses", VList [
        VStr (py "Missing validation blocks");
        VStr (py "Some hardcoded values")])]);
    (py "security", VDict [
      (py "assessment", VStr (py "Poor"));
      (py "strengths", VList [
        VStr (py "No overly permissive IAM policies")]);
      (py "weaknesses", VList [
        VStr (py "Missing security groups");
        VStr (py "Open ingress rules");
        VStr (py "No encryption configured")])]);
    (py "recommendations", VList [
      VStr (py "Implement a module structure for reusable components");
      VStr (py "Add variable validation blocks");
      VStr (py "Implement a consistent tagging strategy");
      VStr (py "Improve security group configuration");
      VStr (py "Add encryption for sensitive data");
      VStr (py "Use data sources for AMI lookup instead of hardcoded values")])].

Definition mock_check_security : value :=
  VDict [
    (py "findings", VList [
      VDict [
        (py "severity", VStr (py "high"));
        (py "description", VStr (py "Missing security group for EC2 instances"));
        (py "impact", VStr (py "Instances could be accessible from any source"));
        (py "recommendation", VStr (py "Add security group with restricted ingress"))];
      VDict [
        (py "severity", VStr (py "medium"));
        (py "description", VStr (py "Public subnet with instances directly exposed"));
        (py "impact", VStr (py "Increased attack surface for instances"));
        (py "recommendation", VStr (py "Use private subnets with NAT gateway or bastion host"))];
      VDict [
        (py "severity", VStr (py "medium"));
        (py "description", VStr (py "No encryption in transit configuration"));
        (py "impact", VStr (py "Data transmitted to/from instances could be intercepted"));
        (py "recommendation", VStr (py "Configure TLS and ensure HTTPS usage"))]]);
    (py "compliance", VDict [
      (py "hipaa", VStr (py "non_compliant"));
      (py "pci", VStr (py "non_compliant"));
      (py "iso27001", VStr (py "partially_compliant"));
      (py "issues", VList [
        VStr (py "Missing encryption");
        VStr (py "Insufficient access controls");
        VStr (py "Inadequate logging")])]);
    (py "risk_score", VStr (py "high"));
    (py "recommendations", VList [
      VStr (py "Implement security groups with principle of least privilege");
      VStr (py "Configure encryption in transit and at rest");
      VStr (py "Implement a bastion host for secure access");
      VStr (py "Enable detailed CloudTrail logging");
      VStr (py "Add AWS Config rules for continuous compliance monitoring")])].

Section WithConfig.
Variable llm_config : LLMEnhancementConfig.
Variable env : Env.

(** Validate Terraform template files for errors and best practices. *)
Definition validate_terraform (template_files : list (pystr * value)) : M value :=
  call_llm llm_config env
    validate_terraform_system_prompt
    (UDict template_files)
    (Some (0x1.999999999999ap-4)%float) (* 0.1 *)
    true
    None
    (Some (py "validate_terraform")).

(** Suggest fixes for issues identified in validation. *)
Definition suggest_fixes (template_files : list (pystr * value))
    (validation_results : list (pystr * value)) : M value :=
  let input_content := [
    (py "template_files", VDict template_files);
    (py "validation_results", VDict validation_results)] in
  call_llm llm_config env
    suggest_fixes_system_prompt
    (UDict input_content)
    (Some (0x1.999999999999ap-3)%float) (* 0.2 *)
    true
    (Some 4000)
    (Some (py "suggest_fixes")).

(** Check template for best practice adherence and suggest improvements. *)
Definition check_best_practices (template_files : list (pystr * value)) : M value :=
  call_llm llm_config env
    check_best_practices_system_prompt
    (UDict template_files)
    (Some (0x1.999999999999ap-4)%float) (* 0.1 *)
    true
    None
    (Some (py "check_best_practices")).

(** Perform a security-focused analysis of Terraform code. *)
Definition check_security (template_files : list (pystr * value)) : M value :=
  call_llm llm_config env
    check_security_system_prompt
    (UDict template_files)
    (Some (0x1.999999999999ap-4)%float) (* 0.1 *)
    true
    None
    (Some (py "check_security")).

(** Register default mock responses for testing *)
Definition _register_default_mocks : M unit :=
  register_mock_response (py "validate_terraform") mock_validate_terraform ;;
  register_mock_response (py "suggest_fixes") mock_suggest_fixes ;;
  register_mock_response (py "check_best_practices") mock_check_best_practices ;;
  register_mock_response (py "check_security") mock_check_security.

(** [IntelligentValidator(deployment_id)] *)
Definition __init__ (deployment_id : option pystr) (log0 : list LogRecord)
    : result State :=
  match Base.__init__ llm_config env (py "IntelligentValidator") (py "validator")
          deployment_id log0 with
  | Raise e => Raise e
  | Ok st => Ok (exec _register_default_mocks st)
  end.

End WithConfig.

End Validator.

(** ** [optimizers/optimizer.py] *)

Module Optimizer.
Import Config Base.
Local Open Scope py_scope.

Definition optimize_cost_system_prompt : pystr :=
  py "
        As a cloud cost optimization expert, analyze the provided Terraform template and suggest 
        optimizations to reduce cost without compromising essential functionality. Consider:
        
        1. Right-sizing resources
        2. Using reserved instances or savings plans
        3. Utilizing spot instances where appropriate
        4. Optimizing storage tiers
        5. Implementing auto-scaling
        6. Improving resource utilization
        
        Return a JSON object with the following sections:
        - current_estimated_cost: Estimated monthly cost for the current configuration
        - optimized_estimated_cost: Estimated monthly cost after optimization
        - savings_percentage: Percentage of cost reduction
        - recommendations: Array of specific recommendations
        - template_files: Modified template files with cost optimizations
        ".

Definition optimize_performance_system_prompt : pystr :=
  py "
        As a cloud performance optimization expert, analyze the provided Terraform template and suggest 
        optimizations to improve performance. Consider:
        
        1. Resource sizing and capabilities
        2. Network configuration and latency
        3. Distributed architecture patterns
        4. Caching strategies
        5. Database optimizations
        6. Load balancing and auto-scaling
        
        Return a JSON object with the following sections:
        - current_performance_assessment: Assessment of current performance characteristics
        - optimized_performance_assessment: Expected performance after optimization
        - improvement_summary: Summary of expected improvements
        - recommendations: Array of specific recommendations
        - template_files: Modified template files with performance optimizations
        ".

Definition suggest_architecture_system_prompt : pystr :=
  py "
        As a cloud architect, suggest an optimal architecture based on the provided requirements.
        Your response should include:
        
        1. Overall architecture recommendation
        2. Key components and services
        3. Communication patterns
        4. Scalability approach
        5. Security considerations
        6. Cost estimates
        7. ASCII diagram representation of the architecture
        
        Return a JSON object with the following sections:
        - architecture_overview: Description of the overall architecture
        - components: Array of key components and services
        - communication: Description of communication patterns
        - scalability: Approach to scaling
        - security: Security considerations
        - cost: Cost estimates
        - diagram: ASCII diagram representation
        - terraform_example: Example Terraform snippet for a key component
        ".

Definition right_size_resources_system_prompt : pystr :=
  py "
        As a resource optimization expert, analyze the provided Terraform template and suggest 
        right-sizing optimizations. Consider:
        
        1. Instance types and sizes
        2. Storage allocations
        3. Database instance sizes
        4. Network throughput allocations
        5. Container resource limits
        
        If utilization data is provided, use it to inform your recommendations.
        Otherwise, base recommendations on best practices and typical usage patterns.
        
        Return a JSON object with the following sections:
        - current_resources: Assessment of current resource allocations
        - right_sized_resources: Recommended resource allocations
        - efficiency_improvement: Expected efficiency improvement percentage
        - recommendations: Array of specific recommendations
        - template_files: Modified template files with right-sized resources
        ".

Definition mock_optimize_cost : value :=
  VDict [
    (py "current_estimated_cost", VFloat (0x1.5680000000000p+8)%float (* 342.5 *));
    (py "optimized_estimated_cost", VFloat (0x1.ad80000000000p+7)%float (* 214.75 *));
    (py "savings_percentage", VFloat (0x1.2a66666666666p+5)%float (* 37.3 *));
    (py "recommendations", VList [
      VDict [
        (py "category", VStr (py "Compute"));
        (py "recommendation", VStr (py "Switch t3.medium instances to t4g.small with ARM architecture"));
        (py "impact", VStr (py "~$45 monthly savings"));
        (py "risk", VStr (py "Low; requires ARM-compatible applications"))];
      VDict [
        (py "category", VStr (py "Reserved Instances"));
        (py "recommendation", VStr (py "Purchase 1-year reserved instances for predictable workloads"));
        (py "impact", VStr (py "~$60 monthly savings"));
        (py "risk", VStr (py "Medium; requires 1-year commitment"))];
      VDict [
        (py "category", VStr (py "Storage"));
        (py "recommendation", VStr (py "Move older logs to S3 Glacier Deep Archive"));
        (py "impact", VStr (py "~$22 monthly savings"));
        (py "risk", VStr (py "Low; reduced retrieval speed for archived logs"))]]);
    (py "template_files", VDict [
      (py "main.tf", VStr (pyq ["
provider "; "aws"; " {
  region = var.region
}

# Optimized instance type for cost savings
resource "; "aws_instance"; " "; "web"; " {
  count         = var.instance_count
  # Changed from t3.medium to t4g.small (ARM) for cost optimization
  ami           = var.arm_ami_id
  instance_type = "; "t4g.small"; "
  subnet_id     = aws_subnet.public.id
  security_groups = [aws_security_group.web_sg.id]
  
  # Added purchase option to use Spot Instances where possible
  instance_market_options {
    market_type = "; "spot"; "
    spot_options {
      max_price = "; "0.012"; "
    }
  }
  
  tags = {
    Name = "; "web-${count.index + 1}"; "
    Environment = var.environment
  }
}

resource "; "aws_vpc"; " "; "main"; " {
  cidr_block           = var.vpc_cidr
  enable_dns_support   = true
  enable_dns_hostnames = true
  
  tags = {
    Name = var.vpc_name
    Environment = var.environment
  }
}

# Remaining resources unchanged
"]%string));
      (py "variables.tf", VStr (pyq ["
# Added ARM AMI variable for cost optimization
variable "; "arm_ami_id"; " {
  description = "; "ARM-based AMI ID for EC2 instances (for cost optimization)"; "
  type        = string
  default     = "; "ami-0123456789abcdef"; "
}

# Original variables retained
variable "; "region"; " {
  description = "; "AWS region to deploy resources"; "
  type        = string
  default     = "; "us-west-2"; "
}

# Remaining variables unchanged
"]%string))])].

Definition mock_optimize_performance : value :=
  VDict [
    (py "current_performance_assessment", VDict [
      (py "compute", VStr (py "Moderate; t3.medium instances with baseline performance"));
      (py "storage", VStr (py "Low; standard EBS volumes with no provisioned IOPS"));
      (py "network", VStr (py "Moderate; instances in same availability zone"));
      (py "database", VStr (py "Not present in template"))]);
    (py "optimized_performance_assessment", VDict [
      (py "compute", VStr (py "High; c5.large instances with optimized CPU performance"));
      (py "storage", VStr (py "High; EBS gp3 volumes with provisioned IOPS"));
      (py "network", VStr (py "High; enhanced networking enabled, optimized placement"));
      (py "database", VStr (py "Not applicable"))]);
    (py "improvement_summary", VStr (py "Expected ~40% improvement in application response time, ~60% improvement in throughput"));
    (py "recommendations", VList [
      VDict [
        (py "category", VStr (py "Compute"));
        (py "recommendation", VStr (py "Switch to compute-optimized c5.large instances"));
        (py "impact", VStr (py "Improved CPU performance for web applications"));
        (py "cost_implication", VStr (py "~15% increase in instance cost"))];
      VDict [
        (py "category", VStr (py "Storage"));
        (py "recommendation", VStr (py "Use EBS gp3 volumes with 4000 IOPS"));
        (py "impact", VStr (py "Faster disk I/O for applications"));
        (py "cost_implication", VStr (py "~10% increase in storage cost"))];
      VDict [
        (py "category", VStr (py "Networking"));
        (py "recommendation", VStr (py "Enable enhanced networking with ENA"));
        (py "impact", VStr (py "Higher throughput, lower latency"));
        (py "cost_implication", VStr (py "No additional cost"))]]);
    (py "template_files", VDict [
      (py "main.tf", VStr (pyq ["
provider "; "aws"; " {
  region = var.region
}

# Performance-optimized instance configuration
resource "; "aws_instance"; " "; "web"; " {
  count         = var.instance_count
  # Changed to compute-optimized instance
  ami           = var.ami_id
  instance_type = "; "c5.large"; "
  subnet_id     = aws_subnet.public.id
  security_groups = [aws_security_group.web_sg.id]
  
  # Enable enhanced networking
  root_block_device {
    volume_type = "; "gp3"; "
    volume_size = 100
    iops        = 4000
    throughput  = 125
  }
  
  # Enable detailed monitoring
  monitoring = true
  
  # Enable enhanced networking
  credit_specification {
    cpu_credits = "; "unlimited"; "
  }
  
  tags = {
    Name = "; "web-${count.index + 1}"; "
    Environment = var.environment
  }
}

# Create a placement group for low-latency networking
resource "; "aws_placement_group"; " "; "web"; " {
  name     = "; "web-placement-group"; "
  strategy = "; "cluster"; "
}

# Rest of resources unchanged
"]%string))])].

Definition mock_suggest_architecture : value :=
  VDict [
    (py "architecture_overview", VStr (py "Scalable, highly available web application architecture on AWS with multi-AZ deployment"));
    (py "components", VList [
      VDict [
        (py "name", VStr (py "VPC"));
        (py "type", VStr (py "aws_vpc"));
        (py "description", VStr (py "Isolated network environment"))];
      VDict [
        (py "name", VStr (py "Application Load Balancer"));
        (py "type", VStr (py "aws_lb"));
        (py "description", VStr (py "Distributes traffic to web instances"))];
      VDict [
        (py "name", VStr (py "Auto Scaling Group"));
        (py "type", VStr (py "aws_autoscaling_group"));
        (py "description", VStr (py "Dynamically scales EC2 instances"))];
      VDict [
        (py "name", VStr (py "RDS Multi-AZ"));
        (py "type", VStr (py "aws_db_instance"));
        (py "description", VStr (py "Highly available database"))];
      VDict [
        (py "name", VStr (py "ElastiCache"));
        (py "type", VStr (py "aws_elasticache_cluster"));
        (py "description", VStr (py "In-memory caching for performance"))];
      VDict [
        (py "name", VStr (py "S3 Bucket"));
        (py "type", VStr (py "aws_s3_bucket"));
        (py "description", VStr (py "Static asset storage"))]]);
    (py "communication", VStr (py "Web traffic enters through ALB, which routes to web instances in multiple AZs. Instances connect to RDS for data and ElastiCache for caching."));
    (py "scalability", VStr (py "Auto Scaling Groups handle compute scaling. RDS can be scaled vertically. ElastiCache cluster can be scaled horizontally."));
    (py "security", VStr (py "Security groups restrict traffic. Web tier in public subnets, database in private subnets. All data encrypted in transit and at rest."));
    (py "cost", VStr (py "Estimated $1,000-1,500/month based on medium traffic requirements"));
    (py "diagram", VStr (py "
    +--------------------+
    |                    |
    |  Internet Gateway  |
    |                    |
    +--------+-----------+
             |
             v
    +--------+-----------+
    |                    |
    |  Application LB    |
    |                    |
    +--------+-----------+
             |
             v
+------------+------------+
|            |            |
|  Auto      |  Auto      |
|  Scaling   |  Scaling   |
|  Group     |  Group     |
|  (AZ-1)    |  (AZ-2)    |
|            |            |
+------------+------------+
      |             |
      v             v
+-----+------+ +----+-------+
|            | |            |
| ElastiCache| | ElastiCache|
| (AZ-1)     | | (AZ-2)     |
|            | |            |
+-----+------+ +----+-------+
      |             |
      v             v
+-----+------+ +----+-------+
|            | |            |
| RDS Primary| | RDS Standby|
| (AZ-1)     | | (AZ-2)     |
|            | |            |
+------------+ +------------+
"));
    (py "terraform_example", VStr (pyq ["
# Auto Scaling Group configuration example
resource "; "aws_autoscaling_group"; " "; "web"; " {
  name                      = "; "${var.environment}-web-asg"; "
  max_size                  = 10
  min_size                  = 2
  health_check_grace_period = 300
  health_check_type         = "; "ELB"; "
  desired_capacity          = 4
  force_delete              = true
  launch_configuration      = aws_launch_configuration.web.name
  vpc_zone_identifier       = [aws_subnet.private_1.id, aws_subnet.private_2.id]
  target_group_arns         = [aws_lb_target_group.web.arn]
  
  tag {
    key                 = "; "Name"; "
    value               = "; "${var.environment}-web"; "
    propagate_at_launch = true
  }
}
"]%string))].

Definition mock_right_size_resources : value :=
  VDict [
    (py "current_resources", VDict [
      (py "ec2_instances", VStr (py "t3.medium (2 vCPU, 4GB RAM)"));
      (py "ebs_volumes", VStr (py "100GB standard"));
      (py "rds_instance", VStr (py "Not present"))]);
    (py "right_sized_resources", VDict [
      (py "ec2_instances", VStr (py "t3.small (2 vCPU, 2GB RAM)"));
      (py "ebs_volumes", VStr (py "50GB gp3"));
      (py "rds_instance", VStr (py "Not applicable"))]);
    (py "efficiency_improvement", VStr (py "45%"));
    (py "recommendations", VList [
      VDict [
        (py "resource", VStr (py "aws_instance.web"));
        (py "current", VStr (py "t3.medium"));
        (py "recommendation", VStr (py "t3.small"));
        (py "justification", VStr (py "CPU utilization < 20%, memory utilization < 30%"))];
      VDict [
        (py "resource", VStr (py "root_block_device"));
        (py "current", VStr (py "100GB"));
        (py "recommendation", VStr (py "50GB"));
        (py "justification", VStr (py "Disk usage < 20GB on all instances"))]]);
    (py "template_files", VDict [
      (py "main.tf", VStr (pyq ["
provider "; "aws"; " {
  region = var.region
}

resource "; "aws_vpc"; " "; "main"; " {
  cidr_block           = var.vpc_cidr
  enable_dns_support   = true
  enable_dns_hostnames = true
  
  tags = {
    Name = var.vpc_name
    Environment = var.environment
  }
}

# Other VPC resources unchanged

# Right-sized instance based on utilization data
resource "; "aws_instance"; " "; "web"; " {
  count         = var.instance_count
  ami           = var.ami_id
  # Right-sized from t3.medium to t3.small based on utilization data
  instance_type = "; "t3.small"; "
  subnet_id     = aws_subnet.public.id
  security_groups = [aws_security_group.web_sg.id]
  
  root_block_device {
    # Right-sized from 100GB to 50GB based on utilization data
    volume_size = 50
    volume_type = "; "gp3"; "
  }
  
  tags = {
    Name = "; "web-${count.index + 1}"; "
    Environment = var.environment
  }
}
"]%string))])].

Section WithConfig.
Variable llm_config : LLMEnhancementConfig.
Variable env : Env.

(** Optimize Terraform template for cost. *)
Definition optimize_cost (template_files : list (pystr * value))
    (budget_constraint : option float) : M value :=
  let user_content :=
    if opt_truthy float_truthy budget_constraint then
      json_dumps (float_repr env) (VDict [
        (py "template_files", VDict template_files);
        (py "budget_constraint", of_optional VFloat budget_constraint)])
    else
      json_dumps (float_repr env) (VDict [(py "template_files", VDict template_files)]) in
  call_llm llm_config env
    optimize_cost_system_prompt
    (UStr user_content)
    (Some (0x1.999999999999ap-3)%float) (* 0.2 *)
    true
    (Some 4000)
    (Some (py "optimize_cost")).

(** Optimize Terraform template for performance. *)
Definition optimize_performance (template_files : list (pystr * value))
    (performance_targets : option (list (pystr * value))) : M value :=
  let user_content :=
    if opt_truthy dict_truthy performance_targets then
      json_dumps (float_repr env) (VDict [
        (py "template_files", VDict template_files);
        (py "performance_targets", of_optional VDict performance_targets)])
    else
      json_dumps (float_repr env) (VDict [(py "template_files", VDict template_files)]) in
  call_llm llm_config env
    optimize_performance_system_prompt
    (UStr user_content)
    (Some (0x1.999999999999ap-3)%float) (* 0.2 *)
    true
    (Some 4000)
    (Some (py "optimize_performance")).

(** Suggest optimal architecture based on requirements. *)
Definition suggest_architecture (requirements : list (pystr * value)) : M value :=
  call_llm llm_config env
    suggest_architecture_system_prompt
    (UDict requirements)
    (Some (0x1.999999999999ap-3)%float) (* 0.2 *)
    true
    None
    (Some (py "suggest_architecture")).

(** Right-size resources based on utilization data or best practices. *)
Definition right_size_resources (template_files : list (pystr * value))
    (utilization_data : option (list (pystr * value))) : M value :=
  let user_content :=
    if opt_truthy dict_truthy utilization_data then
      json_dumps (float_repr env) (VDict [
        (py "template_files", VDict template_files);
        (py "utilization_data", of_optional VDict utilization_data)])
    else
      json_dumps (float_repr env) (VDict [(py "template_files", VDict template_files)]) in
  call_llm llm_config env
    right_size_resources_system_prompt
    (UStr user_content)
    (Some (0x1.999999999999ap-3)%float) (* 0.2 *)
    true
    (Some 4000)
    (Some (py "right_size_resources")).

(** Register default mock responses for testing *)
Definition _register_default_mocks : M unit :=
  register_mock_response (py "optimize_cost") mock_optimize_cost ;;
  register_mock_response (py "optimize_performance") mock_optimize_performance ;;
  register_mock_response (py "suggest_architecture") mock_suggest_architecture ;;
  register_mock_response (py "right_size_resources") mock_right_size_resources.

(** [ResourceOptimizer(deployment_id)] *)
Definition __init__ (deployment_id : option pystr) (log0 : list LogRecord)
    : result State :=
  match Base.__init__ llm_config env (py "ResourceOptimizer") (py "optimizer")
          deployment_id log0 with
  | Raise e => Raise e
  | Ok st => Ok (exec _register_default_mocks st)
  end.

End WithConfig.

End Optimizer.

(** ** The inbound interface: one entry per operation of the four components *)

Module Ops.
Import Config Base.

Inductive ComponentClass : Type :=
| NaturalLanguageParser
| TemplateGenerator
| IntelligentValidator
| ResourceOptimizer.

Inductive Operation : Type :=
| Parse_infrastructure_requirements (text : pystr)
| Extract_context (text : pystr) (existing_resources : option (list (pystr * value)))
| Generate_terraform_template (requirements : list (pystr * value))
| Analyze_template (template_files : list (pystr * value))
| Generate_documentation (template_files analysis : list (pystr * value))
| Customize_template (template_files customizations : list (pystr * value))
| Validate_terraform (template_files : list (pystr * value))
| Suggest_fixes (template_files validation_results : list (pystr * value))
| Check_best_practices (template_files : list (pystr * value))
| Check_security (template_files : list (pystr * value))
| Optimize_cost (template_files : list (pystr * value)) (budget_constraint : option float)
| Optimize_performance (template_files : list (pystr * value))
    (performance_targets : option (list (pystr * value)))
| Suggest_architecture (requirements : list (pystr * value))
| Right_size_resources (template_files : list (pystr * value))
    (utilization_data : option (list (pystr * value))).

(** The class that defines the operation. *)
Definition op_class (op : Operation) : ComponentClass :=
  match op with
  | Parse_infrastructure_requirements _ | Extract_context _ _ => NaturalLanguageParser
  | Generate_terraform_template _ | Analyze_template _
  | Generate_documentation _ _ | Customize_template _ _ => TemplateGenerator
  | Validate_terraform _ | Suggest_fixes _ _
  | Check_best_practices _ | Check_security _ => IntelligentValidator
  | Optimize_cost _ _ | Optimize_performance _ _
  | Suggest_architecture _ | Right_size_resources _ _ => ResourceOptimizer
  end.

(** The [mock_response_key] the operation passes to [call_llm]. *)
Definition fallback_key (op : Operation) : pystr :=
  match op with
  | Parse_infrastructure_requirements _ => py "parse_requirements"
  | Extract_context _ _ => py "extract_context"
  | Generate_terraform_template _ => py "generate_template"
  | Analyze_template _ => py "analyze_template"
  | Generate_documentation _ _ => py "generate_documentation"
  | Customize_template _ _ => py "customize_template"
  | Validate_terraform _ => py "validate_terraform"
  | Suggest_fixes _ _ => py "suggest_fixes"
  | Check_best_practices _ => py "check_best_practices"
  | Check_security _ => py "check_security"
  | Optimize_cost _ _ => py "optimize_cost"
  | Optimize_performance _ _ => py "optimize_performance"
  | Suggest_architecture _ => py "suggest_architecture"
  | Right_size_resources _ _ => py "right_size_resources"
  end.

Section WithConfig.
Variable llm_config : LLMEnhancementConfig.
Variable env : Env.

(** Calling the operation's method. *)
Definition perform (op : Operation) : M value :=
  match op with
  | Parse_infrastructure_requirements text =>
      Parser.parse_infrastructure_requirements llm_config env text
  | Extract_context text existing_resources =>
      Parser.extract_context llm_config env text existing_resources
  | Generate_terraform_template requirements =>
      Generator.generate_terraform_template llm_config env requirements
  | Analyze_template template_files =>
      Generator.analyze_template llm_config env template_files
  | Generate_documentation template_files analysis =>
      Generator.generate_documentation llm_config env template_files analysis
  | Customize_template template_files customizations =>
      Generator.customize_template llm_config env template_files customizations
  | Validate_terraform template_files =>
      Validator.validate_terraform llm_config env template_files
  | Suggest_fixes template_files validation_results =>
      Validator.suggest_fixes llm_config env template_files validation_results
  | Check_best_practices template_files =>
      Validator.check_best_practices llm_config env template_files
  | Check_security template_files =>
      Validator.check_security llm_config env template_files
  | Optimize_cost template_files budget_constraint =>
      Optimizer.optimize_cost llm_config env template_files budget_constraint
  | Optimize_performance template_files performance_targets =>
      Optimizer.optimize_performance llm_config env template_files performance_targets
  | Suggest_architecture requirements =>
      Optimizer.suggest_architecture llm_config env requirements
  | Right_size_resources template_files utilization_data =>
      Optimizer.right_size_resources llm_config env template_files utilization_data
  end.

(** Calling a sequence of operations, one after the other. *)
Definition perform_all (ops : list Operation) (st : State) : State :=
  fold_left (fun st op => exec (perform op) st) ops st.

(** The [_register_default_mocks] of the class. *)
Definition register_defaults (c : ComponentClass) : M unit :=
  match c with
  | NaturalLanguageParser => Parser._register_default_mocks
  | TemplateGenerator => Generator._register_default_mocks
  | IntelligentValidator => Validator._register_default_mocks
  | ResourceOptimizer => Optimizer._register_default_mocks
  end.

(** Instantiating a component class. *)
Definition construct (c : ComponentClass) (deployment_id : option pystr)
    (log0 : list LogRecord) : result State :=
  match c with
  | NaturalLanguageParser => Parser.__init__ llm_config env deployment_id log0
  | TemplateGenerator => Generator.__init__ llm_config env deployment_id log0
  | IntelligentValidator => Validator.__init__ llm_config env deployment_id log0
  | ResourceOptimizer => Optimizer.__init__ llm_config env deployment_id log0
  end.

(** The states a component of class [c] goes through in a process whose
    configuration is [llm_config]: it is constructed, then fallbacks are
    registered, its operations and [call_llm] are called, and other code
    writes to the log, in any order. *)
Inductive reachable (c : ComponentClass) : State -> Prop :=
| reach_construct deployment_id log0 st :
    construct c deployment_id log0 = Ok st -> reachable c st
| reach_register key response st :
    reachable c st ->
    reachable c (exec (register_mock_response key response) st)
| reach_perform op st :
    op_class op = c -> reachable c st ->
    reachable c (exec (perform op) st)
| reach_call_llm system_prompt user_content temperature json_response
    max_tokens mock_response_key st :
    reachable c st ->
    reachable c (exec (call_llm llm_config env system_prompt user_content
                         temperature json_response max_tokens mock_response_key) st)
| reach_log r st :
    reachable c st -> reachable c (mk_state (self st) (log st ++ [r])).

(** [call_llm] takes the fallback branch on this object: the client is
    [None], or [use_azure_openai] is false. *)
Definition on_fallback_path (s : LLMComponentBase) : bool :=
  match client s, use_azure_openai llm_config with
  | Some (Some _), true => false
  | Some _, _ => true
  | None, _ => false
  end.

End WithConfig.

End Ops.

(** ** Scenario fixtures *)

Module Fixtures.
Import Config Base Ops.

(** A configuration with the backend switched off. *)
Definition config_mock_only : LLMEnhancementConfig :=
  mk_config [] [] (py "2023-07-01-preview")
    (py "gpt-4") (py "gpt-4") (py "gpt-4") (py "gpt-4") false.

(** The defaults of [config.py] in an empty environment:
    [USE_AZURE_OPENAI] defaults to true, endpoint and key to the empty
    string. *)
Definition config_default : LLMEnhancementConfig :=
  mk_config [] [] (py "2023-07-01-preview")
    (py "gpt-4") (py "gpt-4") (py "gpt-4") (py "gpt-4") true.

(** A fully configured backend. *)
Definition config_azure : LLMEnhancementConfig :=
  mk_config (py "https://example.openai.azure.com/") (py "secret")
    (py "2023-07-01-preview")
    (py "gpt-4") (py "gpt-4") (py "gpt-4") (py "gpt-4") true.

(** An environment whose backend answers every request with the one
    message [reply], and whose decoder rejects it the way [json.loads]
    rejects text that does not start a JSON value.  The scenarios that use
    it serialise no float. *)
Definition env_replying (reply : pystr) : Env :=
  mk_env
    (fun _ => py "0.0")
    (fun _ => Raise (mk_exn JSONDecodeError
                       (py "Expecting value: line 1 column 1 (char 0)")))
    (fun _ => None)
    (fun _ _ => Ok (mk_completion [Some reply])).

(** An environment whose backend is unreachable. *)
Definition env_offline : Env :=
  mk_env
    (fun _ => py "0.0")
    (fun _ => Raise (mk_exn JSONDecodeError
                       (py "Expecting value: line 1 column 1 (char 0)")))
    (fun _ => None)
    (fun _ _ => Raise (mk_exn (ExternalError (py "APIConnectionError"))
                         (py "Connection error."))).

(** The state of a successful construction. *)
Definition constructed (r : result State) : State :=
  match r with
  | Ok st => st
  | Raise _ => mk_state (mk_self [] [] [] ∅ None) []
  end.

(** Freshly constructed components. *)
Definition parser_mock_only : State :=
  constructed (construct config_mock_only env_offline NaturalLanguageParser None []).
Definition generator_mock_only : State :=
  constructed (construct config_mock_only env_offline TemplateGenerator None []).
Definition validator_mock_only : State :=
  constructed (construct config_mock_only env_offline IntelligentValidator None []).
Definition parser_default : State :=
  constructed (construct config_default env_offline NaturalLanguageParser None []).
Definition non_json_reply : pystr := py "Sure, here is the plan you asked for".
Definition parser_azure : State :=
  constructed (construct config_azure (env_replying non_json_reply)
                 NaturalLanguageParser None []).

(** The payload of the override scenario:
    [{"errors": [], "warnings": [], "suggestions": []}]. *)
Definition empty_validation : value :=
  VDict [(py "errors", VList []); (py "warnings", VList []);
         (py "suggestions", VList [])].

(** A parser and a generator brought to the same registry: each is given
    the other's recorded responses under the other's keys. *)
Definition parser_with_generator_entries : State :=
  exec (register_mock_response (py "customize_template")
          Generator.mock_customize_template)
    (exec (register_mock_response (py "generate_documentation")
             Generator.mock_generate_documentation)
       (exec (register_mock_response (py "analyze_template")
                Generator.mock_analyze_template)
          (exec (register_mock_response (py "generate_template")
                   Generator.mock_generate_template)
             parser_mock_only))).
Definition generator_with_parser_entries : State :=
  exec (register_mock_response (py "extract_context") Parser.mock_extract_context)
    (exec (register_mock_response (py "parse_requirements")
             Parser.mock_parse_requirements)
       generator_mock_only).

End Fixtures.

(** ** Statement helpers *)

Module Props.
Import Config Base Ops.

(** The payload as [call_llm] passes it on: a dictionary is serialised. *)
Definition payload_text (env : Env) (user_content : UserContent) : pystr :=
  match user_content with
  | UDict d => json_dumps (float_repr env) (VDict d)
  | UStr s => s
  end.

(** The generic placeholder with a given preview. *)
Definition placeholder (s : LLMComponentBase) (system_prompt preview : pystr) : value :=
  VDict [
    (py "message", VStr (py "This is a mock response from " ++ component_name s));
    (py "system_prompt_length", VInt (len system_prompt));
    (py "user_content_preview", VStr preview)].

(** No fallback is registered under the call's key. *)
Definition unregistered (s : LLMComponentBase) (key : option pystr) : Prop :=
  match key with
  | Some k => mock_responses s !! k = None
  | None => True
  end.

(** The keys of a returned mapping ([[]] when the value is no mapping). *)
Definition keys_of (v : value) : list pystr :=
  match v with
  | VDict d => dict_keys d
  | _ => []
  end.

(** [v[k]] when [v] is a mapping. *)
Definition item (k : pystr) (v : value) : option value :=
  match v with
  | VDict d => dict_get k d
  | _ => None
  end.

(** [s[:50] + "..." if len(s) > 50 else s], case by case. *)
Definition is_preview_of (text preview : pystr) : Prop :=
  (50 < len text -> preview = slice_to 50 text ++ py "..." /\ len preview = 53) /\
  (len text <= 50 -> preview = text).

(** The resource descriptor is the VPC one. *)
Definition is_vpc (r : value) : bool :=
  match item (py "type") r with
  | Some (VStr t) => bool_decide (t = py "vpc")
  | _ => false
  end.

(** The filenames of the recorded template mappings. *)
Definition builtin_filenames : list pystr :=
  [py "main.tf"; py "variables.tf"; py "outputs.tf"].

(** A computation that changes nothing but the log, which it only extends. *)
Definition log_only {A} (m : M A) : Prop :=
  forall st, exists r l, m st = (r, mk_state (self st) (log st ++ l)).

End Props.


(** ** The HTTP handlers: [parsers/routes.py], [generators/routes.py],
    [validators/routes.py], [optimizers/routes.py]

    Each module creates one component when it is imported and serves its
    operations; a handler runs on the state of that component.  The
    request models are validated by the framework before a handler runs,
    so a handler takes the fields of its request as arguments. *)

Module Routes.
Import Config Base.
Local Open Scope py_scope.

(** What a handler hands back to the framework: the body it returns, or
    the [HTTPException] it raises. *)
Inductive Response : Type :=
| Returned (body : value)
| HTTPException (status_code : Z) (detail : pystr).

Definition Handler : Type := State -> Response * State.

(** [try: body except Exception as e: handle e] *)
Definition try_handler (body : M value) (handle : exn -> Handler) : Handler :=
  fun st =>
    match body st with
    | (Ok v, st') => (Returned v, st')
    | (Raise e, st') => handle e st'
    end.

(** [logger.error(message); raise HTTPException(status_code=, detail=)] *)
Definition log_and_raise (message : pystr) (status_code : Z) (detail : pystr) : Handler :=
  fun st =>
    (HTTPException status_code detail,
     mk_state (self st) (log st ++ [mk_log ERROR message])).

End Routes.

Module ParserRoutes.
Import Config Base Routes.
Local Open Scope py_scope.

Section WithConfig.
Variable llm_config : LLMEnhancementConfig.
Variable env : Env.

(** Parse infrastructure requirements from natural language text *)
Definition parse_requirements (text : pystr) : Handler :=
  try_handler
    (logger INFO (py "Parsing infrastructure requirements: " ++ slice_to 50 text ++ py "...") ;;
     let* requirements := Parser.parse_infrastructure_requirements llm_config env text in
     ret requirements)
    (fun e =>
       log_and_raise (py "Error parsing requirements: " ++ exn_str e)
         500 (py "Failed to parse requirements: " ++ exn_str e)).

(** Extract contextual information from a user request *)
Definition extract_context (text : pystr)
    (existing_resources : option (list (pystr * value))) : Handler :=
  try_handler
    (logger INFO (py "Extracting context from: " ++ slice_to 50 text ++ py "...") ;;
     let* context := Parser.extract_context llm_config env text existing_resources in
     ret context)
    (fun e =>
       log_and_raise (py "Error extracting context: " ++ exn_str e)
         500 (py "Failed to extract context: " ++ exn_str e)).

End WithConfig.

End ParserRoutes.

Module GeneratorRoutes.
Import Config Base Routes.
Local Open Scope py_scope.

Section WithConfig.
Variable llm_config : LLMEnhancementConfig.
Variable env : Env.

(** [TemplateGenerator.generate_documentation] as the handler calls it:
    the analysis is whatever [analyze_template] returned, a mapping or
    not. *)
Definition generate_documentation_with (template_files : list (pystr * value))
    (analysis : value) : M value :=
  let input_content := [
    (py "template_files", VDict template_files);
    (py "analysis", analysis)] in
  call_llm llm_config env
    Generator.generate_documentation_system_prompt
    (UDict input_content)
    (Some (0x1.999999999999ap-3)%float) (* 0.2 *)
    false
    None
    (Some (py "generate_documentation")).

(** Generate Terraform template code based on requirements *)
Definition generate_terraform (requirements : list (pystr * value)) : Handler :=
  try_handler
    (logger INFO (py "Generating Terraform template...") ;;
     let* template_files :=
       Generator.generate_terraform_template llm_config env requirements in
     ret (VDict [(py "template_files", template_files)]))
    (fun e =>
       log_and_raise (py "Error generating Terraform template: " ++ exn_str e)
         500 (py "Failed to generate template: " ++ exn_str e)).

(** Analyze a Terraform template to extract key information *)
Definition analyze_template (template_files : list (pystr * value)) : Handler :=
  try_handler
    (logger INFO (py "Analyzing Terraform template...") ;;
     let* analysis := Generator.analyze_template llm_config env template_files in
     ret analysis)
    (fun e =>
       log_and_raise (py "Error analyzing Terraform template: " ++ exn_str e)
         500 (py "Failed to analyze template: " ++ exn_str e)).

(** Generate comprehensive documentation for a Terraform template *)
Definition generate_documentation (template_files : list (pystr * value))
    (analysis : option (list (pystr * value))) : Handler :=
  try_handler
    (logger INFO (py "Generating documentation...") ;;
     (* If analysis is not provided, generate it *)
     let* analysis :=
       if negb (opt_truthy dict_truthy analysis) then
         logger INFO (py "No analysis provided, generating one...") ;;
         Generator.analyze_template llm_config env template_files
       else ret (of_optional VDict analysis) in
     let* documentation := generate_documentation_with template_files analysis in
     ret (VDict [(py "documentation", documentation)]))
    (fun e =>
       log_and_raise (py "Error generating documentation: " ++ exn_str e)
         500 (py "Failed to generate documentation: " ++ exn_str e)).

(** Customize an existing Terraform template *)
Definition customize_template (template_files customizations : list (pystr * value))
    : Handler :=
  try_handler
    (logger INFO (py "Customizing Terraform template...") ;;
     let* customized_files :=
       Generator.customize_template llm_config env template_files customizations in
     ret (VDict [(py "template_files", customized_files)]))
    (fun e =>
       log_and_raise (py "Error customizing template: " ++ exn_str e)
         500 (py "Failed to customize template: " ++ exn_str e)).

End WithConfig.

End GeneratorRoutes.

Module ValidatorRoutes.
Import Config Base Routes.
Local Open Scope py_scope.

Section WithConfig.
Variable llm_config : LLMEnhancementConfig.
Variable env : Env.

(** Validate Terraform template files for errors and best practices *)
Definition validate_terraform (template_files : list (pystr * value)) : Handler :=
  try_handler
    (logger INFO (py "Validating Terraform template...") ;;
     let* results := Validator.validate_terraform llm_config env template_files in
     ret results)
    (fun e =>
       log_and_raise (py "Error validating Terraform template: " ++ exn_str e)
         500 (py "Failed to validate template: " ++ exn_str e)).

(** Suggest fixes for issues identified in validation *)
Definition suggest_fixes (template_files validation_results : list (pystr * value))
    : Handler :=
  try_handler
    (logger INFO (py "Suggesting fixes for Terraform template...") ;;
     let* fixed_files :=
       Validator.suggest_fixes llm_config env template_files validation_results in
     ret (VDict [(py "template_files", fixed_files)]))
    (fun e =>
       log_and_raise (py "Error suggesting fixes: " ++ exn_str e)
         500 (py "Failed to suggest fixes: " ++ exn_str e)).

(** Check template for best practice adherence *)
Definition check_best_practices (template_files : list (pystr * value)) : Handler :=
  try_handler
    (logger INFO (py "Checking best practices...") ;;
     let* best_practices :=
       Validator.check_best_practices llm_config env template_files in
     ret best_practices)
    (fun e =>
       log_and_raise (py "Error checking best practices: " ++ exn_str e)
         500 (py "Failed to check best practices: " ++ exn_str e)).

(** Perform a security-focused analysis of Terraform code *)
Definition check_security (template_files : list (pystr * value)) : Handler :=
  try_handler
    (logger INFO (py "Checking security...") ;;
     let* security_results := Validator.check_security llm_config env template_files in
     ret security_results)
    (fun e =>
       log_and_raise (py "Error checking security: " ++ exn_str e)
         500 (py "Failed to check security: " ++ exn_str e)).

End WithConfig.

End ValidatorRoutes.

Module OptimizerRoutes.
Import Config Base Routes.
Local Open Scope py_scope.

Section WithConfig.
Variable llm_config : LLMEnhancementConfig.
Variable env : Env.

(** Optimize Terraform template for cost *)
Definition optimize_cost (template_files : list (pystr * value))
    (budget_constraint : option float) : Handler :=
  try_handler
    (logger INFO (py "Optimizing Terraform template for cost...") ;;
     let* results :=
       Optimizer.optimize_cost llm_config env template_files budget_constraint in
     ret results)
    (fun e =>
       log_and_raise (py "Error optimizing for cost: " ++ exn_str e)
         500 (py "Failed to optimize for cost: " ++ exn_str e)).

(** Optimize Terraform template for performance *)
Definition optimize_performance (template_files : list (pystr * value))
    (performance_targets : option (list (pystr * value))) : Handler :=
  try_handler
    (logger INFO (py "Optimizing Terraform template for performance...") ;;
     let* results :=
       Optimizer.optimize_performance llm_config env template_files performance_targets in
     ret results)
    (fun e =>
       log_and_raise (py "Error optimizing for performance: " ++ exn_str e)
         500 (py "Failed to optimize for performance: " ++ exn_str e)).

(** Suggest optimal architecture based on requirements *)
Definition suggest_architecture (requirements : list (pystr * value)) : Handler :=
  try_handler
    (logger INFO (py "Suggesting architecture...") ;;
     let* results := Optimizer.suggest_architecture llm_config env requirements in
     ret results)
    (fun e =>
       log_and_raise (py "Error suggesting architecture: " ++ exn_str e)
         500 (py "Failed to suggest architecture: " ++ exn_str e)).

(** Right-size resources based on utilization data or best practices *)
Definition right_size_resources (template_files : list (pystr * value))
    (utilization_data : option (list (pystr * value))) : Handler :=
  try_handler
    (logger INFO (py "Right-sizing resources...") ;;
     let* results :=
       Optimizer.right_size_resources llm_config env template_files utilization_data in
     ret results)
    (fun e =>
       log_and_raise (py "Error right-sizing resources: " ++ exn_str e)
         500 (py "Failed to right-size resources: " ++ exn_str e)).

End WithConfig.

End OptimizerRoutes.

(** ** The endpoints of the four routers, by path *)

Module Api.
Import Config Base Ops Routes.

Inductive Endpoint : Type :=
| Parser_parse (text : pystr)
| Parser_context (text : pystr) (existing_resources : option (list (pystr * value)))
| Generator_terraform (requirements : list (pystr * value))
| Generator_analyze (template_files : list (pystr * value))
| Generator_documentation (template_files : list (pystr * value))
    (analysis : option (list (pystr * value)))
| Generator_customize (template_files customizations : list (pystr * value))
| Validator_validate (template_files : list (pystr * value))
| Validator_suggest_fixes (template_files validation_results : list (pystr * value))
| Validator_best_practices (template_files : list (pystr * value))
| Validator_security (template_files : list (pystr * value))
| Optimizer_cost (template_files : list (pystr * value)) (budget_constraint : option float)
| Optimizer_performance (template_files : list (pystr * value))
    (performance_targets : option (list (pystr * value)))
| Optimizer_architecture (requirements : list (pystr * value))
| Optimizer_right_size (template_files : list (pystr * value))
    (utilization_data : option (list (pystr * value))).

(** The class of the component the endpoint's module holds. *)
Definition served_by (r : Endpoint) : ComponentClass :=
  match r with
  | Parser_parse _ | Parser_context _ _ => NaturalLanguageParser
  | Generator_terraform _ | Generator_analyze _
  | Generator_documentation _ _ | Generator_customize _ _ => TemplateGenerator
  | Validator_validate _ | Validator_suggest_fixes _ _
  | Validator_best_practices _ | Validator_security _ => IntelligentValidator
  | Optimizer_cost _ _ | Optimizer_performance _ _
  | Optimizer_architecture _ | Optimizer_right_size _ _ => ResourceOptimizer
  end.

Section WithConfig.
Variable llm_config : LLMEnhancementConfig.
Variable env : Env.

Definition serve (r : Endpoint) : Handler :=
  match r with
  | Parser_parse text => ParserRoutes.parse_requirements llm_config env text
  | Parser_context text existing_resources =>
      ParserRoutes.extract_context llm_config env text existing_resources
  | Generator_terraform requirements =>
      GeneratorRoutes.generate_terraform llm_config env requirements
  | Generator_analyze template_files =>
      GeneratorRoutes.analyze_template llm_config env template_files
  | Generator_documentation template_files analysis =>
      GeneratorRoutes.generate_documentation llm_config env template_files analysis
  | Generator_customize template_files customizations =>
      GeneratorRoutes.customize_template llm_config env template_files customizations
  | Validator_validate template_files =>
      ValidatorRoutes.validate_terraform llm_config env template_files
  | Validator_suggest_fixes template_files validation_results =>
      ValidatorRoutes.suggest_fixes llm_config env template_files validation_results
  | Validator_best_practices template_files =>
      ValidatorRoutes.check_best_practices llm_config env template_files
  | Validator_security template_files =>
      ValidatorRoutes.check_security llm_config env template_files
  | Optimizer_cost template_files budget_constraint =>
      OptimizerRoutes.optimize_cost llm_config env template_files budget_constraint
  | Optimizer_performance template_files performance_targets =>
      OptimizerRoutes.optimize_performance llm_config env template_files performance_targets
  | Optimizer_architecture requirements =>
      OptimizerRoutes.suggest_architecture llm_config env requirements
  | Optimizer_right_size template_files utilization_data =>
      OptimizerRoutes.right_size_resources llm_config env template_files utilization_data
  end.

End WithConfig.

End Api.

(** ** More statement helpers *)

Module Facts.
Import Config Base Ops Routes Api.

(** A computation whose result and whose added log records depend on the
    object alone: it leaves the object as it is and appends the same
    records to whatever log it starts from. *)
Definition appends {A} (m : M A) : Prop :=
  forall s, exists r added, forall l, m (mk_state s l) = (r, mk_state s (l ++ added)).

Definition handler_appends (h : Handler) : Prop :=
  forall s, exists r added, forall l, h (mk_state s l) = (r, mk_state s (l ++ added)).

(** The value of [self.client] that [__init__] leaves, read off the
    configuration: not assigned, [None], or the client. *)
Definition initial_client (llm_config : LLMEnhancementConfig) (env : Env)
    : option (option AzureOpenAI) :=
  let c := mk_client (azure_openai_endpoint llm_config) (azure_openai_key llm_config)
             (azure_openai_version llm_config) in
  if use_azure_openai llm_config then
    if negb (str_truthy (azure_openai_endpoint llm_config))
       || negb (str_truthy (azure_openai_key llm_config)) then None
    else match azure_openai_init env c with
         | None => Some (Some c)
         | Some _ => Some None
         end
  else Some None.

(** The per-class model identifier of the configuration. *)
Definition configured_deployment_id (llm_config : LLMEnhancementConfig)
    (c : ComponentClass) : pystr :=
  match c with
  | NaturalLanguageParser => parser_deployment_id llm_config
  | TemplateGenerator => generator_deployment_id llm_config
  | IntelligentValidator => validator_deployment_id llm_config
  | ResourceOptimizer => optimizer_deployment_id llm_config
  end.

(** The keys each class registers, in the order it registers them. *)
Definition builtin_keys (c : ComponentClass) : list pystr :=
  match c with
  | NaturalLanguageParser => [py "parse_requirements"; py "extract_context"]
  | TemplateGenerator =>
      [py "generate_template"; py "analyze_template"; py "generate_documentation";
       py "customize_template"]
  | IntelligentValidator =>
      [py "validate_terraform"; py "suggest_fixes"; py "check_best_practices";
       py "check_security"]
  | ResourceOptimizer =>
      [py "optimize_cost"; py "optimize_performance"; py "suggest_architecture";
       py "right_size_resources"]
  end.

Definition registration_record (key : pystr) : LogRecord :=
  mk_log INFO (py "Registered mock response for key: " ++ key).

(** The four names for which the configuration has a model identifier. *)
Definition component_names : list pystr :=
  [py "parser"; py "generator"; py "validator"; py "optimizer"].

(** The request [call_llm] builds for the backend. *)
Definition sent_request (s : LLMComponentBase) (system_prompt user_content : pystr)
    (temperature : option float) (json_response : bool) (max_tokens : option Z)
    : ChatRequest :=
  mk_request (deployment_id s)
    [[(py "role", VStr (py "system")); (py "content", VStr system_prompt)];
     [(py "role", VStr (py "user")); (py "content", VStr user_content)]]
    (if json_response then VDict [(py "type", VStr (py "json_object"))] else VNone)
    (match temperature with
     | Some t => if float_truthy t then t else default_temperature
     | None => default_temperature
     end)
    (match max_tokens with
     | Some n => if int_truthy n then n else Config.max_tokens
     | None => Config.max_tokens
     end).

(** The operation behind an endpoint that makes one call, and how the
    handler wraps what the operation returns. *)
Definition wrap_under (key : pystr) (v : value) : value := VDict [(key, v)].

Definition single_operation (r : Endpoint) : option (Operation * (value -> value)) :=
  match r with
  | Parser_parse text => Some (Parse_infrastructure_requirements text, id)
  | Parser_context text er => Some (Extract_context text er, id)
  | Generator_terraform rq =>
      Some (Generate_terraform_template rq, wrap_under (py "template_files"))
  | Generator_analyze tf => Some (Analyze_template tf, id)
  | Generator_documentation tf (Some (e :: a)) =>
      Some (Generate_documentation tf (e :: a), wrap_under (py "documentation"))
  | Generator_documentation tf _ => None
  | Generator_customize tf c =>
      Some (Customize_template tf c, wrap_under (py "template_files"))
  | Validator_validate tf => Some (Validate_terraform tf, id)
  | Validator_suggest_fixes tf vr =>
      Some (Suggest_fixes tf vr, wrap_under (py "template_files"))
  | Validator_best_practices tf => Some (Check_best_practices tf, id)
  | Validator_security tf => Some (Check_security tf, id)
  | Optimizer_cost tf b => Some (Optimize_cost tf b, id)
  | Optimizer_performance tf p => Some (Optimize_performance tf p, id)
  | Optimizer_architecture rq => Some (Suggest_architecture rq, id)
  | Optimizer_right_size tf u => Some (Right_size_resources tf u, id)
  end.

(** The text a handler puts before [str(e)] in the detail of its
    [HTTPException]. *)
Definition failure_detail (r : Endpoint) : pystr :=
  match r with
  | Parser_parse _ => py "Failed to parse requirements: "
  | Parser_context _ _ => py "Failed to extract context: "
  | Generator_terraform _ => py "Failed to generate template: "
  | Generator_analyze _ => py "Failed to analyze template: "
  | Generator_documentation _ _ => py "Failed to generate documentation: "
  | Generator_customize _ _ => py "Failed to customize template: "
  | Validator_validate _ => py "Failed to validate template: "
  | Validator_suggest_fixes _ _ => py "Failed to suggest fixes: "
  | Validator_best_practices _ => py "Failed to check best practices: "
  | Validator_security _ => py "Failed to check security: "
  | Optimizer_cost _ _ => py "Failed to optimize for cost: "
  | Optimizer_performance _ _ => py "Failed to optimize for performance: "
  | Optimizer_architecture _ => py "Failed to suggest architecture: "
  | Optimizer_right_size _ _ => py "Failed to right-size resources: "
  end.

(** How a backend answer fails before any decoding: the call raised, the
    completion has no choice, or JSON was asked for and the first choice
    has no content. *)
Definition transport_failure (json_response : bool) (reply : result ChatCompletion)
    : option exn :=
  match reply with
  | Raise e => Some e
  | Ok response =>
      match choices response with
      | [] => Some (mk_exn IndexError (py "list index out of range"))
      | None :: _ =>
          if json_response then
            Some (mk_exn TypeError
                    (py "the JSON object must be str, bytes or bytearray, not NoneType"))
          else None
      | Some _ :: _ => None
      end
  end.

(** A computation that returns, and leaves the object as it is, whenever
    [client] has been assigned. *)
Definition returns_with_client {A} (m : M A) : Prop :=
  forall st c, client (self st) = Some c ->
    exists v st', m st = (Ok v, st') /\ self st' = self st.

(** The message of the [AttributeError] for the missing [client]. *)
Definition no_client_message (s : LLMComponentBase) : pystr :=
  py "'" ++ py_class s ++ py "' object has no attribute 'client'".

(** Every character is printable ASCII. *)
Definition printable_ascii (s : pystr) : Prop :=
  Forall (fun c : N => (32 <= c <= 126)%N) s.

End Facts.

(** ** More scenario fixtures *)

Module Scenarios.
Import Config Base Ops Fixtures.

(** An environment whose backend answers every request with the one
    message [reply], and whose decoder knows that text: it decodes to
    [decoded]. *)
Definition env_decoding (reply : pystr) (decoded : value) : Env :=
  mk_env
    (fun _ => py "0.0")
    (fun text =>
       if decide (text = reply) then Ok decoded
       else Raise (mk_exn JSONDecodeError
                     (py "Expecting value: line 1 column 1 (char 0)")))
    (fun _ => None)
    (fun _ _ => Ok (mk_completion [Some reply])).

(** An environment in which constructing the client raises. *)
Definition env_client_fails : Env :=
  mk_env
    (fun _ => py "0.0")
    (fun _ => Raise (mk_exn JSONDecodeError
                       (py "Expecting value: line 1 column 1 (char 0)")))
    (fun _ => Some (mk_exn (ExternalError (py "OpenAIError"))
                      (py "Invalid API version")))
    (fun _ _ => Raise (mk_exn (ExternalError (py "APIConnectionError"))
                         (py "Connection error."))).

Definition the_azure_client : AzureOpenAI :=
  mk_client (azure_openai_endpoint config_azure) (azure_openai_key config_azure)
    (azure_openai_version config_azure).

Definition json_reply : pystr := pyq ["{"; "provider"; ": "; "azure"; "}"]%string.
Definition decoded_reply : value := VDict [(py "provider", VStr (py "azure"))].

Definition parser_azure_decoding : State :=
  constructed (construct config_azure (env_decoding json_reply decoded_reply)
                 NaturalLanguageParser None []).
Definition parser_azure_offline : State :=
  constructed (construct config_azure env_offline NaturalLanguageParser None []).
Definition validator_client_failed : State :=
  constructed (construct config_azure env_client_fails IntelligentValidator None []).
Definition generator_default : State :=
  constructed (construct config_default env_offline TemplateGenerator None []).
Definition parser_named : State :=
  constructed (construct config_mock_only env_offline NaturalLanguageParser
                 (Some (py "gpt-4o-infra")) []).

End Scenarios.

(** * Properties *)

Import Config Base Ops Props Fixtures.

Arguments py : simpl never.
Arguments pyq : simpl never.
Arguments json_dumps : simpl never.
Arguments slice_to : simpl never.
Arguments len : simpl never.

Ltac unfold_monad :=
  unfold bind, ret, raise, lift, try_except, get_self, set_self, logger,
    run, exec in *.

(** *** Computations that only log *)

Lemma log_only_ret {A} (a : A) : log_only (ret a).
Proof. intros [s l]. exists (Ok a), []. unfold ret. simpl. by rewrite app_nil_r. Qed.

Lemma log_only_raise {A} (e : exn) : log_only (@raise A e).
Proof. intros [s l]. exists (Raise e), []. unfold raise. simpl. by rewrite app_nil_r. Qed.

Lemma log_only_lift {A} (r : result A) : log_only (lift r).
Proof. intros [s l]. exists r, []. unfold lift. simpl. by rewrite app_nil_r. Qed.

Lemma log_only_get_self : log_only get_self.
Proof. intros [s l]. exists (Ok s), []. unfold get_self. simpl. by rewrite app_nil_r. Qed.

Lemma log_only_logger lvl msg : log_only (logger lvl msg).
Proof. intros st. exists (Ok tt), [mk_log lvl msg]. reflexivity. Qed.

Lemma log_only_bind {A B} (m : M A) (k : A -> M B) :
  log_only m -> (forall a, log_only (k a)) -> log_only (bind m k).
Proof.
  intros Hm Hk st. unfold bind.
  destruct (Hm st) as (r & l & ->). destruct r as [a|e].
  - destruct (Hk a (mk_state (self st) (log st ++ l))) as (r' & l' & ->).
    exists r', (l ++ l'). simpl. by rewrite app_assoc.
  - by exists (Raise e), l.
Qed.

Lemma log_only_try_except {A} (body : M A) (handler : exn -> M A) :
  log_only body -> (forall e, log_only (handler e)) -> log_only (try_except body handler).
Proof.
  intros Hm Hk st. unfold try_except.
  destruct (Hm st) as (r & l & ->). destruct r as [a|e].
  - by exists (Ok a), l.
  - destruct (Hk e (mk_state (self st) (log st ++ l))) as (r' & l' & ->).
    exists r', (l ++ l'). simpl. by rewrite app_assoc.
Qed.

Create HintDb log_only.
#[local] Hint Resolve log_only_ret log_only_raise log_only_lift log_only_get_self
  log_only_logger log_only_bind log_only_try_except : log_only.

Lemma get_mock_response_log_only env key system_prompt user_content json_response :
  log_only (_get_mock_response env key system_prompt user_content json_response).
Proof.
  unfold _get_mock_response.
  apply log_only_bind; [apply log_only_get_self|]. intros s.
  destruct key as [k|];
    [destruct (str_truthy k); [destruct (mock_responses s !! k)|]|];
    try destruct json_response; auto with log_only.
Qed.

#[local] Hint Resolve get_mock_response_log_only : log_only.

Section Core.
Variable llm_config : LLMEnhancementConfig.
Variable env : Env.

(** *** The fallback lookup *)

Lemma get_mock_response_registered k v system_prompt user_content json_response st :
  str_truthy k = true ->
  mock_responses (self st) !! k = Some v ->
  _get_mock_response env (Some k) system_prompt user_content json_response st
  = (Ok v, mk_state (self st)
             (log st ++ [mk_log INFO (py "Using mock response for key: " ++ k)])).
Proof.
  intros Hk Hv. unfold _get_mock_response. unfold_monad. simpl.
  rewrite Hk, Hv. reflexivity.
Qed.

Lemma get_mock_response_generic key system_prompt user_content json_response st :
  unregistered (self st) key ->
  _get_mock_response env key system_prompt user_content json_response st
  = (Ok (let mock :=
           placeholder (self st) system_prompt
             (if 50 <? len user_content
              then slice_to 50 user_content ++ py "..." else user_content) in
         if json_response then mock
         else VStr (json_dumps (float_repr env) mock)), st).
Proof.
  intros Hk. unfold _get_mock_response, placeholder. unfold_monad. simpl.
  destruct key as [k|]; simpl in Hk.
  - rewrite Hk. destruct (str_truthy k), json_response; reflexivity.
  - destruct json_response; reflexivity.
Qed.

(** The lookup returns a value. *)
Lemma get_mock_response_returns key system_prompt user_content json_response st :
  exists v, run (_get_mock_response env key system_prompt user_content json_response) st
            = Ok v.
Proof.
  unfold _get_mock_response. unfold_monad. simpl.
  destruct key as [k|];
    [destruct (str_truthy k); [destruct (mock_responses (self st) !! k)|]|];
    try (destruct json_response); simpl; eauto.
Qed.

(** *** [call_llm] *)

Lemma call_llm_fallback system_prompt user_content temperature json_response
    max_tokens key st :
  on_fallback_path llm_config (self st) = true ->
  call_llm llm_config env system_prompt user_content temperature json_response
    max_tokens key st
  = _get_mock_response env key system_prompt (payload_text env user_content)
      json_response st.
Proof.
  unfold on_fallback_path, call_llm, self_client, payload_text. unfold_monad.
  simpl. intros H.
  destruct (client (self st)) as [[c|]|]; [destruct (use_azure_openai llm_config)|..];
    try discriminate; reflexivity.
Qed.

Lemma call_llm_no_client_attribute system_prompt user_content temperature
    json_response max_tokens key st :
  client (self st) = None ->
  call_llm llm_config env system_prompt user_content temperature json_response
    max_tokens key st
  = (Raise (mk_exn AttributeError
              (py "'" ++ py_class (self st) ++ py "' object has no attribute 'client'")),
     st).
Proof.
  unfold call_llm, self_client. unfold_monad. simpl. intros ->. reflexivity.
Qed.

Lemma call_llm_fallback_registered system_prompt user_content temperature
    json_response max_tokens k v st :
  on_fallback_path llm_config (self st) = true ->
  str_truthy k = true ->
  mock_responses (self st) !! k = Some v ->
  run (call_llm llm_config env system_prompt user_content temperature json_response
         max_tokens (Some k)) st = Ok v.
Proof.
  intros Hf Hk Hv. unfold run. rewrite call_llm_fallback by done.
  by rewrite (get_mock_response_registered k v).
Qed.

(** A reply that does not decode: the [Exception] raised for it is
    caught by the enclosing handler, which answers from the fallback. *)
Lemma call_llm_invalid_json system_prompt user_content temperature max_tokens key
    st c resp text rest e :
  client (self st) = Some (Some c) ->
  use_azure_openai llm_config = true ->
  (forall request, chat_completions_create env c request = Ok resp) ->
  choices resp = Some text :: rest ->
  json_loads env text = Raise e ->
  exn_class e = JSONDecodeError ->
  call_llm llm_config env system_prompt user_content temperature true max_tokens key st
  = _get_mock_response env key system_prompt (payload_text env user_content) true
      (mk_state (self st)
         (log st ++ [
            mk_log ERROR (py "Failed to parse JSON response: " ++ exn_str e);
            mk_log DEBUG (py "Raw response: " ++ text);
            mk_log ERROR (py "Error calling Azure OpenAI: "
                          ++ (py "Invalid JSON response from LLM: " ++ exn_str e))])).
Proof.
  intros Hc Hu Hreply Hch Hjson Hcls.
  unfold call_llm, self_client, payload_text. unfold_monad. simpl.
  rewrite Hc, Hu, Hreply, Hch, Hjson, Hcls. simpl.
  by rewrite <- !app_assoc.
Qed.

(** Whatever path it takes, [call_llm] only appends to the log. *)
Lemma call_llm_log_only system_prompt user_content temperature json_response
    max_tokens key :
  log_only (call_llm llm_config env system_prompt user_content temperature
              json_response max_tokens key).
Proof.
  unfold call_llm, self_client.
  apply log_only_bind.
  { apply log_only_bind; [apply log_only_get_self|].
    intros s. destruct (client s); auto with log_only. }
  intros [c|]; [|auto with log_only].
  destruct (use_azure_openai llm_config); [|auto with log_only].
  apply log_only_try_except; [|intros e; auto 10 with log_only].
  apply log_only_bind; [apply log_only_get_self|]. intros s'.
  apply log_only_bind; [apply log_only_lift|]. intros response.
  apply log_only_bind.
  { destruct (choices response); auto with log_only. }
  intros content. destruct json_response; [|auto with log_only].
  destruct content as [text|]; [|auto with log_only].
  destruct (json_loads env text) as [v|e]; [auto with log_only|].
  destruct (exn_class e); auto 10 with log_only.
Qed.

End Core.

Section Components.
Variable llm_config : LLMEnhancementConfig.
Variable env : Env.

Lemma log_only_self {A} (m : M A) st : log_only m -> self (exec m st) = self st.
Proof. intros H. unfold exec. by destruct (H st) as (r & l & ->). Qed.

(** Every operation is one [call_llm] under its own fallback key. *)
Lemma perform_call_llm op :
  exists system_prompt user_content temperature json_response max_tokens,
    perform llm_config env op
    = call_llm llm_config env system_prompt user_content temperature json_response
        max_tokens (Some (fallback_key op)).
Proof. destruct op; do 5 eexists; reflexivity. Qed.

Lemma fallback_key_truthy op : str_truthy (fallback_key op) = true.
Proof. by destruct op. Qed.

Lemma perform_log_only op : log_only (perform llm_config env op).
Proof.
  destruct (perform_call_llm op) as (sp & uc & t & j & m & ->).
  apply call_llm_log_only.
Qed.

Lemma register_mock_response_run key response st :
  register_mock_response key response st
  = (Ok tt,
     mk_state
       (mk_self (py_class (self st)) (component_name (self st)) (deployment_id (self st))
          (<[key := response]> (mock_responses (self st))) (client (self st)))
       (log st ++ [mk_log INFO (py "Registered mock response for key: " ++ key)])).
Proof. reflexivity. Qed.

(** *** Construction *)

(** The [client] attribute after [LLMComponentBase.__init__]. *)
Lemma base_init_client cls name deployment_id log0 st :
  Base.__init__ llm_config env cls name deployment_id log0 = Ok st ->
  py_class (self st) = cls /\ component_name (self st) = name /\
  mock_responses (self st) = ∅ /\
  (use_azure_openai llm_config = false -> client (self st) = Some None) /\
  (use_azure_openai llm_config = true ->
   azure_openai_endpoint llm_config = [] \/ azure_openai_key llm_config = [] ->
   client (self st) = None).
Proof.
  unfold Base.__init__.
  destruct (match deployment_id with Some d => _ | None => _ end) as [d|e];
    [|discriminate].
  destruct (use_azure_openai llm_config).
  - destruct (negb (str_truthy (azure_openai_endpoint llm_config))
              || negb (str_truthy (azure_openai_key llm_config))) eqn:Hcred.
    + intros [= <-]. simpl. repeat split; done.
    + destruct (azure_openai_init env _); intros [= <-]; simpl;
        (do 4 (split; [done|])); intros _ [Hm|Hm]; rewrite Hm in Hcred;
        simpl in Hcred; try discriminate; rewrite orb_true_r in Hcred; discriminate.
  - intros [= <-]. simpl. repeat split; done.
Qed.

Lemma base_init_ok cls name deployment_id log0 :
  (exists d, getattr llm_config (lower name ++ py "_deployment_id") = Ok d) ->
  exists st, Base.__init__ llm_config env cls name deployment_id log0 = Ok st.
Proof.
  intros [d Hd]. unfold Base.__init__. rewrite Hd.
  destruct deployment_id as [d'|]; [destruct (str_truthy d')|];
    destruct (use_azure_openai llm_config);
    try destruct (negb _ || negb _); try destruct (azure_openai_init env _); eauto.
Qed.

(** Instantiating one of the four component classes succeeds. *)
Lemma construct_ok c deployment_id log0 :
  exists st, construct llm_config env c deployment_id log0 = Ok st.
Proof.
  destruct c; simpl;
    unfold Parser.__init__, Generator.__init__, Validator.__init__, Optimizer.__init__.
  - destruct (base_init_ok (py "NaturalLanguageParser") (py "parser") deployment_id log0)
      as [st ->]; eauto.
  - destruct (base_init_ok (py "TemplateGenerator") (py "generator") deployment_id log0)
      as [st ->]; eauto.
  - destruct (base_init_ok (py "IntelligentValidator") (py "validator") deployment_id log0)
      as [st ->]; eauto.
  - destruct (base_init_ok (py "ResourceOptimizer") (py "optimizer") deployment_id log0)
      as [st ->]; eauto.
Qed.

(** Registering the defaults leaves every attribute but the registry,
    which gains the entries of the class. *)
Lemma register_defaults_client c st :
  client (self (exec (register_defaults c) st)) = client (self st).
Proof. by destruct c. Qed.

Lemma construct_base c deployment_id log0 st :
  construct llm_config env c deployment_id log0 = Ok st ->
  exists cls name st0,
    Base.__init__ llm_config env cls name deployment_id log0 = Ok st0 /\
    st = exec (register_defaults c) st0.
Proof.
  destruct c; unfold construct, Parser.__init__, Generator.__init__,
    Validator.__init__, Optimizer.__init__;
    destruct (Base.__init__ _ _ _ _ _ _) as [st0|e] eqn:Hinit; try discriminate;
    intros Hst; eexists _, _, st0; (split; [exact Hinit|]);
    by inversion Hst.
Qed.

Lemma construct_client c deployment_id log0 st :
  construct llm_config env c deployment_id log0 = Ok st ->
  (use_azure_openai llm_config = false -> client (self st) = Some None) /\
  (use_azure_openai llm_config = true ->
   azure_openai_endpoint llm_config = [] \/ azure_openai_key llm_config = [] ->
   client (self st) = None).
Proof.
  intros (cls & name & st0 & Hinit & ->)%construct_base.
  rewrite register_defaults_client.
  apply base_init_client in Hinit as (_ & _ & _ & H1 & H2). by split.
Qed.

(** *** Invariants of the reachable states *)

Lemma reachable_client c st :
  reachable llm_config env c st ->
  (use_azure_openai llm_config = false -> client (self st) = Some None) /\
  (use_azure_openai llm_config = true ->
   azure_openai_endpoint llm_config = [] \/ azure_openai_key llm_config = [] ->
   client (self st) = None).
Proof.
  induction 1 as [d l0 st Hc | k v st _ IH | op st _ _ IH
                 | sp uc t j m k st _ IH | r st _ IH].
  - eapply construct_client; eauto.
  - exact IH.
  - by rewrite (log_only_self _ st (perform_log_only op)).
  - by rewrite (log_only_self _ st (call_llm_log_only llm_config env sp uc t j m k)).
  - exact IH.
Qed.

Lemma reachable_mock_only c st :
  use_azure_openai llm_config = false ->
  reachable llm_config env c st ->
  on_fallback_path llm_config (self st) = true.
Proof.
  intros Hu Hr. apply reachable_client in Hr as [H _].
  unfold on_fallback_path. by rewrite (H Hu).
Qed.

End Components.

(** ** The claims *)

Section Claims.
Variable llm_config : LLMEnhancementConfig.
Variable env : Env.

(** The built-in fallbacks of a component are registered at construction
    and stay registered. *)
Lemma construct_registers c deployment_id log0 st op :
  construct llm_config env c deployment_id log0 = Ok st ->
  op_class op = c ->
  is_Some (mock_responses (self st) !! fallback_key op).
Proof.
  intros (cls & name & st0 & Hinit & ->)%construct_base <-.
  apply base_init_client in Hinit as (_ & _ & Hreg & _).
  destruct st0 as [[cl nm dep reg cli] lg]. cbn [self mock_responses] in Hreg.
  subst reg. destruct op; vm_compute; eauto.
Qed.

Lemma reachable_registered c st op :
  reachable llm_config env c st ->
  op_class op = c ->
  is_Some (mock_responses (self st) !! fallback_key op).
Proof.
  intros Hr Hop.
  induction Hr as [d l0 st Hc | k v st _ IH | op' st _ _ IH
                  | sp uc t j m k st _ IH | r st _ IH].
  - eapply construct_registers; eauto.
  - simpl. destruct (decide (k = fallback_key op)) as [->|Hne].
    + rewrite lookup_insert_eq. eauto.
    + by rewrite lookup_insert_ne.
  - by rewrite (log_only_self _ st (perform_log_only llm_config env op')).
  - by rewrite (log_only_self _ st (call_llm_log_only llm_config env sp uc t j m k)).
  - exact IH.
Qed.

(** C4: with [use_azure_openai] false, an operation whose fallback key
    has a registered value returns exactly that value; a value registered
    at runtime under the key is the one returned from then on, in place
    of the built-in default; and every operation of the component's class
    has such a value at all times. *)
Theorem fallback_result_is_registered_value c st op v :
  use_azure_openai llm_config = false ->
  reachable llm_config env c st ->
  (mock_responses (self st) !! fallback_key op = Some v ->
   run (perform llm_config env op) st = Ok v) /\
  run (perform llm_config env op)
    (exec (register_mock_response (fallback_key op) v) st) = Ok v /\
  (op_class op = c ->
   exists v0, mock_responses (self st) !! fallback_key op = Some v0 /\
              run (perform llm_config env op) st = Ok v0).
Proof.
  intros Hu Hr.
  assert (Hgen : forall st' w,
    reachable llm_config env c st' ->
    mock_responses (self st') !! fallback_key op = Some w ->
    run (perform llm_config env op) st' = Ok w).
  { intros st' w Hr' Hw.
    destruct (perform_call_llm llm_config env op) as (sp & uc & t & j & m & ->).
    unfold run.
    rewrite call_llm_fallback by (eapply reachable_mock_only; eauto).
    by rewrite (get_mock_response_registered env _ w) by (auto using fallback_key_truthy). }
  split; [|split].
  - by apply Hgen.
  - apply Hgen; [by apply reach_register|]. simpl. by rewrite lookup_insert_eq.
  - intros Hop. destruct (reachable_registered c st op Hr Hop) as [v0 Hv0].
    exists v0. split; [done|]. by apply Hgen.
Qed.

(** C5: with [use_azure_openai] false and nothing registered under the
    call's key, [call_llm] returns the placeholder: its preview is the
    first 50 characters of the serialised payload followed by ["..."]
    when the payload is longer than 50 characters and the payload itself
    otherwise, it echoes the length of the system prompt, and it is the
    mapping itself when [json_response] is true and its JSON text
    otherwise. *)
Theorem placeholder_preview_truncates_at_50 c st system_prompt user_content
    temperature json_response max_tokens key :
  use_azure_openai llm_config = false ->
  reachable llm_config env c st ->
  unregistered (self st) key ->
  exists preview,
    is_preview_of (payload_text env user_content) preview /\
    item (py "user_content_preview") (placeholder (self st) system_prompt preview)
    = Some (VStr preview) /\
    item (py "system_prompt_length") (placeholder (self st) system_prompt preview)
    = Some (VInt (len system_prompt)) /\
    run (call_llm llm_config env system_prompt user_content temperature
           json_response max_tokens key) st
    = Ok (if json_response then placeholder (self st) system_prompt preview
          else VStr (json_dumps (float_repr env)
                       (placeholder (self st) system_prompt preview))).
Proof.
  intros Hu Hr Hk.
  set (text := payload_text env user_content).
  exists (if 50 <? len text then slice_to 50 text ++ py "..." else text).
  split; [|split; [|split]].
  - unfold is_preview_of. destruct (50 <? len text) eqn:Hlen.
    + apply Z.ltb_lt in Hlen. split; [|lia]. intros _. split; [done|].
      unfold len, slice_to in *. rewrite length_app, length_take.
      change (length (py "...")) with 3%nat. lia.
    + apply Z.ltb_ge in Hlen. split; [lia|done].
  - reflexivity.
  - reflexivity.
  - unfold run. rewrite call_llm_fallback by (eapply reachable_mock_only; eauto).
    rewrite get_mock_response_generic by done. simpl.
    by destruct json_response.
Qed.

(** C6: [call_llm] on a dictionary is [call_llm] on its serialisation,
    on every path; so on the fallback path, with nothing registered
    under the key, the placeholder's preview is cut from the serialised
    string. *)
Theorem dict_payload_is_serialised_before_branching d system_prompt temperature
    json_response max_tokens key st :
  on_fallback_path llm_config (self st) = true ->
  unregistered (self st) key ->
  call_llm llm_config env system_prompt (UDict d) temperature json_response
    max_tokens key
  = call_llm llm_config env system_prompt
      (UStr (json_dumps (float_repr env) (VDict d))) temperature json_response
      max_tokens key /\
  let text := json_dumps (float_repr env) (VDict d) in
  let preview := if 50 <? len text then slice_to 50 text ++ py "..." else text in
  run (call_llm llm_config env system_prompt (UDict d) temperature json_response
         max_tokens key) st
  = Ok (if json_response then placeholder (self st) system_prompt preview
        else VStr (json_dumps (float_repr env)
                     (placeholder (self st) system_prompt preview))).
Proof.
  intros Hf Hk. split; [reflexivity|]. simpl.
  unfold run. rewrite call_llm_fallback by done.
  rewrite get_mock_response_generic by done. simpl.
  by destruct json_response.
Qed.

(** C9: [register_mock_response key response] changes the registry at
    [key] and nowhere else; [call_llm] leaves the registry as it found
    it on every path; and so does any sequence of operation calls. *)
Theorem registry_changes_only_by_registration :
  (forall key response st k',
     mock_responses (self (exec (register_mock_response key response) st)) !! k'
     = if decide (k' = key) then Some response
       else mock_responses (self st) !! k') /\
  (forall system_prompt user_content temperature json_response max_tokens key st,
     mock_responses
       (self (exec (call_llm llm_config env system_prompt user_content temperature
                      json_response max_tokens key) st))
     = mock_responses (self st)) /\
  (forall ops st,
     mock_responses (self (perform_all llm_config env ops st))
     = mock_responses (self st)).
Proof.
  split; [|split].
  - intros key response st k'. simpl. destruct (decide (k' = key)) as [->|Hne].
    + by rewrite lookup_insert_eq.
    + by rewrite lookup_insert_ne.
  - intros sp uc t j m k st.
    by rewrite (log_only_self _ st (call_llm_log_only llm_config env sp uc t j m k)).
  - intros ops. unfold perform_all.
    induction ops as [|op ops IH]; intros st; simpl; [done|].
    rewrite IH. by rewrite (log_only_self _ st (perform_log_only llm_config env op)).
Qed.

(** On the fallback path an operation is answered with the value
    registered under its key. *)
Lemma perform_fallback_registered st op v :
  on_fallback_path llm_config (self st) = true ->
  mock_responses (self st) !! fallback_key op = Some v ->
  run (perform llm_config env op) st = Ok v.
Proof.
  intros Hf Hv.
  destruct (perform_call_llm llm_config env op) as (sp & uc & t & j & m & ->).
  apply call_llm_fallback_registered; auto using fallback_key_truthy.
Qed.

Lemma parser_registry deployment_id log0 st :
  Parser.__init__ llm_config env deployment_id log0 = Ok st ->
  mock_responses (self st) !! py "parse_requirements"
  = Some Parser.mock_parse_requirements.
Proof.
  unfold Parser.__init__.
  destruct (Base.__init__ _ _ _ _ _ _) as [st0|e] eqn:Hinit; [|discriminate].
  intros Hst. inversion Hst as [Hst']. clear Hst Hst'.
  apply base_init_client in Hinit as (_ & _ & Hreg & _).
  destruct st0 as [[cl nm dep reg cli] lg]. cbn [self mock_responses] in Hreg.
  subst reg. vm_compute. reflexivity.
Qed.

Lemma generator_registry deployment_id log0 st :
  Generator.__init__ llm_config env deployment_id log0 = Ok st ->
  mock_responses (self st) !! py "customize_template"
  = Some Generator.mock_customize_template.
Proof.
  unfold Generator.__init__.
  destruct (Base.__init__ _ _ _ _ _ _) as [st0|e] eqn:Hinit; [|discriminate].
  intros Hst. inversion Hst as [Hst']. clear Hst Hst'.
  apply base_init_client in Hinit as (_ & _ & Hreg & _).
  destruct st0 as [[cl nm dep reg cli] lg]. cbn [self mock_responses] in Hreg.
  subst reg. vm_compute. reflexivity.
Qed.

Lemma validator_registry deployment_id log0 st :
  Validator.__init__ llm_config env deployment_id log0 = Ok st ->
  mock_responses (self st) !! py "suggest_fixes"
  = Some Validator.mock_suggest_fixes.
Proof.
  unfold Validator.__init__.
  destruct (Base.__init__ _ _ _ _ _ _) as [st0|e] eqn:Hinit; [|discriminate].
  intros Hst. inversion Hst as [Hst']. clear Hst Hst'.
  apply base_init_client in Hinit as (_ & _ & Hreg & _).
  destruct st0 as [[cl nm dep reg cli] lg]. cbn [self mock_responses] in Hreg.
  subst reg. vm_compute. reflexivity.
Qed.

(** C8: with [use_azure_openai] false, a parser answers
    ["I need a VPC with two subnets"] with the built-in sample, whose
    provider is ["aws"] and whose VPC resource has exactly two subnets. *)
Theorem parse_requirements_returns_builtin_sample deployment_id log0 :
  use_azure_openai llm_config = false ->
  exists st,
    Parser.__init__ llm_config env deployment_id log0 = Ok st /\
    run (Parser.parse_infrastructure_requirements llm_config env
           (py "I need a VPC with two subnets")) st
    = Ok Parser.mock_parse_requirements /\
    item (py "provider") Parser.mock_parse_requirements = Some (VStr (py "aws")) /\
    exists resources vpc subnets,
      item (py "resources") Parser.mock_parse_requirements = Some (VList resources) /\
      List.filter is_vpc resources = [vpc] /\
      item (py "subnets") vpc = Some (VList subnets) /\
      length subnets = 2%nat.
Proof.
  intros Hu.
  destruct (construct_ok llm_config env NaturalLanguageParser deployment_id log0)
    as [st Hst].
  exists st. split; [exact Hst|]. split; [|split].
  - apply (perform_fallback_registered st
             (Parse_infrastructure_requirements (py "I need a VPC with two subnets")));
      [|by apply (parser_registry deployment_id log0)].
    eapply reachable_mock_only; [done|]. by eapply reach_construct.
  - reflexivity.
  - do 3 eexists. repeat split; reflexivity.
Qed.

(** C3, amended: on the fallback path with the registry as constructed,
    [customize_template] and [suggest_fixes] return the recorded mapping
    whatever the input; its filenames are [main.tf], [variables.tf] and
    [outputs.tf], so a filename of the input is a filename of the result
    exactly when it is one of these three. *)
Theorem fallback_mapping_has_builtin_filenames deployment_id log0
    template_files other generator validator :
  Generator.__init__ llm_config env deployment_id log0 = Ok generator ->
  on_fallback_path llm_config (self generator) = true ->
  Validator.__init__ llm_config env deployment_id log0 = Ok validator ->
  on_fallback_path llm_config (self validator) = true ->
  (exists out,
     run (Generator.customize_template llm_config env template_files other) generator
     = Ok out /\
     out = Generator.mock_customize_template /\
     keys_of out = builtin_filenames /\
     forall k, k ∈ dict_keys template_files ->
               (k ∈ keys_of out <-> k ∈ builtin_filenames)) /\
  (exists out,
     run (Validator.suggest_fixes llm_config env template_files other) validator
     = Ok out /\
     out = Validator.mock_suggest_fixes /\
     keys_of out = builtin_filenames /\
     forall k, k ∈ dict_keys template_files ->
               (k ∈ keys_of out <-> k ∈ builtin_filenames)).
Proof.
  intros Hg Hgf Hv Hvf. split.
  - exists Generator.mock_customize_template. split; [|split; [done|split; [done|]]].
    + apply (perform_fallback_registered generator
               (Customize_template template_files other)); [done|].
      by apply (generator_registry deployment_id log0).
    + intros k _. done.
  - exists Validator.mock_suggest_fixes. split; [|split; [done|split; [done|]]].
    + apply (perform_fallback_registered validator
               (Suggest_fixes template_files other)); [done|].
      by apply (validator_registry deployment_id log0).
    + intros k _. done.
Qed.

(** C7, amended: [optimize_cost], [optimize_performance] and
    [right_size_resources] serialise a payload object that holds
    [template_files] and, exactly when the optional parameter is truthy
    (a non-zero number, a non-empty mapping), the parameter under its own
    name; when the parameter is omitted or falsy the object holds
    [template_files] alone. *)
Theorem optional_parameter_merged_when_truthy template_files :
  (forall budget_constraint,
     Optimizer.optimize_cost llm_config env template_files budget_constraint
     = call_llm llm_config env Optimizer.optimize_cost_system_prompt
         (UStr (json_dumps (float_repr env)
            (VDict ((py "template_files", VDict template_files) ::
                    match budget_constraint with
                    | Some b => if float_truthy b
                                then [(py "budget_constraint", VFloat b)] else []
                    | None => []
                    end))))
         (Some (0x1.999999999999ap-3)%float) true (Some 4000)
         (Some (py "optimize_cost"))) /\
  (forall performance_targets,
     Optimizer.optimize_performance llm_config env template_files performance_targets
     = call_llm llm_config env Optimizer.optimize_performance_system_prompt
         (UStr (json_dumps (float_repr env)
            (VDict ((py "template_files", VDict template_files) ::
                    match performance_targets with
                    | Some (e :: t) => [(py "performance_targets", VDict (e :: t))]
                    | _ => []
                    end))))
         (Some (0x1.999999999999ap-3)%float) true (Some 4000)
         (Some (py "optimize_performance"))) /\
  (forall utilization_data,
     Optimizer.right_size_resources llm_config env template_files utilization_data
     = call_llm llm_config env Optimizer.right_size_resources_system_prompt
         (UStr (json_dumps (float_repr env)
            (VDict ((py "template_files", VDict template_files) ::
                    match utilization_data with
                    | Some (e :: u) => [(py "utilization_data", VDict (e :: u))]
                    | _ => []
                    end))))
         (Some (0x1.999999999999ap-3)%float) true (Some 4000)
         (Some (py "right_size_resources"))).
Proof.
  split; [|split].
  - intros [b|]; [|reflexivity].
    unfold Optimizer.optimize_cost. simpl. by destruct (float_truthy b).
  - by intros [[|e t]|].
  - by intros [[|e u]|].
Qed.

(** C10, amended: on the fallback path, two calls with the same
    [system_prompt], [user_content], [json_response] and
    [mock_response_key], made on components with the same
    [component_name] and the same registry, return the same result. *)
Theorem fallback_call_is_deterministic st1 st2 system_prompt user_content
    temperature1 temperature2 json_response max_tokens1 max_tokens2 key :
  on_fallback_path llm_config (self st1) = true ->
  on_fallback_path llm_config (self st2) = true ->
  component_name (self st1) = component_name (self st2) ->
  mock_responses (self st1) = mock_responses (self st2) ->
  run (call_llm llm_config env system_prompt user_content temperature1
         json_response max_tokens1 key) st1
  = run (call_llm llm_config env system_prompt user_content temperature2
           json_response max_tokens2 key) st2.
Proof.
  intros H1 H2 Hname Hreg. unfold run. rewrite !call_llm_fallback by done.
  unfold _get_mock_response. unfold_monad. simpl. rewrite Hname, Hreg.
  destruct key as [k|];
    [destruct (str_truthy k); [destruct (mock_responses (self st2) !! k)|]|];
    try destruct json_response; reflexivity.
Qed.

(** Missing credentials with the backend switched on: [__init__] never
    assigns [client], and every later call stops at reading it. *)
Lemma unconfigured_call_raises c st op :
  use_azure_openai llm_config = true ->
  azure_openai_endpoint llm_config = [] \/ azure_openai_key llm_config = [] ->
  reachable llm_config env c st ->
  run (perform llm_config env op) st
  = Raise (mk_exn AttributeError
             (py "'" ++ py_class (self st) ++ py "' object has no attribute 'client'")).
Proof.
  intros Hu Hcred Hr. apply reachable_client in Hr as [_ Hr].
  destruct (perform_call_llm llm_config env op) as (sp & uc & t & j & m & ->).
  unfold run. by rewrite call_llm_no_client_attribute by auto.
Qed.

End Claims.

(** ** The claims at concrete inputs *)

(** C1: a parser with a working backend whose reply is not JSON.  The
    decode failure is logged and an [Exception] is raised for it, but the
    raise sits inside the [try] whose handler catches every [Exception]:
    the call returns the registered fallback. *)
Theorem invalid_json_reply_returns_fallback :
  let env := env_replying non_json_reply in
  let call :=
    Parser.parse_infrastructure_requirements config_azure env
      (py "I need a VPC with two subnets") in
  construct config_azure env NaturalLanguageParser None [] = Ok parser_azure /\
  on_fallback_path config_azure (self parser_azure) = false /\
  json_loads env non_json_reply
  = Raise (mk_exn JSONDecodeError (py "Expecting value: line 1 column 1 (char 0)")) /\
  run call parser_azure = Ok Parser.mock_parse_requirements /\
  log (exec call parser_azure)
  = log parser_azure ++ [
      mk_log ERROR (py "Failed to parse JSON response: Expecting value: line 1 column 1 (char 0)");
      mk_log DEBUG (py "Raw response: Sure, here is the plan you asked for");
      mk_log ERROR (py "Error calling Azure OpenAI: Invalid JSON response from LLM: Expecting value: line 1 column 1 (char 0)");
      mk_log INFO (py "Using mock response for key: parse_requirements")].
Proof. repeat split; vm_compute; reflexivity. Qed.

(** C2: the defaults of [config.py] with no endpoint and no key in the
    environment.  The parser is constructed, its fallback is registered,
    and the call raises [AttributeError]: [__init__] logged the warning
    and left [client] unassigned. *)
Theorem missing_credentials_call_raises :
  use_azure_openai config_default = true /\
  azure_openai_endpoint config_default = [] /\
  construct config_default env_offline NaturalLanguageParser None [] = Ok parser_default /\
  log parser_default !! 0%nat
  = Some (mk_log WARNING
            (py "Azure OpenAI credentials not provided. parser will use mock responses.")) /\
  mock_responses (self parser_default) !! py "parse_requirements"
  = Some Parser.mock_parse_requirements /\
  run (Parser.parse_infrastructure_requirements config_default env_offline
         (py "I need a VPC with two subnets")) parser_default
  = Raise (mk_exn AttributeError
             (py "'NaturalLanguageParser' object has no attribute 'client'")).
Proof. repeat split; vm_compute; reflexivity. Qed.

(** C3 as stated fails: on the fallback path [customize_template] and
    [suggest_fixes] drop a file the recorded mapping does not have. *)
Lemma fallback_mapping_drops_unlisted_file :
  let template_files := [(py "network.tf", VStr (py "# network"))] in
  on_fallback_path config_mock_only (self generator_mock_only) = true /\
  on_fallback_path config_mock_only (self validator_mock_only) = true /\
  py "network.tf" ∈ dict_keys template_files /\
  (exists out,
     run (Generator.customize_template config_mock_only env_offline template_files [])
       generator_mock_only = Ok out /\
     py "network.tf" ∉ keys_of out) /\
  (exists out,
     run (Validator.suggest_fixes config_mock_only env_offline template_files [])
       validator_mock_only = Ok out /\
     py "network.tf" ∉ keys_of out).
Proof.
  simpl. split; [reflexivity|]. split; [reflexivity|]. split; [by left|].
  split.
  - exists Generator.mock_customize_template. split; [vm_compute; reflexivity|].
    intros H%list_elem_of_In. vm_compute in H. intuition discriminate.
  - exists Validator.mock_suggest_fixes. split; [vm_compute; reflexivity|].
    intros H%list_elem_of_In. vm_compute in H. intuition discriminate.
Qed.

Lemma fallback_mapping_has_builtin_filenames_witness :
  let template_files :=
    [(py "main.tf", VStr (py "# main")); (py "network.tf", VStr (py "# network"))] in
  Generator.__init__ config_mock_only env_offline None [] = Ok generator_mock_only /\
  on_fallback_path config_mock_only (self generator_mock_only) = true /\
  Validator.__init__ config_mock_only env_offline None [] = Ok validator_mock_only /\
  on_fallback_path config_mock_only (self validator_mock_only) = true /\
  ((exists out,
      run (Generator.customize_template config_mock_only env_offline template_files [])
        generator_mock_only = Ok out /\
      out = Generator.mock_customize_template /\
      keys_of out = builtin_filenames /\
      forall k, k ∈ dict_keys template_files ->
                (k ∈ keys_of out <-> k ∈ builtin_filenames)) /\
   (exists out,
      run (Validator.suggest_fixes config_mock_only env_offline template_files [])
        validator_mock_only = Ok out /\
      out = Validator.mock_suggest_fixes /\
      keys_of out = builtin_filenames /\
      forall k, k ∈ dict_keys template_files ->
                (k ∈ keys_of out <-> k ∈ builtin_filenames))).
Proof.
  split; [reflexivity|]. split; [reflexivity|]. split; [reflexivity|].
  split; [reflexivity|].
  apply (fallback_mapping_has_builtin_filenames config_mock_only env_offline None []);
    reflexivity.
Defined.

Lemma fallback_result_is_registered_value_witness :
  let op := Validate_terraform [(py "main.tf", VStr (py "# main"))] in
  use_azure_openai config_mock_only = false /\
  reachable config_mock_only env_offline IntelligentValidator validator_mock_only /\
  ((mock_responses (self validator_mock_only) !! fallback_key op = Some empty_validation ->
    run (perform config_mock_only env_offline op) validator_mock_only
    = Ok empty_validation) /\
   run (perform config_mock_only env_offline op)
     (exec (register_mock_response (fallback_key op) empty_validation)
        validator_mock_only) = Ok empty_validation /\
   (op_class op = IntelligentValidator ->
    exists v0,
      mock_responses (self validator_mock_only) !! fallback_key op = Some v0 /\
      run (perform config_mock_only env_offline op) validator_mock_only = Ok v0)).
Proof.
  assert (Hr : reachable config_mock_only env_offline IntelligentValidator
                 validator_mock_only).
  { apply (reach_construct _ _ _ None []). reflexivity. }
  split; [reflexivity|]. split; [exact Hr|].
  apply (fallback_result_is_registered_value config_mock_only env_offline
           IntelligentValidator validator_mock_only); [reflexivity|exact Hr].
Defined.

Lemma placeholder_preview_truncates_at_50_witness :
  let system_prompt := py "You are a Terraform expert." in
  let user_content :=
    UStr (py "Create three availability zones with one public subnet in each of them") in
  let key := Some (py "no_such_key") in
  use_azure_openai config_mock_only = false /\
  reachable config_mock_only env_offline NaturalLanguageParser parser_mock_only /\
  unregistered (self parser_mock_only) key /\
  exists preview,
    is_preview_of (payload_text env_offline user_content) preview /\
    item (py "user_content_preview")
      (placeholder (self parser_mock_only) system_prompt preview)
    = Some (VStr preview) /\
    item (py "system_prompt_length")
      (placeholder (self parser_mock_only) system_prompt preview)
    = Some (VInt (len system_prompt)) /\
    run (call_llm config_mock_only env_offline system_prompt user_content None
           false None key) parser_mock_only
    = Ok (VStr (json_dumps (float_repr env_offline)
                  (placeholder (self parser_mock_only) system_prompt preview))).
Proof.
  assert (Hr : reachable config_mock_only env_offline NaturalLanguageParser
                 parser_mock_only).
  { apply (reach_construct _ _ _ None []). reflexivity. }
  split; [reflexivity|]. split; [exact Hr|]. split; [reflexivity|].
  apply (placeholder_preview_truncates_at_50 config_mock_only env_offline
           NaturalLanguageParser parser_mock_only
           (py "You are a Terraform expert.")
           (UStr (py "Create three availability zones with one public subnet in each of them"))
           None false None (Some (py "no_such_key")));
    [reflexivity|exact Hr|reflexivity].
Defined.

Lemma dict_payload_is_serialised_before_branching_witness :
  let d := [(py "template_files", VDict [(py "main.tf", VStr (py "# main"))]);
            (py "customizations", VDict [(py "instance_count", VInt 3)])] in
  let text := json_dumps (float_repr env_offline) (VDict d) in
  on_fallback_path config_mock_only (self parser_mock_only) = true /\
  unregistered (self parser_mock_only) None /\
  call_llm config_mock_only env_offline (py "You are a Terraform expert.") (UDict d)
    None true None None
  = call_llm config_mock_only env_offline (py "You are a Terraform expert.") (UStr text)
      None true None None /\
  run (call_llm config_mock_only env_offline (py "You are a Terraform expert.") (UDict d)
         None true None None) parser_mock_only
  = Ok (placeholder (self parser_mock_only) (py "You are a Terraform expert.")
          (if 50 <? len text then slice_to 50 text ++ py "..." else text)).
Proof.
  split; [reflexivity|]. split; [exact I|].
  apply (dict_payload_is_serialised_before_branching config_mock_only env_offline
           [(py "template_files", VDict [(py "main.tf", VStr (py "# main"))]);
            (py "customizations", VDict [(py "instance_count", VInt 3)])]
           (py "You are a Terraform expert.") None true None None parser_mock_only);
    [reflexivity|exact I].
Defined.

(** C7 as stated fails: a parameter that is supplied but falsy, an empty
    mapping of targets or a budget of [0.0], is left out of the payload. *)
Lemma falsy_optional_parameter_is_not_merged :
  let template_files := [(py "main.tf", VStr (py "# main"))] in
  let only_template_files :=
    json_dumps (float_repr env_offline)
      (VDict [(py "template_files", VDict template_files)]) in
  only_template_files
  = pyq ["{"; "template_files"; ": {"; "main.tf"; ": "; "# main"; "}}"]%string /\
  (Some [] : option (list (pystr * value))) <> None /\
  Optimizer.optimize_performance config_mock_only env_offline template_files (Some [])
  = call_llm config_mock_only env_offline Optimizer.optimize_performance_system_prompt
      (UStr only_template_files)
      (Some (0x1.999999999999ap-3)%float) true (Some 4000)
      (Some (py "optimize_performance")) /\
  only_template_files
  <> json_dumps (float_repr env_offline)
       (VDict [(py "template_files", VDict template_files);
               (py "performance_targets", VDict [])]) /\
  Some 0%float <> None /\
  Optimizer.optimize_cost config_mock_only env_offline template_files (Some 0%float)
  = call_llm config_mock_only env_offline Optimizer.optimize_cost_system_prompt
      (UStr only_template_files)
      (Some (0x1.999999999999ap-3)%float) true (Some 4000)
      (Some (py "optimize_cost")) /\
  only_template_files
  <> json_dumps (float_repr env_offline)
       (VDict [(py "template_files", VDict template_files);
               (py "budget_constraint", VFloat 0%float)]).
Proof.
  simpl. split; [vm_compute; reflexivity|]. split; [discriminate|].
  split; [reflexivity|]. split; [vm_compute; discriminate|].
  split; [discriminate|]. split; [reflexivity|]. vm_compute; discriminate.
Qed.

Lemma parse_requirements_returns_builtin_sample_witness :
  use_azure_openai config_mock_only = false /\
  exists st,
    Parser.__init__ config_mock_only env_offline None [] = Ok st /\
    run (Parser.parse_infrastructure_requirements config_mock_only env_offline
           (py "I need a VPC with two subnets")) st
    = Ok Parser.mock_parse_requirements /\
    item (py "provider") Parser.mock_parse_requirements = Some (VStr (py "aws")) /\
    exists resources vpc subnets,
      item (py "resources") Parser.mock_parse_requirements = Some (VList resources) /\
      List.filter is_vpc resources = [vpc] /\
      item (py "subnets") vpc = Some (VList subnets) /\
      length subnets = 2%nat.
Proof.
  split; [reflexivity|].
  apply (parse_requirements_returns_builtin_sample config_mock_only env_offline None []).
  reflexivity.
Defined.

(** C10 as stated fails: a parser and a generator with the same registry
    answer the same call differently, since the placeholder names the
    component. *)
Lemma same_registry_different_component_name :
  let call :=
    call_llm config_mock_only env_offline (py "You are a Terraform expert.")
      (UStr (py "Describe the network")) None true None None in
  reachable config_mock_only env_offline NaturalLanguageParser
    parser_with_generator_entries /\
  reachable config_mock_only env_offline TemplateGenerator
    generator_with_parser_entries /\
  on_fallback_path config_mock_only (self parser_with_generator_entries) = true /\
  on_fallback_path config_mock_only (self generator_with_parser_entries) = true /\
  mock_responses (self parser_with_generator_entries)
  = mock_responses (self generator_with_parser_entries) /\
  run call parser_with_generator_entries <> run call generator_with_parser_entries.
Proof.
  simpl. split; [|split; [|split; [|split; [|split]]]].
  - unfold parser_with_generator_entries. do 4 apply reach_register.
    apply (reach_construct _ _ _ None []). reflexivity.
  - unfold generator_with_parser_entries. do 2 apply reach_register.
    apply (reach_construct _ _ _ None []). reflexivity.
  - reflexivity.
  - reflexivity.
  - vm_compute. reflexivity.
  - vm_compute. discriminate.
Qed.

Lemma fallback_call_is_deterministic_witness :
  let st1 := parser_mock_only in
  let st2 := exec (Parser.parse_infrastructure_requirements config_mock_only env_offline
                     (py "I need a VPC with two subnets")) parser_mock_only in
  on_fallback_path config_mock_only (self st1) = true /\
  on_fallback_path config_mock_only (self st2) = true /\
  component_name (self st1) = component_name (self st2) /\
  mock_responses (self st1) = mock_responses (self st2) /\
  run (call_llm config_mock_only env_offline (py "You are a Terraform expert.")
         (UStr (py "Describe the network")) None true None
         (Some (py "extract_context"))) st1
  = run (call_llm config_mock_only env_offline (py "You are a Terraform expert.")
           (UStr (py "Describe the network")) (Some 1%float) true (Some 100)
           (Some (py "extract_context"))) st2.
Proof.
  split; [reflexivity|]. split; [reflexivity|]. split; [reflexivity|].
  split; [reflexivity|].
  apply (fallback_call_is_deterministic config_mock_only env_offline);
    reflexivity.
Defined.


(** * Further properties of the invocation layer and of its callers *)

Import Routes Api Facts.

(** *** Computations that read the object and append to the log *)

Lemma appends_ret {A} (a : A) : appends (ret a).
Proof. intros s. exists (Ok a), []. intros l. unfold ret. by rewrite app_nil_r. Qed.

Lemma appends_raise {A} (e : exn) : appends (@raise A e).
Proof. intros s. exists (Raise e), []. intros l. unfold raise. by rewrite app_nil_r. Qed.

Lemma appends_lift {A} (r : result A) : appends (lift r).
Proof. intros s. exists r, []. intros l. unfold lift. by rewrite app_nil_r. Qed.

Lemma appends_get_self : appends get_self.
Proof. intros s. exists (Ok s), []. intros l. unfold get_self. simpl. by rewrite app_nil_r. Qed.

Lemma appends_logger lvl msg : appends (logger lvl msg).
Proof. intros s. by exists (Ok tt), [mk_log lvl msg]. Qed.

Lemma appends_bind {A B} (m : M A) (k : A -> M B) :
  appends m -> (forall a, appends (k a)) -> appends (bind m k).
Proof.
  intros Hm Hk s. destruct (Hm s) as (r & la & Hr). destruct r as [a|e].
  - destruct (Hk a s) as (r' & lb & Hr'). exists r', (la ++ lb). intros l.
    unfold bind. by rewrite Hr, Hr', app_assoc.
  - exists (Raise e), la. intros l. unfold bind. by rewrite Hr.
Qed.

Lemma appends_try_except {A} (body : M A) (handler : exn -> M A) :
  appends body -> (forall e, appends (handler e)) -> appends (try_except body handler).
Proof.
  intros Hm Hk s. destruct (Hm s) as (r & la & Hr). destruct r as [a|e].
  - exists (Ok a), la. intros l. unfold try_except. by rewrite Hr.
  - destruct (Hk e s) as (r' & lb & Hr'). exists r', (la ++ lb). intros l.
    unfold try_except. by rewrite Hr, Hr', app_assoc.
Qed.

Create HintDb appends.
#[local] Hint Resolve appends_ret appends_raise appends_lift appends_get_self
  appends_logger appends_bind appends_try_except : appends.

Lemma get_mock_response_appends env key system_prompt user_content json_response :
  appends (_get_mock_response env key system_prompt user_content json_response).
Proof.
  unfold _get_mock_response.
  apply appends_bind; [apply appends_get_self|]. intros s.
  destruct key as [k|];
    [destruct (str_truthy k); [destruct (mock_responses s !! k)|]|];
    try destruct json_response; auto with appends.
Qed.

#[local] Hint Resolve get_mock_response_appends : appends.

Lemma call_llm_appends llm_config env system_prompt user_content temperature
    json_response max_tokens key :
  appends (call_llm llm_config env system_prompt user_content temperature
             json_response max_tokens key).
Proof.
  unfold call_llm, self_client.
  apply appends_bind.
  { apply appends_bind; [apply appends_get_self|].
    intros s. destruct (client s); auto with appends. }
  intros [c|]; [|auto with appends].
  destruct (use_azure_openai llm_config); [|auto with appends].
  apply appends_try_except; [|intros e; auto 10 with appends].
  apply appends_bind; [apply appends_get_self|]. intros s'.
  apply appends_bind; [apply appends_lift|]. intros response.
  apply appends_bind.
  { destruct (choices response); auto with appends. }
  intros content. destruct json_response; [|auto with appends].
  destruct content as [text|]; [|auto with appends].
  destruct (json_loads env text) as [v|e]; [auto with appends|].
  destruct (exn_class e); auto 10 with appends.
Qed.

#[local] Hint Resolve call_llm_appends : appends.

Lemma perform_appends llm_config env op : appends (perform llm_config env op).
Proof.
  destruct (perform_call_llm llm_config env op) as (sp & uc & t & j & m & ->).
  apply call_llm_appends.
Qed.

#[local] Hint Resolve perform_appends : appends.

Lemma try_handler_appends body handle :
  appends body -> (forall e, handler_appends (handle e)) ->
  handler_appends (try_handler body handle).
Proof.
  intros Hm Hk s. destruct (Hm s) as (r & la & Hr). destruct r as [a|e].
  - exists (Returned a), la. intros l. unfold try_handler. by rewrite Hr.
  - destruct (Hk e s) as (r' & lb & Hr'). exists r', (la ++ lb). intros l.
    unfold try_handler. by rewrite Hr, Hr', app_assoc.
Qed.

Lemma log_and_raise_appends message status_code detail :
  handler_appends (log_and_raise message status_code detail).
Proof. intros s. by exists (HTTPException status_code detail), [mk_log ERROR message]. Qed.

Lemma serve_appends llm_config env r : handler_appends (serve llm_config env r).
Proof.
  destruct r; cbn [serve];
    unfold ParserRoutes.parse_requirements, ParserRoutes.extract_context,
      GeneratorRoutes.generate_terraform, GeneratorRoutes.analyze_template,
      GeneratorRoutes.generate_documentation, GeneratorRoutes.customize_template,
      ValidatorRoutes.validate_terraform, ValidatorRoutes.suggest_fixes,
      ValidatorRoutes.check_best_practices, ValidatorRoutes.check_security,
      OptimizerRoutes.optimize_cost, OptimizerRoutes.optimize_performance,
      OptimizerRoutes.suggest_architecture, OptimizerRoutes.right_size_resources;
    (apply try_handler_appends; [|intros e; apply log_and_raise_appends]);
    (apply appends_bind; [apply appends_logger|]; intros _).
  5: { (* the documentation handler makes up to two calls *)
    apply appends_bind.
    { destruct (negb _); [|apply appends_ret].
      apply appends_bind; [apply appends_logger|]. intros _.
      apply call_llm_appends. }
    intros a. apply appends_bind; [|intros v; apply appends_ret].
    apply call_llm_appends. }
  all: apply appends_bind; [|intros v; apply appends_ret]; apply call_llm_appends.
Qed.

Section Backend.
Variable llm_config : LLMEnhancementConfig.
Variable env : Env.

(** X1: with a client and the backend switched on, a text call returns
    the content of the first choice of the completion unchanged ([None]
    when it has no content), and writes nothing to the log. *)
Theorem text_reply_is_returned_unchanged system_prompt user_content temperature
    max_tokens key st c response content rest :
  client (self st) = Some (Some c) ->
  use_azure_openai llm_config = true ->
  chat_completions_create env c
    (sent_request (self st) system_prompt (payload_text env user_content)
       temperature false max_tokens) = Ok response ->
  choices response = content :: rest ->
  call_llm llm_config env system_prompt user_content temperature false max_tokens key st
  = (Ok (match content with Some text => VStr text | None => VNone end), st).
Proof.
  intros Hc Hu Hreply Hch.
  unfold call_llm, self_client. unfold_monad. simpl. rewrite Hc, Hu.
  unfold sent_request, payload_text in Hreply. rewrite Hreply, Hch. reflexivity.
Qed.

(** X2: with a client and the backend switched on, a JSON call whose reply
    decodes returns the decoded value, and writes nothing to the log. *)
Theorem json_reply_is_decoded system_prompt user_content temperature
    max_tokens key st c response text rest v :
  client (self st) = Some (Some c) ->
  use_azure_openai llm_config = true ->
  chat_completions_create env c
    (sent_request (self st) system_prompt (payload_text env user_content)
       temperature true max_tokens) = Ok response ->
  choices response = Some text :: rest ->
  json_loads env text = Ok v ->
  call_llm llm_config env system_prompt user_content temperature true max_tokens key st
  = (Ok v, st).
Proof.
  intros Hc Hu Hreply Hch Hjson.
  unfold call_llm, self_client. unfold_monad. simpl. rewrite Hc, Hu.
  unfold sent_request, payload_text in Hreply. rewrite Hreply, Hch, Hjson.
  reflexivity.
Qed.

(** X3: when the backend call raises, or its completion has no choice, or
    a JSON call finds no content, [call_llm] logs one error line and
    answers exactly as the fallback lookup does on the same object. *)
Theorem transport_failure_is_answered_from_fallback system_prompt user_content
    temperature json_response max_tokens key st c e :
  client (self st) = Some (Some c) ->
  use_azure_openai llm_config = true ->
  transport_failure json_response
    (chat_completions_create env c
       (sent_request (self st) system_prompt (payload_text env user_content)
          temperature json_response max_tokens)) = Some e ->
  call_llm llm_config env system_prompt user_content temperature json_response
    max_tokens key st
  = _get_mock_response env key system_prompt (payload_text env user_content)
      json_response
      (mk_state (self st)
         (log st ++ [mk_log ERROR (py "Error calling Azure OpenAI: " ++ exn_str e)])) /\
  run (call_llm llm_config env system_prompt user_content temperature json_response
         max_tokens key) st
  = run (_get_mock_response env key system_prompt (payload_text env user_content)
           json_response) st.
Proof.
  intros Hc Hu Hfail.
  assert (Hcall :
    call_llm llm_config env system_prompt user_content temperature json_response
      max_tokens key st
    = _get_mock_response env key system_prompt (payload_text env user_content)
        json_response
        (mk_state (self st)
           (log st ++ [mk_log ERROR (py "Error calling Azure OpenAI: " ++ exn_str e)]))).
  { unfold call_llm, self_client. unfold_monad. simpl. rewrite Hc, Hu.
    unfold transport_failure, sent_request, payload_text in Hfail.
    destruct (chat_completions_create env c _) as [response|e0].
    - destruct (choices response) as [|[text|] rest].
      + by injection Hfail as <-.
      + discriminate.
      + destruct json_response; [|discriminate]. by injection Hfail as <-.
    - by injection Hfail as <-. }
  split; [exact Hcall|]. unfold run. rewrite Hcall.
  destruct (get_mock_response_appends env key system_prompt
              (payload_text env user_content) json_response (self st))
    as (r & added & Hr).
  destruct st as [s l]. simpl. by rewrite !Hr.
Qed.

(** X4: a temperature of zero and a token limit of zero are falsy: passing
    them is the same as passing none, so the request carries the
    configured defaults. *)
Theorem falsy_sampling_overrides_are_ignored system_prompt user_content temperature
    json_response max_tokens key :
  float_truthy temperature = false ->
  int_truthy max_tokens = false ->
  call_llm llm_config env system_prompt user_content (Some temperature) json_response
    (Some max_tokens) key
  = call_llm llm_config env system_prompt user_content None json_response None key.
Proof.
  intros Ht Hm. unfold call_llm. by rewrite Ht, Hm.
Qed.

End Backend.

(** X5: the backend is consulted through one request only: the model is
    the component's [deployment_id], the messages are the system prompt
    and the serialised payload, the response format is [json_object]
    exactly for a JSON call, and temperature and token limit are the
    truthy override or the default.  Two environments that decode and
    print alike and give the same answer to that request give the same
    outcome. *)
Theorem outcome_depends_on_the_sent_request llm_config env1 env2 system_prompt
    user_content temperature json_response max_tokens key st :
  float_repr env1 = float_repr env2 ->
  json_loads env1 = json_loads env2 ->
  (forall c, client (self st) = Some (Some c) ->
     chat_completions_create env1 c
       (sent_request (self st) system_prompt (payload_text env1 user_content)
          temperature json_response max_tokens)
     = chat_completions_create env2 c
         (sent_request (self st) system_prompt (payload_text env1 user_content)
            temperature json_response max_tokens)) ->
  call_llm llm_config env1 system_prompt user_content temperature json_response
    max_tokens key st
  = call_llm llm_config env2 system_prompt user_content temperature json_response
      max_tokens key st.
Proof.
  intros Hf Hj Hreq.
  unfold call_llm, self_client, _get_mock_response. unfold_monad. simpl.
  unfold sent_request, payload_text in Hreq. rewrite <- Hf, <- Hj.
  destruct (client (self st)) as [[c|]|]; [|reflexivity|reflexivity].
  destruct (use_azure_openai llm_config); [|reflexivity].
  by rewrite (Hreq c eq_refl).
Qed.

Section Construction.
Variable llm_config : LLMEnhancementConfig.
Variable env : Env.

(** *** [call_llm] returns whenever [client] was assigned *)

Lemma call_llm_returns system_prompt user_content temperature json_response
    max_tokens key st c :
  client (self st) = Some c ->
  exists v, run (call_llm llm_config env system_prompt user_content temperature
                   json_response max_tokens key) st = Ok v.
Proof.
  intros Hc. unfold run, call_llm, self_client. unfold_monad.
  cbn [fst snd self log]. rewrite Hc.
  destruct c as [c|]; [|apply get_mock_response_returns].
  destruct (use_azure_openai llm_config); [|apply get_mock_response_returns].
  destruct (chat_completions_create env c _) as [response|e];
    [|apply get_mock_response_returns].
  destruct (choices response) as [|content rest]; [apply get_mock_response_returns|].
  destruct json_response; [|eauto].
  destruct content as [text|]; [|apply get_mock_response_returns].
  destruct (json_loads env text) as [v|e]; [eauto|].
  destruct (exn_class e); apply get_mock_response_returns.
Qed.

(** *** What [LLMComponentBase.__init__] leaves *)

Lemma base_init_inv cls name deployment_id log0 st :
  Base.__init__ llm_config env cls name deployment_id log0 = Ok st ->
  py_class (self st) = cls /\ component_name (self st) = name /\
  mock_responses (self st) = ∅ /\
  client (self st) = initial_client llm_config env /\
  match deployment_id with
  | Some d => if str_truthy d then Ok d
              else getattr llm_config (lower name ++ py "_deployment_id")
  | None => getattr llm_config (lower name ++ py "_deployment_id")
  end = Ok (Base.deployment_id (self st)) /\
  exists r,
    log st = log0 ++ [r] /\
    (use_azure_openai llm_config = false ->
     r = mk_log INFO (name ++ py " configured to use mock responses")) /\
    (use_azure_openai llm_config = true ->
     azure_openai_endpoint llm_config = [] \/ azure_openai_key llm_config = [] ->
     r = mk_log WARNING
           (py "Azure OpenAI credentials not provided. " ++ name
            ++ py " will use mock responses.")).
Proof.
  unfold Base.__init__, initial_client.
  destruct (match deployment_id with Some d => _ | None => _ end) as [d|e];
    [|discriminate].
  destruct (use_azure_openai llm_config).
  - destruct (negb (str_truthy (azure_openai_endpoint llm_config))
              || negb (str_truthy (azure_openai_key llm_config))) eqn:Hcred.
    + intros [= <-]. cbn [self log py_class component_name mock_responses client
                            Base.deployment_id].
      do 5 (split; [done|]). eexists. split; [done|]. split; [done|]. done.
    + destruct (azure_openai_init env _); intros [= <-];
        cbn [self log py_class component_name mock_responses client
               Base.deployment_id];
        do 5 (split; [done|]); (eexists; split; [done|]; split; [done|]);
        intros _ [Hm|Hm]; rewrite Hm in Hcred; simpl in Hcred; try discriminate;
        rewrite orb_true_r in Hcred; discriminate.
  - intros [= <-]. cbn [self log py_class component_name mock_responses client
                          Base.deployment_id].
    do 5 (split; [done|]). eexists. split; [done|]. split; [done|]. done.
Qed.

Lemma register_defaults_frame c st :
  py_class (self (exec (register_defaults c) st)) = py_class (self st) /\
  component_name (self (exec (register_defaults c) st)) = component_name (self st) /\
  deployment_id (self (exec (register_defaults c) st)) = deployment_id (self st) /\
  log (exec (register_defaults c) st)
  = log st ++ map registration_record (builtin_keys c).
Proof.
  destruct c; (do 3 (split; [reflexivity|]));
    unfold register_defaults, Parser._register_default_mocks,
      Generator._register_default_mocks, Validator._register_default_mocks,
      Optimizer._register_default_mocks, register_mock_response;
    unfold_monad; cbn [fst snd self log map builtin_keys];
    by rewrite <- !app_assoc.
Qed.

Lemma construct_inv c deployment_id log0 st :
  construct llm_config env c deployment_id log0 = Ok st ->
  exists cls name st0,
    Base.__init__ llm_config env cls name deployment_id log0 = Ok st0 /\
    st = exec (register_defaults c) st0 /\
    getattr llm_config (lower name ++ py "_deployment_id")
    = Ok (configured_deployment_id llm_config c).
Proof.
  destruct c; unfold construct, Parser.__init__, Generator.__init__,
    Validator.__init__, Optimizer.__init__;
    destruct (Base.__init__ _ _ _ _ _ _) as [st0|e] eqn:Hinit; try discriminate;
    intros Hst; eexists _, _, st0; (split; [exact Hinit|]);
    (split; [by inversion Hst|reflexivity]).
Qed.

(** X6: the model identifier of a constructed component is the
    [deployment_id] argument when it is a non-empty string, and the
    identifier the configuration holds for its class otherwise (also for
    an empty string). *)
Theorem constructed_deployment_id c deployment_id log0 st :
  construct llm_config env c deployment_id log0 = Ok st ->
  Base.deployment_id (self st)
  = match deployment_id with
    | Some (ch :: d) => ch :: d
    | _ => configured_deployment_id llm_config c
    end.
Proof.
  intros (cls & name & st0 & Hinit & -> & Hattr)%construct_inv.
  destruct (register_defaults_frame c st0) as (_ & _ & -> & _).
  apply base_init_inv in Hinit as (_ & _ & _ & _ & Hdep & _).
  rewrite Hattr in Hdep. destruct deployment_id as [[|ch d]|]; by injection Hdep.
Qed.

(** X7: construction writes one record for the client decision and one
    per built-in fallback, in registration order, and registers the
    built-in keys of the class and no others.  The first record is the
    "configured to use mock responses" line when the backend is switched
    off and the "credentials not provided" warning when it is on without
    endpoint or key. *)
Theorem construction_log_and_registry c deployment_id log0 st :
  construct llm_config env c deployment_id log0 = Ok st ->
  (forall k, is_Some (mock_responses (self st) !! k) <-> k ∈ builtin_keys c) /\
  exists r,
    log st = log0 ++ r :: map registration_record (builtin_keys c) /\
    (use_azure_openai llm_config = false ->
     r = mk_log INFO (component_name (self st) ++ py " configured to use mock responses")) /\
    (use_azure_openai llm_config = true ->
     azure_openai_endpoint llm_config = [] \/ azure_openai_key llm_config = [] ->
     r = mk_log WARNING
           (py "Azure OpenAI credentials not provided. " ++ component_name (self st)
            ++ py " will use mock responses.")).
Proof.
  intros (cls & name & st0 & Hinit & -> & _)%construct_inv.
  destruct (register_defaults_frame c st0) as (_ & -> & _ & ->).
  apply base_init_inv in Hinit as (_ & Hname & Hreg & _ & _ & r & Hlog & H1 & H2).
  split.
  - destruct st0 as [[cl nm dep reg cli] lg]. cbn [self mock_responses] in Hreg.
    subst reg. intros k.
    destruct c; cbn [register_defaults exec snd self mock_responses builtin_keys];
      unfold Parser._register_default_mocks, Generator._register_default_mocks,
        Validator._register_default_mocks, Optimizer._register_default_mocks,
        register_mock_response; unfold_monad;
      cbn [fst snd self log mock_responses py_class component_name
             Base.deployment_id client];
      rewrite !lookup_insert_is_Some', lookup_empty, !elem_of_cons, elem_of_nil;
      (split; intros H; repeat destruct H as [H|H];
       try (by apply is_Some_None in H); try done; subst k);
      repeat first [left; reflexivity | right].
  - exists r. rewrite Hlog, Hname, <- app_assoc. by repeat split.
Qed.

(** X8: the base class looks its model identifier up under
    [<component_name.lower()>_deployment_id].  With one of the four known
    names, in any letter case, construction succeeds; with any other name
    and no usable [deployment_id] it raises [AttributeError] before
    anything is logged; a non-empty [deployment_id] makes the lookup
    unnecessary, whatever the name. *)
Theorem base_init_needs_a_known_name_or_an_override cls name log0 :
  (lower name ∈ component_names ->
   forall deployment_id,
     exists st, Base.__init__ llm_config env cls name deployment_id log0 = Ok st) /\
  (lower name ∉ component_names ->
   forall deployment_id,
     deployment_id = None \/ deployment_id = Some [] ->
     exists message,
       Base.__init__ llm_config env cls name deployment_id log0
       = Raise (mk_exn AttributeError message)) /\
  (forall ch d,
     exists st,
       Base.__init__ llm_config env cls name (Some (ch :: d)) log0 = Ok st /\
       Base.deployment_id (self st) = ch :: d).
Proof.
  split; [|split].
  - intros Hin deployment_id. apply base_init_ok.
    unfold component_names in Hin.
    rewrite !elem_of_cons, elem_of_nil in Hin.
    destruct Hin as [->|[->|[->|[->|[]]]]]; eexists; reflexivity.
  - intros Hnot deployment_id Hd.
    assert (Hattr : getattr llm_config (lower name ++ py "_deployment_id")
                    = Raise (mk_exn AttributeError
                        (py "'LLMEnhancementConfig' object has no attribute '"
                         ++ (lower name ++ py "_deployment_id") ++ py "'"))).
    { assert (Hsplit : forall nm : pystr,
        lower name ++ py "_deployment_id" = nm ++ py "_deployment_id" ->
        nm ∈ component_names -> False).
      { intros nm Heq%app_inv_tail Hin. apply Hnot. by rewrite Heq. }
      unfold getattr.
      destruct (decide (_ = py "parser_deployment_id")) as [Heq|_];
        [destruct (Hsplit (py "parser") Heq); unfold component_names;
         rewrite !elem_of_cons; tauto|].
      destruct (decide (_ = py "generator_deployment_id")) as [Heq|_];
        [destruct (Hsplit (py "generator") Heq); unfold component_names;
         rewrite !elem_of_cons; tauto|].
      destruct (decide (_ = py "validator_deployment_id")) as [Heq|_];
        [destruct (Hsplit (py "validator") Heq); unfold component_names;
         rewrite !elem_of_cons; tauto|].
      destruct (decide (_ = py "optimizer_deployment_id")) as [Heq|_];
        [destruct (Hsplit (py "optimizer") Heq); unfold component_names;
         rewrite !elem_of_cons; tauto|].
      reflexivity. }
    eexists. unfold Base.__init__.
    destruct Hd as [->| ->]; cbn [str_truthy]; by rewrite Hattr.
  - intros ch d. unfold Base.__init__. cbn [str_truthy].
    destruct (use_azure_openai llm_config);
      try destruct (negb _ || negb _); try destruct (azure_openai_init env _);
      eexists; split; reflexivity.
Qed.

(** *** The client never changes after construction *)

Lemma reachable_initial_client c st :
  reachable llm_config env c st ->
  client (self st) = initial_client llm_config env.
Proof.
  induction 1 as [d l0 st Hc | k v st _ IH | op st _ _ IH
                 | sp uc t j m k st _ IH | r st _ IH].
  - apply construct_inv in Hc as (cls & name & st0 & Hinit & -> & _).
    rewrite register_defaults_client.
    by apply base_init_inv in Hinit as (_ & _ & _ & Hcl & _).
  - exact IH.
  - by rewrite (log_only_self _ st (perform_log_only llm_config env op)).
  - by rewrite (log_only_self _ st (call_llm_log_only llm_config env sp uc t j m k)).
  - exact IH.
Qed.

Lemma initial_client_unassigned :
  initial_client llm_config env = None <->
  use_azure_openai llm_config = true /\
  (azure_openai_endpoint llm_config = [] \/ azure_openai_key llm_config = []).
Proof.
  unfold initial_client.
  destruct (use_azure_openai llm_config); [|split; [discriminate|intros [[=] _]]].
  destruct (azure_openai_endpoint llm_config) as [|a ep],
           (azure_openai_key llm_config) as [|b ky]; cbn [str_truthy negb orb].
  1-3: split; [intros _; split; [done|]; auto|done].
  destruct (azure_openai_init env _); split; try discriminate;
    intros [_ [[=]|[=]]].
Qed.

(** X9: in a process with a fixed configuration an operation raises in
    exactly one situation: the backend is switched on and the endpoint or
    the key is empty.  In every other configuration, whatever the backend
    does or replies, every operation returns a value. *)
Theorem operation_raises_exactly_when_credentials_are_missing c st op :
  reachable llm_config env c st ->
  ((exists e, run (perform llm_config env op) st = Raise e) <->
   use_azure_openai llm_config = true /\
   (azure_openai_endpoint llm_config = [] \/ azure_openai_key llm_config = [])) /\
  ((exists v, run (perform llm_config env op) st = Ok v) <->
   ~ (use_azure_openai llm_config = true /\
      (azure_openai_endpoint llm_config = [] \/ azure_openai_key llm_config = []))).
Proof.
  intros Hr. pose proof (reachable_initial_client c st Hr) as Hcl.
  rewrite <- initial_client_unassigned, <- Hcl.
  destruct (perform_call_llm llm_config env op) as (sp & uc & t & j & m & ->).
  destruct (client (self st)) as [cl|] eqn:Hc.
  - destruct (call_llm_returns sp uc t j m (Some (fallback_key op)) st cl Hc)
      as [v Hv].
    rewrite Hv. split; split; try done; eauto. by intros [e [=]].
  - unfold run. rewrite call_llm_no_client_attribute by done. cbn [fst].
    split; split; try done; eauto. by intros [v [=]].
Qed.

(** X10: when the backend is switched on with endpoint and key but
    constructing the client raises, the component holds [None] as its
    client for good: every operation of its class is answered with the
    value registered under its key, and the backend is never called. *)
Theorem failed_client_construction_falls_back c st op e :
  use_azure_openai llm_config = true ->
  azure_openai_endpoint llm_config <> [] ->
  azure_openai_key llm_config <> [] ->
  azure_openai_init env
    (mk_client (azure_openai_endpoint llm_config) (azure_openai_key llm_config)
       (azure_openai_version llm_config)) = Some e ->
  reachable llm_config env c st ->
  op_class op = c ->
  client (self st) = Some None /\
  exists v, mock_responses (self st) !! fallback_key op = Some v /\
            run (perform llm_config env op) st = Ok v.
Proof.
  intros Hu Hep Hkey Hinit Hr Hop.
  assert (Hc : client (self st) = Some None).
  { rewrite (reachable_initial_client c st Hr). unfold initial_client.
    rewrite Hu, Hinit.
    destruct (azure_openai_endpoint llm_config), (azure_openai_key llm_config); done. }
  split; [exact Hc|].
  destruct (reachable_registered llm_config env c st op Hr Hop) as [v Hv].
  exists v. split; [exact Hv|].
  apply perform_fallback_registered; [|exact Hv].
  unfold on_fallback_path. by rewrite Hc.
Qed.

End Construction.

Section Registry.
Variable llm_config : LLMEnhancementConfig.
Variable env : Env.

(** X11: a fallback registered under the empty key is stored but never
    served: a call whose key is the empty string behaves as a call with
    no key, and on the fallback path it gets the generic placeholder. *)
Theorem empty_key_is_never_served response system_prompt user_content temperature
    json_response max_tokens st :
  on_fallback_path llm_config (self st) = true ->
  let st' := exec (register_mock_response [] response) st in
  mock_responses (self st') !! [] = Some response /\
  call_llm llm_config env system_prompt user_content temperature json_response
    max_tokens (Some [])
  = call_llm llm_config env system_prompt user_content temperature json_response
      max_tokens None /\
  run (call_llm llm_config env system_prompt user_content temperature json_response
         max_tokens (Some [])) st'
  = Ok (let preview :=
          let text := payload_text env user_content in
          if 50 <? len text then slice_to 50 text ++ py "..." else text in
        if json_response then placeholder (self st) system_prompt preview
        else VStr (json_dumps (float_repr env)
                     (placeholder (self st) system_prompt preview))).
Proof.
  intros Hf st'. split; [|split].
  - subst st'. cbn. by rewrite lookup_insert_eq.
  - reflexivity.
  - unfold run. rewrite call_llm_fallback by exact Hf.
    unfold _get_mock_response, placeholder. unfold_monad.
    by destruct json_response.
Qed.

(** X12: registrations compose as writes to a map: under one key the
    last registration is the one kept, and registrations under different
    keys give the same registry in either order. *)
Theorem registrations_compose k1 v1 k2 v2 st :
  k1 <> k2 ->
  mock_responses
    (self (exec (register_mock_response k2 v2) (exec (register_mock_response k1 v1) st)))
  = mock_responses
      (self (exec (register_mock_response k1 v1) (exec (register_mock_response k2 v2) st)))
  /\
  mock_responses
    (self (exec (register_mock_response k1 v2) (exec (register_mock_response k1 v1) st)))
  = mock_responses (self (exec (register_mock_response k1 v2) st)).
Proof.
  intros Hne. cbn. split.
  - by rewrite insert_insert_ne.
  - by rewrite insert_insert_eq.
Qed.


(** X14: what [call_llm], an operation or a handler returns, and the
    records it logs, depend on the component object alone and not on the
    log so far; each leaves the object as it found it and only appends to
    the log. *)
Theorem calls_read_the_object_and_append_to_the_log :
  (forall system_prompt user_content temperature json_response max_tokens key,
     appends (call_llm llm_config env system_prompt user_content temperature
                json_response max_tokens key)) /\
  (forall op, appends (perform llm_config env op)) /\
  (forall r, handler_appends (serve llm_config env r)).
Proof.
  split; [|split].
  - intros. apply call_llm_appends.
  - apply perform_appends.
  - apply serve_appends.
Qed.

End Registry.

Section Handlers.
Variable llm_config : LLMEnhancementConfig.
Variable env : Env.

(** *** A handler around one call *)

Lemma handler_one_call info (m : M value) (wrap : value -> value) err detail st :
  appends m ->
  fst (try_handler
         (bind (logger INFO info) (fun _ => bind m (fun x => ret (wrap x))))
         (fun e => log_and_raise (err ++ exn_str e) 500 (detail ++ exn_str e)) st)
  = match run m st with
    | Ok v => Returned (wrap v)
    | Raise e => HTTPException 500 (detail ++ exn_str e)
    end.
Proof.
  intros Hm. destruct st as [s l]. destruct (Hm s) as (r & added & Hr).
  unfold try_handler, run. unfold_monad. cbn [fst snd self log].
  rewrite !Hr. by destruct r.
Qed.

(** X15: a handler that makes one call answers with what the operation
    returns on the handler's component, as it is or under the handler's
    one key, and turns an exception [e] of the operation into
    [HTTPException] 500 whose detail is the handler's own text followed
    by [str(e)]. *)
Theorem handler_translates_the_operation r op wrap st :
  single_operation r = Some (op, wrap) ->
  fst (serve llm_config env r st)
  = match run (perform llm_config env op) st with
    | Ok v => Returned (wrap v)
    | Raise e => HTTPException 500 (failure_detail r ++ exn_str e)
    end.
Proof.
  intros Hop.
  destruct r as [text|text er|rq|tf|tf [[|e0 a]|]|tf cz|tf|tf vr|tf|tf|tf b|tf p|rq|tf u];
    cbn [single_operation] in Hop; try discriminate;
    injection Hop as <- <-; cbn [serve failure_detail perform];
    try (apply (handler_one_call _ _ (fun x => x)); apply call_llm_appends);
    try (apply (handler_one_call _ _ (wrap_under (py "template_files")));
         apply call_llm_appends).
  (* documentation, with the analysis of the request *)
  unfold GeneratorRoutes.generate_documentation.
  destruct st as [s l].
  destruct (call_llm_appends llm_config env
              Generator.generate_documentation_system_prompt
              (UDict [(py "template_files", VDict tf); (py "analysis", VDict (e0 :: a))])
              (Some (0x1.999999999999ap-3)%float) false None
              (Some (py "generate_documentation")) s) as (r & added & Hr).
  unfold try_handler, run, GeneratorRoutes.generate_documentation_with,
    Generator.generate_documentation. unfold_monad.
  cbn [fst snd self log opt_truthy dict_truthy negb of_optional].
  rewrite !Hr. by destruct r.
Qed.

(** *** Handlers and the client *)

Lemma call_llm_returns_with_client system_prompt user_content temperature
    json_response max_tokens key :
  returns_with_client (call_llm llm_config env system_prompt user_content temperature
                         json_response max_tokens key).
Proof.
  intros st c Hc.
  destruct (call_llm_returns llm_config env system_prompt user_content temperature
              json_response max_tokens key st c Hc) as [v Hv].
  destruct (call_llm_log_only llm_config env system_prompt user_content temperature
              json_response max_tokens key st) as (r & l & Hr).
  unfold run in Hv. rewrite Hr in Hv |- *. cbn [fst] in Hv. subst r. eauto.
Qed.

Lemma bind_returns_with_client {A B} (m : M A) (k : A -> M B) :
  returns_with_client m -> (forall a, returns_with_client (k a)) ->
  returns_with_client (bind m k).
Proof.
  intros Hm Hk st c Hc. destruct (Hm st c Hc) as (a & st1 & Hr & Hs).
  destruct (Hk a st1 c) as (b & st2 & Hr' & Hs'); [by rewrite Hs|].
  exists b, st2. unfold bind. rewrite Hr, Hr'. split; [done|]. by rewrite Hs'.
Qed.

Lemma logger_returns_with_client lvl msg : returns_with_client (logger lvl msg).
Proof. intros st c _. by eexists tt, _. Qed.

Lemma ret_returns_with_client {A} (a : A) : returns_with_client (ret a).
Proof. intros st c _. by exists a, st. Qed.

Lemma try_handler_returned body handle st c :
  returns_with_client body -> client (self st) = Some c ->
  exists v, fst (try_handler body handle st) = Returned v.
Proof.
  intros Hb Hc. destruct (Hb st c Hc) as (v & st' & Hr & _).
  exists v. unfold try_handler. by rewrite Hr.
Qed.

Lemma serve_returned r st c :
  client (self st) = Some c ->
  exists v, fst (serve llm_config env r st) = Returned v.
Proof.
  intros Hc.
  destruct r; cbn [serve];
    unfold ParserRoutes.parse_requirements, ParserRoutes.extract_context,
      GeneratorRoutes.generate_terraform, GeneratorRoutes.analyze_template,
      GeneratorRoutes.generate_documentation, GeneratorRoutes.customize_template,
      ValidatorRoutes.validate_terraform, ValidatorRoutes.suggest_fixes,
      ValidatorRoutes.check_best_practices, ValidatorRoutes.check_security,
      OptimizerRoutes.optimize_cost, OptimizerRoutes.optimize_performance,
      OptimizerRoutes.suggest_architecture, OptimizerRoutes.right_size_resources;
    (eapply try_handler_returned; [|exact Hc]);
    (apply bind_returns_with_client; [apply logger_returns_with_client|]; intros _).
  5: { apply bind_returns_with_client.
       { destruct (negb _); [|apply ret_returns_with_client].
         apply bind_returns_with_client; [apply logger_returns_with_client|].
         intros _. apply call_llm_returns_with_client. }
       intros a. apply bind_returns_with_client; [|intros v; apply ret_returns_with_client].
       apply call_llm_returns_with_client. }
  all: apply bind_returns_with_client; [|intros v; apply ret_returns_with_client];
    apply call_llm_returns_with_client.
Qed.

Lemma serve_without_client r st :
  client (self st) = None ->
  fst (serve llm_config env r st)
  = HTTPException 500 (failure_detail r ++ no_client_message (self st)).
Proof.
  intros Hc.
  assert (Hcall : forall sp uc t j m k l,
    call_llm llm_config env sp uc t j m k (mk_state (self st) l)
    = (Raise (mk_exn AttributeError (no_client_message (self st))),
       mk_state (self st) l)).
  { intros. by rewrite call_llm_no_client_attribute. }
  destruct r; cbn [serve failure_detail];
    unfold ParserRoutes.parse_requirements, ParserRoutes.extract_context,
      GeneratorRoutes.generate_terraform, GeneratorRoutes.analyze_template,
      GeneratorRoutes.generate_documentation, GeneratorRoutes.customize_template,
      ValidatorRoutes.validate_terraform, ValidatorRoutes.suggest_fixes,
      ValidatorRoutes.check_best_practices, ValidatorRoutes.check_security,
      OptimizerRoutes.optimize_cost, OptimizerRoutes.optimize_performance,
      OptimizerRoutes.suggest_architecture, OptimizerRoutes.right_size_resources,
      Parser.parse_infrastructure_requirements, Parser.extract_context,
      Generator.generate_terraform_template, Generator.analyze_template,
      Generator.customize_template, GeneratorRoutes.generate_documentation_with,
      Validator.validate_terraform, Validator.suggest_fixes,
      Validator.check_best_practices, Validator.check_security,
      Optimizer.optimize_cost, Optimizer.optimize_performance,
      Optimizer.suggest_architecture, Optimizer.right_size_resources;
    unfold try_handler, log_and_raise; unfold_monad; cbn [fst snd self log].
  5: { destruct (negb _); cbn [fst snd self log]; by rewrite Hcall. }
  all: by rewrite Hcall.
Qed.

(** X16: in a process with a fixed configuration a handler answers with
    [HTTPException] exactly when the backend is switched on and the
    endpoint or the key is empty; the status is 500 and the detail ends
    with the [AttributeError] for the unassigned client.  In every other
    configuration every handler returns a body, whatever the backend
    does. *)
Theorem handler_fails_exactly_when_credentials_are_missing r st :
  reachable llm_config env (served_by r) st ->
  (use_azure_openai llm_config = true /\
   (azure_openai_endpoint llm_config = [] \/ azure_openai_key llm_config = []) ->
   fst (serve llm_config env r st)
   = HTTPException 500 (failure_detail r ++ no_client_message (self st))) /\
  (~ (use_azure_openai llm_config = true /\
      (azure_openai_endpoint llm_config = [] \/ azure_openai_key llm_config = [])) ->
   exists v, fst (serve llm_config env r st) = Returned v).
Proof.
  intros Hr. pose proof (reachable_initial_client llm_config env _ st Hr) as Hcl.
  rewrite <- (initial_client_unassigned llm_config env), <- Hcl.
  split.
  - intros Hc. by apply serve_without_client.
  - intros Hc. destruct (client (self st)) as [c|] eqn:Hclient; [|done].
    by apply (serve_returned r st c).
Qed.

(** X17: on the fallback path the documentation handler answers with the
    registered documentation under the key ["documentation"].  When the
    request has no analysis, or an empty one, it first logs that and
    calls [analyze_template]; with an analysis it makes the one call. *)
Theorem documentation_handler_on_the_fallback_path template_files analysis
    recorded_analysis recorded_documentation st :
  on_fallback_path llm_config (self st) = true ->
  mock_responses (self st) !! py "analyze_template" = Some recorded_analysis ->
  mock_responses (self st) !! py "generate_documentation" = Some recorded_documentation ->
  serve llm_config env (Generator_documentation template_files analysis) st
  = (Returned (VDict [(py "documentation", recorded_documentation)]),
     mk_state (self st)
       (log st
        ++ [mk_log INFO (py "Generating documentation...")]
        ++ (if opt_truthy dict_truthy analysis then []
            else [mk_log INFO (py "No analysis provided, generating one...");
                  mk_log INFO (py "Using mock response for key: analyze_template")])
        ++ [mk_log INFO (py "Using mock response for key: generate_documentation")])).
Proof.
  intros Hf Ha Hd.
  assert (Hcall : forall sp uc t j m k v l,
    str_truthy k = true -> mock_responses (self st) !! k = Some v ->
    call_llm llm_config env sp uc t j m (Some k) (mk_state (self st) l)
    = (Ok v, mk_state (self st)
               (l ++ [mk_log INFO (py "Using mock response for key: " ++ k)]))).
  { intros. rewrite call_llm_fallback by exact Hf.
    by rewrite (get_mock_response_registered env k v). }
  cbn [serve]. unfold GeneratorRoutes.generate_documentation,
    GeneratorRoutes.generate_documentation_with, Generator.analyze_template.
  unfold try_handler. unfold_monad. cbn [fst snd self log].
  destruct (opt_truthy dict_truthy analysis); cbn [negb fst snd self log].
  - rewrite (Hcall _ _ _ _ _ _ recorded_documentation) by done.
    by rewrite <- !app_assoc.
  - rewrite (Hcall _ _ _ _ _ _ recorded_analysis) by done. cbn [fst snd self log].
    rewrite (Hcall _ _ _ _ _ _ recorded_documentation) by done.
    by rewrite <- !app_assoc.
Qed.

End Handlers.

(** X18: with the backend switched off, or with no client, [call_llm]
    consults neither the backend nor the decoder: two environments that
    print floats alike give the same result and the same log. *)
Theorem fallback_path_never_consults_the_backend llm_config env1 env2 system_prompt
    user_content temperature json_response max_tokens key st :
  on_fallback_path llm_config (self st) = true ->
  float_repr env1 = float_repr env2 ->
  call_llm llm_config env1 system_prompt user_content temperature json_response
    max_tokens key st
  = call_llm llm_config env2 system_prompt user_content temperature json_response
      max_tokens key st.
Proof.
  intros Hf Hfr. rewrite !call_llm_fallback by exact Hf.
  unfold _get_mock_response, payload_text. by rewrite Hfr.
Qed.

(** *** The serialised payload is printable ASCII *)

Lemma value_nested_ind (P : value -> Prop) :
  P VNone -> (forall b, P (VBool b)) -> (forall n, P (VInt n)) ->
  (forall f, P (VFloat f)) -> (forall s, P (VStr s)) ->
  (forall l, Forall P l -> P (VList l)) ->
  (forall d, Forall (fun kv => P (snd kv)) d -> P (VDict d)) ->
  forall v, P v.
Proof.
  intros HN HB HI HF HS HL HD. fix IH 1. intros [ |b|n|f|s|l|d].
  - exact HN.
  - apply HB.
  - apply HI.
  - apply HF.
  - apply HS.
  - apply HL. induction l as [|x l IHl]; constructor; [apply IH|exact IHl].
  - apply HD. induction d as [|[k x] d IHd]; constructor; [apply IH|exact IHd].
Qed.

Lemma printable_py_cons a s :
  py (String a s) = N_of_ascii a :: py s.
Proof. reflexivity. Qed.

Lemma printable_hex_digit n : (n < 16)%N -> (32 <= hex_digit n <= 126)%N.
Proof.
  intros Hn. unfold hex_digit. destruct (N.ltb_spec n 10); lia.
Qed.

Lemma printable_hex4 n : printable_ascii (hex4 n).
Proof.
  assert (Hland : forall x, (N.land x 15 < 16)%N).
  { intros x. change 15%N with (N.ones 4). rewrite N.land_ones.
    apply N.mod_lt. discriminate. }
  unfold hex4. repeat constructor; apply printable_hex_digit, Hland.
Qed.

Lemma printable_escape_char c : printable_ascii (escape_char c).
Proof.
  unfold escape_char, printable_ascii.
  repeat match goal with
         | |- context [if (c =? ?k)%N then _ else _] =>
             destruct (c =? k)%N; [by vm_compute; repeat constructor|]
         end.
  destruct (N.leb_spec 32 c), (N.leb_spec c 126); cbn [andb];
    [by repeat constructor| | |];
    (destruct (c <? 65536)%N;
     [apply Forall_app; split; [by vm_compute; repeat constructor|apply printable_hex4]|
      repeat (apply Forall_app; split);
      first [apply printable_hex4 | by vm_compute; repeat constructor]]).
Qed.

Lemma printable_encode_basestring_ascii s :
  printable_ascii (encode_basestring_ascii s).
Proof.
  unfold encode_basestring_ascii, printable_ascii.
  apply Forall_app. split; [by repeat constructor|].
  apply Forall_app. split; [|by repeat constructor].
  induction s as [|c s IH]; [constructor|].
  cbn [map concat]. apply Forall_app. split; [apply printable_escape_char|exact IH].
Qed.

Lemma printable_string_of_uint u :
  printable_ascii (py (NilEmpty.string_of_uint u)).
Proof.
  induction u; cbn [NilEmpty.string_of_uint];
    [constructor|rewrite printable_py_cons; constructor; [by vm_compute|exact IHu]..].
Qed.

Lemma printable_int_repr n : printable_ascii (int_repr n).
Proof.
  unfold int_repr, NilZero.string_of_int, NilZero.string_of_uint.
  destruct (Z.to_int n) as [u|u];
    [|rewrite printable_py_cons; constructor; [by vm_compute|]];
    (destruct u; [by vm_compute; repeat constructor|apply printable_string_of_uint..]).
Qed.

Lemma printable_join sep parts :
  printable_ascii sep -> Forall printable_ascii parts ->
  printable_ascii (join sep parts).
Proof.
  intros Hsep. induction 1 as [|p ps Hp Hps IH]; [constructor|].
  destruct ps as [|q ps]; [exact Hp|].
  change (join sep (p :: q :: ps)) with (p ++ sep ++ join sep (q :: ps)).
  apply Forall_app. split; [exact Hp|]. apply Forall_app. by split.
Qed.

(** X19: [json.dumps] with its defaults escapes everything outside
    printable ASCII, so the text [call_llm] makes of a dictionary payload,
    and sends or previews, holds printable ASCII characters only
    (given that floats print in ASCII). *)
Theorem serialised_payload_is_printable_ascii env d :
  (forall f, printable_ascii (float_repr env f)) ->
  (forall v, printable_ascii (json_dumps (float_repr env) v)) /\
  printable_ascii (payload_text env (UDict d)).
Proof.
  intros Hfr.
  assert (Hall : forall v, printable_ascii (json_dumps (float_repr env) v)).
  { induction v as [ |b|n|f|s|l IH|dd IH] using value_nested_ind.
    - by vm_compute; repeat constructor.
    - destruct b; by vm_compute; repeat constructor.
    - apply printable_int_repr.
    - change (json_dumps (float_repr env) (VFloat f))
        with (floatstr (float_repr env) f). unfold floatstr.
      destruct (PrimFloat.is_nan f); [by vm_compute; repeat constructor|].
      destruct (PrimFloat.is_infinity f); [|apply Hfr].
      destruct (PrimFloat.ltb f 0); by vm_compute; repeat constructor.
    - apply printable_encode_basestring_ascii.
    - change (json_dumps (float_repr env) (VList l))
        with (py "[" ++ join (py ", ") (map (json_dumps (float_repr env)) l) ++ py "]").
      apply Forall_app. split; [by vm_compute; repeat constructor|].
      apply Forall_app. split; [|by vm_compute; repeat constructor].
      apply printable_join; [by vm_compute; repeat constructor|].
      induction IH; constructor; assumption.
    - change (json_dumps (float_repr env) (VDict dd))
        with (py "{" ++ join (py ", ")
                (map (fun kv : pystr * value =>
                        match kv with
                        | (k, x) => encode_basestring_ascii k ++ py ": "
                                    ++ json_dumps (float_repr env) x
                        end) dd) ++ py "}").
      apply Forall_app. split; [by vm_compute; repeat constructor|].
      apply Forall_app. split; [|by vm_compute; repeat constructor].
      apply printable_join; [by vm_compute; repeat constructor|].
      induction IH as [|[k x] dd' Hx _ IH']; constructor; [|exact IH'].
      apply Forall_app. split; [apply printable_encode_basestring_ascii|].
      apply Forall_app. split; [by vm_compute; repeat constructor|exact Hx]. }
  split; [exact Hall|apply Hall].
Qed.

(** ** The further properties at concrete inputs *)

Import Scenarios.

Lemma text_reply_is_returned_unchanged_witness :
  let env := env_replying non_json_reply in
  let system_prompt := py "You are a Terraform expert." in
  let user_content := UStr (py "Describe the network") in
  client (self parser_azure) = Some (Some the_azure_client) /\
  use_azure_openai config_azure = true /\
  chat_completions_create env the_azure_client
    (sent_request (self parser_azure) system_prompt (payload_text env user_content)
       None false None) = Ok (mk_completion [Some non_json_reply]) /\
  choices (mk_completion [Some non_json_reply]) = [Some non_json_reply] /\
  call_llm config_azure env system_prompt user_content None false None None parser_azure
  = (Ok (VStr non_json_reply), parser_azure).
Proof.
  do 4 (split; [reflexivity|]).
  apply (text_reply_is_returned_unchanged config_azure (env_replying non_json_reply)
           (py "You are a Terraform expert.") (UStr (py "Describe the network"))
           None None None parser_azure the_azure_client
           (mk_completion [Some non_json_reply]) (Some non_json_reply) []);
    reflexivity.
Defined.

Lemma json_reply_is_decoded_witness :
  let env := env_decoding json_reply decoded_reply in
  let system_prompt := py "You are a Terraform expert." in
  let user_content := UStr (py "Describe the network") in
  client (self parser_azure_decoding) = Some (Some the_azure_client) /\
  use_azure_openai config_azure = true /\
  chat_completions_create env the_azure_client
    (sent_request (self parser_azure_decoding) system_prompt
       (payload_text env user_content) None true None)
  = Ok (mk_completion [Some json_reply]) /\
  choices (mk_completion [Some json_reply]) = [Some json_reply] /\
  json_loads env json_reply = Ok decoded_reply /\
  call_llm config_azure env system_prompt user_content None true None
    (Some (py "parse_requirements")) parser_azure_decoding
  = (Ok decoded_reply, parser_azure_decoding).
Proof.
  do 5 (split; [reflexivity|]).
  apply (json_reply_is_decoded config_azure (env_decoding json_reply decoded_reply)
           (py "You are a Terraform expert.") (UStr (py "Describe the network"))
           None None (Some (py "parse_requirements")) parser_azure_decoding
           the_azure_client (mk_completion [Some json_reply]) json_reply []
           decoded_reply);
    reflexivity.
Defined.

Lemma transport_failure_is_answered_from_fallback_witness :
  let system_prompt := py "You are a Terraform expert." in
  let user_content := UStr (py "Describe the network") in
  let key := Some (py "parse_requirements") in
  let e := mk_exn (ExternalError (py "APIConnectionError")) (py "Connection error.") in
  client (self parser_azure_offline) = Some (Some the_azure_client) /\
  use_azure_openai config_azure = true /\
  transport_failure true
    (chat_completions_create env_offline the_azure_client
       (sent_request (self parser_azure_offline) system_prompt
          (payload_text env_offline user_content) None true None)) = Some e /\
  call_llm config_azure env_offline system_prompt user_content None true None key
    parser_azure_offline
  = _get_mock_response env_offline key system_prompt
      (payload_text env_offline user_content) true
      (mk_state (self parser_azure_offline)
         (log parser_azure_offline
          ++ [mk_log ERROR (py "Error calling Azure OpenAI: " ++ exn_str e)])) /\
  run (call_llm config_azure env_offline system_prompt user_content None true None key)
    parser_azure_offline
  = run (_get_mock_response env_offline key system_prompt
           (payload_text env_offline user_content) true) parser_azure_offline.
Proof.
  do 3 (split; [reflexivity|]).
  apply (transport_failure_is_answered_from_fallback config_azure env_offline
           (py "You are a Terraform expert.") (UStr (py "Describe the network"))
           None true None (Some (py "parse_requirements")) parser_azure_offline
           the_azure_client);
    reflexivity.
Defined.

Lemma falsy_sampling_overrides_are_ignored_witness :
  float_truthy 0%float = false /\
  int_truthy 0 = false /\
  call_llm config_azure env_offline (py "You are a Terraform expert.")
    (UStr (py "Describe the network")) (Some 0%float) true (Some 0) None
  = call_llm config_azure env_offline (py "You are a Terraform expert.")
      (UStr (py "Describe the network")) None true None None.
Proof.
  do 2 (split; [reflexivity|]).
  apply (falsy_sampling_overrides_are_ignored config_azure env_offline); reflexivity.
Defined.

Lemma outcome_depends_on_the_sent_request_witness :
  let system_prompt := py "You are a Terraform expert." in
  let user_content := UStr (py "Describe the network") in
  let key := Some (py "parse_requirements") in
  float_repr env_offline = float_repr env_client_fails /\
  json_loads env_offline = json_loads env_client_fails /\
  (forall c, client (self parser_azure_offline) = Some (Some c) ->
     chat_completions_create env_offline c
       (sent_request (self parser_azure_offline) system_prompt
          (payload_text env_offline user_content) None true None)
     = chat_completions_create env_client_fails c
         (sent_request (self parser_azure_offline) system_prompt
            (payload_text env_offline user_content) None true None)) /\
  call_llm config_azure env_offline system_prompt user_content None true None key
    parser_azure_offline
  = call_llm config_azure env_client_fails system_prompt user_content None true None key
      parser_azure_offline.
Proof.
  do 3 (split; [reflexivity|]).
  apply (outcome_depends_on_the_sent_request config_azure env_offline env_client_fails);
    reflexivity.
Defined.

Lemma constructed_deployment_id_witness :
  construct config_mock_only env_offline NaturalLanguageParser
    (Some (py "gpt-4o-infra")) [] = Ok parser_named /\
  construct config_mock_only env_offline NaturalLanguageParser (Some []) []
  = Ok parser_mock_only /\
  deployment_id (self parser_named) = py "gpt-4o-infra" /\
  deployment_id (self parser_mock_only) = parser_deployment_id config_mock_only.
Proof.
  split; [reflexivity|]. split; [reflexivity|]. split.
  - apply (constructed_deployment_id config_mock_only env_offline NaturalLanguageParser
             (Some (py "gpt-4o-infra")) [] parser_named). reflexivity.
  - apply (constructed_deployment_id config_mock_only env_offline NaturalLanguageParser
             (Some []) [] parser_mock_only). reflexivity.
Defined.

Lemma construction_log_and_registry_witness :
  construct config_default env_offline TemplateGenerator None [] = Ok generator_default /\
  (forall k, is_Some (mock_responses (self generator_default) !! k)
             <-> k ∈ builtin_keys TemplateGenerator) /\
  exists r,
    log generator_default = [] ++ r :: map registration_record (builtin_keys TemplateGenerator) /\
    (use_azure_openai config_default = false ->
     r = mk_log INFO (component_name (self generator_default)
                      ++ py " configured to use mock responses")) /\
    (use_azure_openai config_default = true ->
     azure_openai_endpoint config_default = [] \/ azure_openai_key config_default = [] ->
     r = mk_log WARNING
           (py "Azure OpenAI credentials not provided. "
            ++ component_name (self generator_default)
            ++ py " will use mock responses.")).
Proof.
  split; [reflexivity|].
  apply (construction_log_and_registry config_default env_offline TemplateGenerator
           None [] generator_default). reflexivity.
Defined.

Lemma base_init_needs_a_known_name_or_an_override_witness :
  (lower (py "Parser") ∈ component_names) /\
  (exists st, Base.__init__ config_mock_only env_offline (py "LLMComponentBase")
                (py "Parser") None [] = Ok st) /\
  (lower (py "planner") ∉ component_names) /\
  (exists message,
     Base.__init__ config_mock_only env_offline (py "LLMComponentBase")
       (py "planner") (Some []) []
     = Raise (mk_exn AttributeError message)) /\
  (exists st,
     Base.__init__ config_mock_only env_offline (py "LLMComponentBase")
       (py "planner") (Some (py "gpt-4")) [] = Ok st /\
     deployment_id (self st) = py "gpt-4").
Proof.
  assert (Hin : lower (py "Parser") ∈ component_names) by (by left).
  assert (Hout : lower (py "planner") ∉ component_names).
  { intros H%list_elem_of_In. vm_compute in H. intuition discriminate. }
  split; [exact Hin|]. split; [|split; [exact Hout|split]].
  - apply (base_init_needs_a_known_name_or_an_override config_mock_only env_offline
             (py "LLMComponentBase") (py "Parser") []); exact Hin.
  - apply (base_init_needs_a_known_name_or_an_override config_mock_only env_offline
             (py "LLMComponentBase") (py "planner") []); [exact Hout|by right].
  - apply (base_init_needs_a_known_name_or_an_override config_mock_only env_offline
             (py "LLMComponentBase") (py "planner") [] ).
Defined.

Lemma operation_raises_exactly_when_credentials_are_missing_witness :
  let op := Analyze_template [(py "main.tf", VStr (py "# main"))] in
  reachable config_default env_offline TemplateGenerator generator_default /\
  ((exists e, run (perform config_default env_offline op) generator_default = Raise e) <->
   use_azure_openai config_default = true /\
   (azure_openai_endpoint config_default = [] \/ azure_openai_key config_default = [])) /\
  ((exists v, run (perform config_default env_offline op) generator_default = Ok v) <->
   ~ (use_azure_openai config_default = true /\
      (azure_openai_endpoint config_default = [] \/ azure_openai_key config_default = []))).
Proof.
  assert (Hr : reachable config_default env_offline TemplateGenerator generator_default).
  { apply (reach_construct _ _ _ None []). reflexivity. }
  split; [exact Hr|].
  apply (operation_raises_exactly_when_credentials_are_missing config_default env_offline
           TemplateGenerator generator_default). exact Hr.
Defined.

Lemma failed_client_construction_falls_back_witness :
  let op := Check_security [(py "main.tf", VStr (py "# main"))] in
  use_azure_openai config_azure = true /\
  azure_openai_endpoint config_azure <> [] /\
  azure_openai_key config_azure <> [] /\
  azure_openai_init env_client_fails the_azure_client
  = Some (mk_exn (ExternalError (py "OpenAIError")) (py "Invalid API version")) /\
  reachable config_azure env_client_fails IntelligentValidator validator_client_failed /\
  op_class op = IntelligentValidator /\
  client (self validator_client_failed) = Some None /\
  exists v,
    mock_responses (self validator_client_failed) !! fallback_key op = Some v /\
    run (perform config_azure env_client_fails op) validator_client_failed = Ok v.
Proof.
  assert (Hr : reachable config_azure env_client_fails IntelligentValidator
                 validator_client_failed).
  { apply (reach_construct _ _ _ None []). reflexivity. }
  split; [reflexivity|]. split; [discriminate|]. split; [discriminate|].
  split; [reflexivity|]. split; [exact Hr|]. split; [reflexivity|].
  apply (failed_client_construction_falls_back config_azure env_client_fails
           IntelligentValidator validator_client_failed
           (Check_security [(py "main.tf", VStr (py "# main"))])
           (mk_exn (ExternalError (py "OpenAIError")) (py "Invalid API version")));
    first [reflexivity | discriminate | exact Hr].
Defined.

Lemma empty_key_is_never_served_witness :
  let st' := exec (register_mock_response [] empty_validation) validator_mock_only in
  let system_prompt := py "You are a Terraform expert." in
  let user_content := UStr (py "Describe the network") in
  on_fallback_path config_mock_only (self validator_mock_only) = true /\
  mock_responses (self st') !! [] = Some empty_validation /\
  call_llm config_mock_only env_offline system_prompt user_content None true None (Some [])
  = call_llm config_mock_only env_offline system_prompt user_content None true None None /\
  run (call_llm config_mock_only env_offline system_prompt user_content None true None
         (Some [])) st'
  = Ok (placeholder (self validator_mock_only) system_prompt (py "Describe the network")).
Proof.
  split; [reflexivity|].
  apply (empty_key_is_never_served config_mock_only env_offline empty_validation
           (py "You are a Terraform expert.") (UStr (py "Describe the network"))
           None true None validator_mock_only). reflexivity.
Defined.

Lemma registrations_compose_witness :
  let k1 := py "validate_terraform" in
  let k2 := py "check_security" in
  (k1 <> k2) /\
  (mock_responses
     (self (exec (register_mock_response k2 VNone)
              (exec (register_mock_response k1 empty_validation) validator_mock_only)))
   = mock_responses
       (self (exec (register_mock_response k1 empty_validation)
                (exec (register_mock_response k2 VNone) validator_mock_only)))) /\
  (mock_responses
     (self (exec (register_mock_response k1 VNone)
              (exec (register_mock_response k1 empty_validation) validator_mock_only)))
   = mock_responses (self (exec (register_mock_response k1 VNone) validator_mock_only))).
Proof.
  assert (Hne : py "validate_terraform" <> py "check_security").
  { intros H. vm_compute in H. discriminate. }
  split; [exact Hne|].
  apply (registrations_compose (py "validate_terraform") empty_validation
           (py "check_security") VNone validator_mock_only). exact Hne.
Defined.

Lemma handler_translates_the_operation_witness :
  let template_files := [(py "network.tf", VStr (py "# network"))] in
  let r := Generator_customize template_files [] in
  let op := Customize_template template_files [] in
  single_operation r = Some (op, wrap_under (py "template_files")) /\
  fst (serve config_mock_only env_offline r generator_mock_only)
  = match run (perform config_mock_only env_offline op) generator_mock_only with
    | Ok v => Returned (wrap_under (py "template_files") v)
    | Raise e => HTTPException 500 (failure_detail r ++ exn_str e)
    end.
Proof.
  split; [reflexivity|].
  apply (handler_translates_the_operation config_mock_only env_offline
           (Generator_customize [(py "network.tf", VStr (py "# network"))] [])).
  reflexivity.
Defined.

Lemma handler_fails_exactly_when_credentials_are_missing_witness :
  let r := Generator_analyze [(py "main.tf", VStr (py "# main"))] in
  reachable config_default env_offline (served_by r) generator_default /\
  (use_azure_openai config_default = true /\
   (azure_openai_endpoint config_default = [] \/ azure_openai_key config_default = []) ->
   fst (serve config_default env_offline r generator_default)
   = HTTPException 500 (failure_detail r ++ no_client_message (self generator_default))) /\
  (~ (use_azure_openai config_default = true /\
      (azure_openai_endpoint config_default = [] \/ azure_openai_key config_default = [])) ->
   exists v, fst (serve config_default env_offline r generator_default) = Returned v).
Proof.
  assert (Hr : reachable config_default env_offline TemplateGenerator generator_default).
  { apply (reach_construct _ _ _ None []). reflexivity. }
  split; [exact Hr|].
  apply (handler_fails_exactly_when_credentials_are_missing config_default env_offline
           (Generator_analyze [(py "main.tf", VStr (py "# main"))]) generator_default).
  exact Hr.
Defined.

Lemma documentation_handler_on_the_fallback_path_witness :
  let template_files := [(py "main.tf", VStr (py "# main"))] in
  on_fallback_path config_mock_only (self generator_mock_only) = true /\
  mock_responses (self generator_mock_only) !! py "analyze_template"
  = Some Generator.mock_analyze_template /\
  mock_responses (self generator_mock_only) !! py "generate_documentation"
  = Some Generator.mock_generate_documentation /\
  serve config_mock_only env_offline (Generator_documentation template_files None)
    generator_mock_only
  = (Returned (VDict [(py "documentation", Generator.mock_generate_documentation)]),
     mk_state (self generator_mock_only)
       (log generator_mock_only
        ++ [mk_log INFO (py "Generating documentation...")]
        ++ [mk_log INFO (py "No analysis provided, generating one...");
            mk_log INFO (py "Using mock response for key: analyze_template")]
        ++ [mk_log INFO (py "Using mock response for key: generate_documentation")])).
Proof.
  assert (Ha : mock_responses (self generator_mock_only) !! py "analyze_template"
               = Some Generator.mock_analyze_template) by (vm_compute; reflexivity).
  assert (Hd : mock_responses (self generator_mock_only) !! py "generate_documentation"
               = Some Generator.mock_generate_documentation) by (vm_compute; reflexivity).
  split; [reflexivity|]. split; [exact Ha|]. split; [exact Hd|].
  apply (documentation_handler_on_the_fallback_path config_mock_only env_offline
           [(py "main.tf", VStr (py "# main"))] None
           Generator.mock_analyze_template Generator.mock_generate_documentation
           generator_mock_only); [reflexivity|exact Ha|exact Hd].
Defined.

Lemma fallback_path_never_consults_the_backend_witness :
  let system_prompt := py "You are a Terraform expert." in
  let user_content := UStr (py "Describe the network") in
  on_fallback_path config_mock_only (self parser_mock_only) = true /\
  float_repr env_offline = float_repr (env_replying non_json_reply) /\
  call_llm config_mock_only env_offline system_prompt user_content None true None
    (Some (py "parse_requirements")) parser_mock_only
  = call_llm config_mock_only (env_replying non_json_reply) system_prompt user_content
      None true None (Some (py "parse_requirements")) parser_mock_only.
Proof.
  do 2 (split; [reflexivity|]).
  apply (fallback_path_never_consults_the_backend config_mock_only env_offline
           (env_replying non_json_reply)); reflexivity.
Defined.

Lemma serialised_payload_is_printable_ascii_witness :
  let d := [(py "name", VStr [233%N; 10%N; 128512%N]); (py "count", VInt (-2))] in
  (forall f, printable_ascii (float_repr env_offline f)) /\
  (forall v, printable_ascii (json_dumps (float_repr env_offline) v)) /\
  printable_ascii (payload_text env_offline (UDict d)).
Proof.
  assert (Hfr : forall f, printable_ascii (float_repr env_offline f)).
  { intros f. cbn [float_repr env_offline]. vm_compute. by repeat constructor. }
  split; [exact Hfr|].
  apply (serialised_payload_is_printable_ascii env_offline). exact Hfr.
Defined.
